(** * Ledger normalisation and reporting of the expense-tracker bot

    A shallow embedding of [bot.py]: the sheet snapshot is a list of rows
    of strings, a pandas [DataFrame] is a list of column labels with a list
    of rows of dynamically typed cells, and every command is a function
    from the snapshot, the calling user and the clock to the answer it
    makes up, which [sent] hands to Discord.  Amounts are exact
    rationals: the rounding of [float64] is outside the model, and no
    statement below equates sums that the code takes in different
    orders. *)

From Stdlib Require Import List ZArith QArith Bool Lia.
From Stdlib Require Import Ascii String.
From Stdlib Require Import Sorting.Sorted Sorting.Permutation.
From Stdlib Require Import Structures.OrderedTypeEx.
Import ListNotations.

Local Open Scope string_scope.
Local Open Scope Z_scope.

(** ** Calendar arithmetic of [datetime]

    [datetime.now()], the parsed [Date] cells and the values of
    [monthrange] are proleptic Gregorian dates; the functions below follow
    the pure-Python [datetime] module the interpreter ships. *)

Module Calendar.

Record Timestamp := mkTimestamp {
  year : Z;
  month : Z;
  day : Z;
  second_of_day : Z
}.

Definition is_leap (y : Z) : bool :=
  (y mod 4 =? 0) && (negb (y mod 100 =? 0) || (y mod 400 =? 0)).

Definition days_before_year (y : Z) : Z :=
  let p := y - 1 in p * 365 + p / 4 - p / 100 + p / 400.

Definition days_in_month (y m : Z) : Z :=
  if m =? 2 then (if is_leap y then 29 else 28)
  else if (m =? 4) || (m =? 6) || (m =? 9) || (m =? 11) then 30
  else 31.

(** The table [_DAYS_BEFORE_MONTH], for a common year. *)
Definition DAYS_BEFORE_MONTH (m : Z) : Z :=
  nth (Z.to_nat m) [0; 0; 31; 59; 90; 120; 151; 181; 212; 243; 273; 304; 334] 0.

Definition days_before_month (y m : Z) : Z :=
  DAYS_BEFORE_MONTH m + (if (2 <? m) && is_leap y then 1 else 0).

Definition ymd2ord (y m d : Z) : Z :=
  days_before_year y + days_before_month y m + d.

(** [t.toordinal()], also the calendar day [t.date()] stands for. *)
Definition toordinal (t : Timestamp) : Z :=
  ymd2ord (year t) (month t) (day t).

(** [t.weekday()]: Monday is 0. *)
Definition weekday (t : Timestamp) : Z := (toordinal t + 6) mod 7.

Definition isoweek1monday (y : Z) : Z :=
  let firstday := ymd2ord y 1 1 in
  let firstweekday := (firstday + 6) mod 7 in
  let week1monday := firstday - firstweekday in
  if 3 <? firstweekday then week1monday + 7 else week1monday.

(** [t.isocalendar()]: ISO year, ISO week number and ISO weekday. *)
Definition isocalendar (t : Timestamp) : Z * Z * Z :=
  let y := year t in
  let today := toordinal t in
  let week := (today - isoweek1monday y) / 7 in
  let wd := (today - isoweek1monday y) mod 7 in
  if week <? 0 then
    let w1 := isoweek1monday (y - 1) in
    (y - 1, (today - w1) / 7 + 1, (today - w1) mod 7 + 1)
  else if (52 <=? week) && (isoweek1monday (y + 1) <=? today) then
    (y + 1, 1, wd + 1)
  else (y, week + 1, wd + 1).

(** [t.isocalendar()[1]] and [Series.dt.isocalendar().week]. *)
Definition iso_week (t : Timestamp) : Z := snd (fst (isocalendar t)).

Definition iso_year (t : Timestamp) : Z := fst (fst (isocalendar t)).

(** [t.strftime('%Y-%m')], as the pair it prints. *)
Definition year_month (t : Timestamp) : Z * Z := (year t, month t).

Definition year_month_eqb (a b : Z * Z) : bool :=
  (fst a =? fst b) && (snd a =? snd b).

(** The order of timestamps: seconds on the proleptic time line. *)
Definition instant (t : Timestamp) : Z := toordinal t * 86400 + second_of_day t.

(** A timestamp that names a day of the calendar and a time of that day. *)
Definition valid (t : Timestamp) : bool :=
  (1 <=? month t) && (month t <=? 12) &&
  (1 <=? day t) && (day t <=? days_in_month (year t) (month t)) &&
  (0 <=? second_of_day t) && (second_of_day t <? 86400).

End Calendar.

Export Calendar.

(** ** Cells, series and frames *)

(** A cell of a frame.  [Null] is what pandas calls missing: [None] in a
    column of strings, [NaN] in a column of numbers, [NaT] in a column of
    timestamps. *)
Inductive value :=
| Null
| Str (s : string)
| Num (q : Q)
| Time (t : Timestamp).

Record DataFrame := mkDataFrame {
  columns : list string;
  data : list (list value)
}.

(** The columns the bot writes, in the order it writes them. *)
Definition HEADERS : list string :=
  ["User"; "Amount"; "Description"; "Category"; "Type"; "Date"].

(** [pd.DataFrame(columns=HEADERS)]. *)
Definition empty_frame : DataFrame := mkDataFrame HEADERS [].

(** [df.empty]: an axis of length zero. *)
Definition empty (df : DataFrame) : bool :=
  match data df, columns df with
  | [], _ => true
  | _, [] => true
  | _, _ => false
  end.

Definition isna (v : value) : bool :=
  match v with Null => true | _ => false end.

(** [v == s] against a string: only a string cell can be equal to it. *)
Definition eq_str (s : string) (v : value) : bool :=
  match v with Str s' => String.eqb s' s | _ => false end.

(** The number in a cell of a numeric column; a missing number counts for
    nothing in a sum ([skipna]). *)
Definition num (v : value) : Q :=
  match v with Num q => q | _ => 0%Q end.

Definition Qsum (l : list Q) : Q := fold_right Qplus 0%Q l.

(** Positions of the label [name] among the column labels, from [i]. *)
Fixpoint positions (name : string) (cols : list string) (i : nat) : list nat :=
  match cols with
  | [] => []
  | c :: cols' =>
      if String.eqb c name then i :: positions name cols' (S i)
      else positions name cols' (S i)
  end.

(** [df[name]] as a series: the position of the one column so labelled.
    [None] stands for the exception the caller gets: [KeyError] when no
    column has the label, and when several have it the selection is a
    frame, on which [to_numeric], [to_datetime] and the [.dt] accessor
    raise. *)
Definition loc (name : string) (cols : list string) : option nat :=
  match positions name cols 0 with
  | [i] => Some i
  | _ => None
  end.

Definition cell (i : nat) (row : list value) : value := nth i row Null.

Fixpoint update_at (i : nat) (f : value -> value) (row : list value) : list value :=
  match row, i with
  | [], _ => []
  | v :: row', O => f v :: row'
  | v :: row', S i' => v :: update_at i' f row'
  end.

(** [df[mask]] for a mask computed row by row. *)
Definition select (p : list value -> bool) (df : DataFrame) : DataFrame :=
  mkDataFrame (columns df) (filter p (data df)).

(** [df[df[name] == s]]. *)
Definition where_eq (name s : string) (df : DataFrame) : option DataFrame :=
  match loc name (columns df) with
  | Some i => Some (select (fun r => eq_str s (cell i r)) df)
  | None => None
  end.

(** [df[name].sum()] of a numeric column. *)
Definition sum_of (name : string) (df : DataFrame) : option Q :=
  match loc name (columns df) with
  | Some i => Some (Qsum (map (fun r => num (cell i r)) (data df)))
  | None => None
  end.

(** ** Python's strings

    A [string] is the UTF-8 encoding of a Python [str]: one character for
    each ASCII character, two to four for any other. *)

Definition lower_ascii (c : ascii) : ascii :=
  let n := nat_of_ascii c in
  if (Nat.leb 65 n && Nat.leb n 90)%bool then ascii_of_nat (n + 32) else c.

(** What [s.lower()] is when [s] has ASCII characters only: the letters A
    to Z folded, nothing else touched. *)
Fixpoint lower_A_to_Z (s : string) : string :=
  match s with
  | EmptyString => EmptyString
  | String c s' => String (lower_ascii c) (lower_A_to_Z s')
  end.

(** [s.isascii()]. *)
Fixpoint is_ascii (s : string) : bool :=
  match s with
  | EmptyString => true
  | String c s' => Nat.ltb (nat_of_ascii c) 128 && is_ascii s'
  end.

(** ** Insertion sort *)

Section Sorting.

Context {A : Type}.

(** [before x y]: [x] may stand in front of [y]. *)
Variable before : A -> A -> bool.

Fixpoint insert (x : A) (l : list A) : list A :=
  match l with
  | [] => [x]
  | y :: l' => if before x y then x :: l else y :: insert x l'
  end.

(** The insertion sort numpy's quicksort ends in, and is as a whole on
    an array of 16 elements or fewer: it is stable, of two elements
    neither of which must come first the one that was first stays
    first. *)
Definition sort (l : list A) : list A := fold_right insert [] l.

End Sorting.

(** ** What the bot takes from its libraries

    [to_numeric] and [to_datetime] are [pd.to_numeric(_, errors='coerce')]
    and [pd.to_datetime(_, errors='coerce')] on one string cell: the
    number or the timestamp it reads, or nothing where pandas puts [NaN]
    or [NaT].

    [lower] is [str.lower()], which follows the Unicode tables; all that
    is taken of it is what it does on ASCII strings.

    [quicksort] is the sort behind [sort_values], whose default [kind] is
    numpy's quicksort, under an order [before]: the result holds the same
    elements in an order that respects [before], it is the insertion sort
    on 16 elements or fewer, and beyond that nothing is known of the
    order in which it leaves elements that compare equal.

    [pie_draws] says for which wedge sizes [plt.pie] returns; it raises
    [ValueError] when one of them is negative.

    The development is parametric in them; [bot_format] below reads the
    strings the bot itself writes. *)
Class Coercions := {
  to_numeric : string -> option Q;
  to_datetime : string -> option Timestamp;
  lower : string -> string;
  quicksort : forall A : Type, (A -> A -> bool) -> list A -> list A;
  pie_draws : list Q -> bool;
  lower_of_ascii : forall s, is_ascii s = true -> lower s = lower_A_to_Z s;
  quicksort_permutes : forall (A : Type) (before : A -> A -> bool) (l : list A),
    Permutation (quicksort A before l) l;
  quicksort_orders : forall (A : Type) (before : A -> A -> bool) (l : list A),
    (forall x y, before x y = true \/ before y x = true) ->
    (forall x y z, before x y = true -> before y z = true -> before x z = true) ->
    StronglySorted (fun x y => before x y = true) (quicksort A before l);
  quicksort_short : forall (A : Type) (before : A -> A -> bool) (l : list A),
    (List.length l <= 16)%nat -> quicksort A before l = sort before l;
  pie_draws_no_negative : forall sizes,
    pie_draws sizes = true -> Forall (fun x => (0 <= x)%Q) sizes
}.

Arguments quicksort {_} {A} before l.

Definition digit (c : ascii) : option Z :=
  let n := Z.of_nat (nat_of_ascii c) in
  if (48 <=? n) && (n <=? 57) then Some (n - 48) else None.

(** A non-empty run of decimal digits, read from the left onto [acc]. *)
Fixpoint digits_from (acc : Z) (s : string) : option Z :=
  match s with
  | EmptyString => Some acc
  | String c s' =>
      match digit c with
      | Some d => digits_from (acc * 10 + d) s'
      | None => None
      end
  end.

Definition digits (s : string) : option Z :=
  match s with
  | EmptyString => None
  | _ => digits_from 0 s
  end.

(** [s.split(sep)] on one character. *)
Fixpoint split_on (sep : ascii) (s : string) : list string :=
  match s with
  | EmptyString => [EmptyString]
  | String c s' =>
      match split_on sep s' with
      | [] => [EmptyString]
      | w :: ws =>
          if Ascii.eqb c sep then EmptyString :: w :: ws
          else String c w :: ws
      end
  end.

Definition unsigned_decimal (s : string) : option Q :=
  match split_on "." s with
  | [i] =>
      match digits i with
      | Some n => Some (inject_Z n)
      | None => None
      end
  | [i; f] =>
      match i, f with
      | EmptyString, EmptyString => None
      | _, _ =>
          match digits_from 0 i, digits_from 0 f with
          | Some n, Some m =>
              let scale := 10 ^ Z.of_nat (String.length f) in
              Some (Qmake (n * scale + m) (Z.to_pos scale))
          | _, _ => None
          end
      end
  | _ => None
  end.

(** A decimal literal as [str(float)] prints it for the amounts of
    everyday use: an optional sign, digits, an optional fractional part. *)
Definition decimal (s : string) : option Q :=
  match s with
  | String "-" s' =>
      match unsigned_decimal s' with
      | Some q => Some (Qopp q)
      | None => None
      end
  | String "+" s' => unsigned_decimal s'
  | _ => unsigned_decimal s
  end.

Definition three_numbers (sep : ascii) (s : string) : option (Z * Z * Z) :=
  match split_on sep s with
  | [a; b; c] =>
      match digits a, digits b, digits c with
      | Some x, Some y, Some z => Some (x, y, z)
      | _, _, _ => None
      end
  | _ => None
  end.

(** The first and the last instant a pandas [Timestamp] can hold:
    1677-09-21 00:12:44 and 2262-04-11 23:47:16, to the second. *)
Definition Timestamp_min : Z := instant (mkTimestamp 1677 9 21 764).
Definition Timestamp_max : Z := instant (mkTimestamp 2262 4 11 85636).

Definition in_bounds (t : Timestamp) : option Timestamp :=
  if valid t && (Timestamp_min <=? instant t) && (instant t <=? Timestamp_max)
  then Some t else None.

(** [%Y-%m-%d %H:%M:%S], the format of [strftime] in the recording
    commands, or the date alone. *)
Definition date_time (s : string) : option Timestamp :=
  match split_on " " s with
  | [d] =>
      match three_numbers "-" d with
      | Some (y, m, dd) => in_bounds (mkTimestamp y m dd 0)
      | None => None
      end
  | [d; t] =>
      match three_numbers "-" d, three_numbers ":" t with
      | Some (y, m, dd), Some (hh, mm, ss) =>
          if (hh <? 24) && (mm <? 60) && (ss <? 60)
          then in_bounds (mkTimestamp y m dd (hh * 3600 + mm * 60 + ss))
          else None
      | _, _ => None
      end
  | _ => None
  end.

(** The libraries on the strings the bot writes and on short series:
    decimal amounts, the dates of [strftime], ASCII text, the insertion
    sort, and a pie for wedges none of which is negative. *)
Definition bot_format : Coercions.
Proof.
  refine {|
    to_numeric := decimal;
    to_datetime := date_time;
    lower := lower_A_to_Z;
    quicksort := @sort;
    pie_draws := forallb (fun x => Qle_bool 0 x)
  |}.
  - reflexivity.
  - intros A before l.
    assert (I : forall x s, Permutation (insert before x s) (x :: s)).
    { intros x s. induction s as [|y s IH]; simpl; [apply Permutation_refl|].
      destruct (before x y); [apply Permutation_refl|].
      eapply perm_trans; [apply perm_skip, IH|apply perm_swap]. }
    induction l as [|x l IH]; simpl; [constructor|].
    eapply perm_trans; [apply I|]. now apply perm_skip.
  - intros A before l total transitive.
    assert (I : forall x s, Permutation (insert before x s) (x :: s)).
    { intros x s. induction s as [|y s IH]; simpl; [apply Permutation_refl|].
      destruct (before x y); [apply Permutation_refl|].
      eapply perm_trans; [apply perm_skip, IH|apply perm_swap]. }
    assert (S : forall x s, StronglySorted (fun a b => before a b = true) s ->
                            StronglySorted (fun a b => before a b = true)
                              (insert before x s)).
    { intros x s H. induction H as [|y s H IH Hy]; simpl.
      - constructor; constructor.
      - destruct (before x y) eqn:B.
        + constructor; [now constructor|].
          constructor; [exact B|].
          rewrite Forall_forall in *. intros z Hz.
          apply (transitive x y z); [exact B|now apply Hy].
        + constructor; [exact IH|].
          rewrite Forall_forall in *. intros z Hz.
          apply (Permutation_in _ (I x s)) in Hz. destruct Hz as [<-|Hz].
          * destruct (total x y) as [T|T]; [congruence|exact T].
          * now apply Hy. }
    induction l as [|x l IH]; simpl; [constructor|]. now apply S.
  - reflexivity.
  - intros sizes H. rewrite Forall_forall. intros x Hx.
    apply Qle_bool_iff. exact (proj1 (forallb_forall _ sizes) H x Hx).
Defined.

(** ** Sorting and grouping, as the reports use them *)

Section Grouping.

Context {K : Type}.

Variable cmp : K -> K -> comparison.

(** Adds [q] to the sum of group [k], in a series kept in key order. *)
Fixpoint upsert (k : K) (q : Q) (m : list (K * Q)) : list (K * Q) :=
  match m with
  | [] => [(k, q)]
  | (k', q') :: m' =>
      match cmp k k' with
      | Lt => (k, q) :: m
      | Eq => (k', (q' + q)%Q) :: m'
      | Gt => (k', q') :: upsert k q m'
      end
  end.

Definition add_row (m : list (K * Q)) (r : option K * Q) : list (K * Q) :=
  match fst r with
  | Some k => upsert k (snd r) m
  | None => m
  end.

(** [groupby(key)[amount].sum()]: one entry per key, keys ascending
    ([sort=True]), rows without a key left out ([dropna=True]), each sum
    taken in row order. *)
Definition groupby_sum (l : list (option K * Q)) : list (K * Q) :=
  fold_left add_row l [].

End Grouping.

(** [Series.sort_values(ascending=False)] on a series of sums: largest
    first.  pandas sorts the series reversed and reverses the result
    back, so that where the sort is stable equal sums stay in the order
    they had. *)
Definition sort_values_desc {C : Coercions} {K : Type} (m : list (K * Q)) : list (K * Q) :=
  quicksort (fun x y => Qle_bool (snd y) (snd x)) m.

Definition key_str (v : value) : option string :=
  match v with Str s => Some s | _ => None end.

(** [Date.dt.date] as the ordinal of the calendar day; [NaT] has none. *)
Definition key_day (v : value) : option Z :=
  match v with Time t => Some (toordinal t) | _ => None end.

Definition key_instant (v : value) : option Z :=
  match v with Time t => Some (instant t) | _ => None end.

Definition has_key {A : Type} (key : A -> option Z) (x : A) : bool :=
  match key x with Some _ => true | None => false end.

Definition key_or_zero {A : Type} (key : A -> option Z) (x : A) : Z :=
  match key x with Some k => k | None => 0 end.

(** [df.sort_values(by, ascending=False)] on a column of timestamps: rows
    with a timestamp latest first, then the rows without one
    ([na_position='last']), these in the order they had. *)
Definition sort_rows_desc {C : Coercions} {A : Type} (key : A -> option Z) (rows : list A)
  : list A :=
  quicksort (fun x y => key_or_zero key y <=? key_or_zero key x) (filter (has_key key) rows)
  ++ filter (fun x => negb (has_key key x)) rows.

(** [df.head(n)]: the first [n] rows, all but the last [-n] when [n] is
    negative. *)
Definition head {A : Type} (n : Z) (rows : list A) : list A :=
  if 0 <=? n then firstn (Z.to_nat n) rows
  else firstn (List.length rows - Z.to_nat (- n)) rows.

(** ** Exceptions

    A computation that can raise is an [option]; every command wraps its
    body in [try ... except Exception] and answers with an error message
    when it does. *)

Definition bind {A B : Type} (o : option A) (k : A -> option B) : option B :=
  match o with
  | Some a => k a
  | None => None
  end.

Notation "x <- e ;; k" := (bind e (fun x => k))
  (at level 61, e at next level, right associativity).
Notation "' p <- e ;; k" := (bind e (fun p => k))
  (at level 61, p pattern, e at next level, right associativity).

(** ** The row normaliser: [get_processed_records] *)

Section Normaliser.

Context {C : Coercions}.

(** The widest row: the number of columns [pd.DataFrame] gives to a list
    of rows. *)
Definition width (rows : list (list string)) : nat :=
  fold_right (fun r w => Nat.max (List.length r) w) O rows.

(** A short row is filled up with missing cells. *)
Definition pad (w : nat) (r : list string) : list value :=
  map Str r ++ repeat Null (w - List.length r).

(** [pd.DataFrame(data_rows, columns=headers)]: raises when the labels
    are not as many as the columns of the rows. *)
Definition DataFrame_of (data_rows : list (list string)) (headers : list string)
  : option DataFrame :=
  match data_rows with
  | [] => Some (mkDataFrame headers [])
  | _ =>
      let w := width data_rows in
      if Nat.eqb w (List.length headers)
      then Some (mkDataFrame headers (map (pad w) data_rows))
      else None
  end.

Definition coerce_numeric (v : value) : value :=
  match v with
  | Str s => match to_numeric s with Some q => Num q | None => Null end
  | Num q => Num q
  | _ => Null
  end.

Definition coerce_datetime (v : value) : value :=
  match v with
  | Str s => match to_datetime s with Some t => Time t | None => Null end
  | Time t => Time t
  | _ => Null
  end.

(** [df[name] = f(df[name])] for the column at position [i]. *)
Definition assign (i : nat) (f : value -> value) (df : DataFrame) : DataFrame :=
  mkDataFrame (columns df) (map (update_at i f) (data df)).

Fixpoint fill_row (name : string) (d : value) (cols : list string) (row : list value)
  : list value :=
  match cols, row with
  | c :: cols', v :: row' =>
      (if String.eqb c name then (if isna v then d else v) else v)
        :: fill_row name d cols' row'
  | _, _ => row
  end.

(** [df.fillna({name: d})]: the missing cells under the label [name]; a
    label the frame does not have is passed over. *)
Definition fillna (name : string) (d : value) (df : DataFrame) : DataFrame :=
  mkDataFrame (columns df) (map (fill_row name d (columns df)) (data df)).

(** The body of the [try] of [get_processed_records], on the value of
    [worksheet.get_all_values()]. *)
Definition process_records (all_values : list (list string)) : option DataFrame :=
  match all_values with
  | [] => Some empty_frame
  | headers :: data_rows =>
      df <- DataFrame_of data_rows headers ;;
      if empty df then Some empty_frame
      else
        a <- loc "Amount" (columns df) ;;
        let df := assign a coerce_numeric df in
        let df := fillna "Type" (Str "Expense")
                    (fillna "Category" (Str "Uncategorized")
                       (fillna "Amount" (Num 0) df)) in
        d <- loc "Date" (columns df) ;;
        Some (assign d coerce_datetime df)
  end.

(** [worksheet] is [None] when the sheet could not be opened. *)
Definition get_processed_records (worksheet : option (list (list string))) : DataFrame :=
  match worksheet with
  | None => empty_frame
  | Some all_values =>
      match process_records all_values with
      | Some df => df
      | None => empty_frame
      end
  end.

End Normaliser.

(** ** Period selection *)

Definition same_month (now : Timestamp) (v : value) : bool :=
  match v with
  | Time t => year_month_eqb (year_month t) (year_month now)
  | _ => false
  end.

Definition same_week (now : Timestamp) (v : value) : bool :=
  match v with
  | Time t => iso_week t =? iso_week now
  | _ => false
  end.

(** The block [# Filter by period], which [balance], [total_entries],
    [financial_summary], [balance_prefix] and [filter_data_by_period]
    each carry word for word: the rows kept and [period_text]. *)
Definition filter_by_period {C : Coercions} (period : string) (now : Timestamp)
  (df : DataFrame) : option (DataFrame * string) :=
  if String.eqb (lower period) "month" then
    d <- loc "Date" (columns df) ;;
    Some (select (fun r => same_month now (cell d r)) df, "this month")
  else if String.eqb (lower period) "week" then
    d <- loc "Date" (columns df) ;;
    Some (select (fun r => same_week now (cell d r)) df, "this week")
  else Some (df, "all time").

(** ** Aggregates *)

(** [df[df['Type'] == kind]['Amount'].sum()]. *)
Definition sum_by_kind (kind : string) (df : DataFrame) : option Q :=
  k <- where_eq "Type" kind df ;;
  sum_of "Amount" k.

(** [df.groupby(by)['Amount'].sum()] with string keys. *)
Definition groupby_amount (by_ : string) (df : DataFrame) : option (list (string * Q)) :=
  k <- loc by_ (columns df) ;;
  a <- loc "Amount" (columns df) ;;
  Some (groupby_sum String.compare
          (map (fun r => (key_str (cell k r), num (cell a r))) (data df))).

(** [df.groupby('Category')['Amount'].sum().sort_values(ascending=False)]. *)
Definition by_category {C : Coercions} (df : DataFrame) : option (list (string * Q)) :=
  m <- groupby_amount "Category" df ;;
  Some (sort_values_desc m).

(** ** The daily series of [balance_over_time] *)

Record DailyPoint := mkDailyPoint {
  Day : Z;
  Income : Q;
  Expense : Q;
  Balance : Q;
  Cumulative_Balance : Q
}.

(** [pd.date_range(start, end, freq='D')], days as ordinals. *)
Definition date_range (start_date end_date : Z) : list Z :=
  map (fun i => start_date + Z.of_nat i) (seq 0 (Z.to_nat (end_date - start_date + 1))).

(** [df[df['Type'] == kind].groupby('Day')['Amount'].sum().reset_index()]. *)
Definition daily_sum (kind : string) (df : DataFrame) : option (list (Z * Q)) :=
  k <- where_eq "Type" kind df ;;
  d <- loc "Date" (columns k) ;;
  a <- loc "Amount" (columns k) ;;
  Some (groupby_sum Z.compare
          (map (fun r => (key_day (cell d r), num (cell a r))) (data k))).

(** [left.merge(right, on='Day', how='left')]: every left row once for
    each right row of its day, and once with nothing when there is none. *)
Definition merge_left {A : Type} (day_of : A -> Z) (left : list A) (right : list (Z * Q))
  : list (A * option Q) :=
  flat_map (fun a =>
    match filter (fun kv => fst kv =? day_of a) right with
    | [] => [(a, None)]
    | ms => map (fun kv => (a, Some (snd kv))) ms
    end) left.

(** [fillna(0)] on a merged column. *)
Definition or_zero (o : option Q) : Q :=
  match o with Some q => q | None => 0%Q end.

(** [Series.cumsum()], from the running total [acc]. *)
Fixpoint cumsum_from (acc : Q) (l : list Q) : list Q :=
  match l with
  | [] => []
  | x :: l' => (acc + x)%Q :: cumsum_from (acc + x)%Q l'
  end.

Definition cumsum (l : list Q) : list Q := cumsum_from 0%Q l.

(** The frame [date_df] of [generate_chart_image] once its five columns
    are there: the two merges, [fillna(0)], [Balance] and its running
    total. *)
Definition date_df (all_dates : list Z) (daily_income daily_expense : list (Z * Q))
  : list DailyPoint :=
  let m1 := merge_left (fun d => d) all_dates daily_income in
  let m2 := merge_left (fun r => fst r) m1 daily_expense in
  let rows := map (fun r => (fst (fst r), or_zero (snd (fst r)), or_zero (snd r))) m2 in
  let balance := map (fun r => (snd (fst r) - snd r)%Q) rows in
  map (fun rc => mkDailyPoint (fst (fst (fst rc))) (snd (fst (fst rc))) (snd (fst rc))
                   (snd (fst (fst rc)) - snd (fst rc))%Q (snd rc))
      (combine rows (cumsum balance)).

(** ** Charts: the data [generate_chart_image] draws *)

Inductive chart :=
| Caption (text : string)
| Pie (slices : list (string * Q))
| BalanceOverTime (points : list DailyPoint)
| IncomeVsExpense (income_total expense_total balance : Q)
| Blank.

Definition valid_days (d : nat) (df : DataFrame) : list Z :=
  flat_map (fun r => match key_day (cell d r) with Some o => [o] | None => [] end)
           (data df).

(** [start_date] and [end_date] of the series.  Under ['all time'] they
    are the days of the earliest and the latest timestamp; when no row has
    one both are [NaT] and [pd.date_range] raises. *)
Definition chart_range (period_text : string) (now : Timestamp) (df : DataFrame)
  : option (Z * Z) :=
  if String.eqb period_text "this month" then
    let last_day := days_in_month (year now) (month now) in
    Some (ymd2ord (year now) (month now) 1, ymd2ord (year now) (month now) last_day)
  else if String.eqb period_text "this week" then
    Some (toordinal now - weekday now, toordinal now)
  else
    d <- loc "Date" (columns df) ;;
    match valid_days d df with
    | [] => None
    | o :: os => Some (fold_right Z.min o os, fold_right Z.max o os)
    end.

(** The branch [balance_over_time] for a given range of days. *)
Definition balance_over_time (start_date end_date : Z) (df : DataFrame)
  : option (list DailyPoint) :=
  daily_income <- daily_sum "Income" df ;;
  daily_expense <- daily_sum "Expense" df ;;
  Some (date_df (date_range start_date end_date) daily_income daily_expense).

(** ['kind' in df['Type'].values]. *)
Definition has_kind (kind : string) (df : DataFrame) : option bool :=
  t <- loc "Type" (columns df) ;;
  Some (existsb (fun r => eq_str kind (cell t r)) (data df)).

(** [totals.get(kind, 0)]. *)
Fixpoint get_total (kind : string) (totals : list (string * Q)) : Q :=
  match totals with
  | [] => 0%Q
  | (k, q) :: totals' => if String.eqb k kind then q else get_total kind totals'
  end.

(** The two pie charts; [plt.pie] raises on sizes it does not draw. *)
Definition pie_chart {C : Coercions} (kind caption : string) (df : DataFrame)
  : option chart :=
  if empty df then Some (Caption caption)
  else
    present <- has_kind kind df ;;
    if negb present then Some (Caption caption)
    else
      k <- where_eq "Type" kind df ;;
      slices <- by_category k ;;
      if pie_draws (map snd slices) then Some (Pie slices) else None.

Definition generate_chart_image {C : Coercions} (df : DataFrame)
  (chart_type period_text : string) (now : Timestamp) : option chart :=
  if String.eqb chart_type "expense_by_category" then
    pie_chart "Expense" "No expense data available" df
  else if String.eqb chart_type "income_by_category" then
    pie_chart "Income" "No income data available" df
  else if String.eqb chart_type "balance_over_time" then
    if empty df then Some (Caption "No data available")
    else
      ' (start_date, end_date) <- chart_range period_text now df ;;
      points <- balance_over_time start_date end_date df ;;
      Some (BalanceOverTime points)
  else if String.eqb chart_type "income_vs_expense" then
    if empty df then Some (Caption "No data available")
    else
      totals <- groupby_amount "Type" df ;;
      let income_total := get_total "Income" totals in
      let expense_total := get_total "Expense" totals in
      Some (IncomeVsExpense income_total expense_total (income_total - expense_total)%Q)
  else Some Blank.

(** ** The commands *)

(** One line of [/history]. *)
Record entry := mkEntry {
  entry_amount : value;
  entry_description : value;
  entry_category : value;
  entry_date : value;
  entry_type : value
}.

(** The answer a command makes up and hands to [send_message], or to
    [followup.send]. *)
Inductive reply :=
| Unavailable
    (* Google Sheets connection is not available. *)
| NoTransactionsFound
    (* No transactions found. *)
| NoRecordedTransactions
    (* You have no recorded transactions. *)
| BalanceSummary (period_text : string) (income expenses balance : Q)
| NoneFoundFor (type_text period_text : string)
    (* No {type_text} found for {period_text}. *)
| Total (type_text period_text : string) (total : Q)
| NoTransactionsFoundFor (period_text : string)
    (* No transactions found for {period_text}. *)
| FinancialSummary (period_text : string)
    (income_by_category : option (list (string * Q))) (total_income : Q)
    (expense_by_category : option (list (string * Q))) (total_expense : Q)
    (net_balance : Q)
| NoneFound (type_text : string)
    (* No {type_text} found. *)
| RecentHistory (entries : list entry)
| NoDataAvailableFor (period_text : string)
    (* No data available for {period_text}. *)
| ChartFile (chart_type period_text : string) (image : chart)
| Error.
    (* the [except] branch: Error ... *)

(** The body of a [try] up to the send: the answer it arrives at, and
    the answer of the [except] branch when an exception is raised on the
    way. *)
Definition try (r : option reply) : reply :=
  match r with
  | Some x => x
  | None => Error
  end.

(** The send itself, which every command makes inside its [try]:
    [send_message] raises when Discord does not take the message, as it
    does with a text of more than 2000 characters, and the [except]
    branch then answers in its place.  [delivered] says which answers
    Discord takes. *)
Definition sent (delivered : reply -> bool) (answer : reply) : reply :=
  if delivered answer then answer else Error.

Definition type_text (type : string) : string :=
  if String.eqb type "Expense" then "expenses"
  else if String.eqb type "Income" then "income"
  else "transactions".

(** [if type != 'All': df = df[df['Type'] == type]]. *)
Definition filter_by_type (type : string) (df : DataFrame) : option DataFrame :=
  if String.eqb type "All" then Some df else where_eq "Type" type df.

Section Commands.

Context {C : Coercions}.

(** [/balance]; [user] is [str(interaction.user)] and [now] the value of
    [datetime.now()].  [ensure_headers()], which every command calls
    first, writes to the sheet and returns nothing the command uses: the
    snapshot the command reads afterwards is the argument [worksheet]. *)
Definition balance (worksheet : option (list (list string))) (user period : string)
  (now : Timestamp) : reply :=
  match worksheet with
  | None => Unavailable
  | Some _ =>
      try (
        let df := get_processed_records worksheet in
        if empty df then Some NoTransactionsFound
        else
          df <- where_eq "User" user df ;;
          if empty df then Some NoRecordedTransactions
          else
            ' (df, period_text) <- filter_by_period period now df ;;
            income <- sum_by_kind "Income" df ;;
            expenses <- sum_by_kind "Expense" df ;;
            Some (BalanceSummary period_text income expenses (income - expenses)%Q))
  end.

(** [!balance]: the same figures under the prefix command. *)
Definition balance_prefix (worksheet : option (list (list string))) (user period : string)
  (now : Timestamp) : reply :=
  match worksheet with
  | None => Unavailable
  | Some _ =>
      try (
        let df := get_processed_records worksheet in
        if empty df then Some NoTransactionsFound
        else
          df <- where_eq "User" user df ;;
          if empty df then Some NoRecordedTransactions
          else
            ' (df, period_text) <- filter_by_period period now df ;;
            income <- sum_by_kind "Income" df ;;
            expenses <- sum_by_kind "Expense" df ;;
            Some (BalanceSummary period_text income expenses (income - expenses)%Q))
  end.

(** [/total]. *)
Definition total_entries (worksheet : option (list (list string)))
  (user period type : string) (now : Timestamp) : reply :=
  match worksheet with
  | None => Unavailable
  | Some _ =>
      try (
        let df := get_processed_records worksheet in
        if empty df then Some NoTransactionsFound
        else
          df <- where_eq "User" user df ;;
          if empty df then Some NoRecordedTransactions
          else
            ' (df, period_text) <- filter_by_period period now df ;;
            df <- filter_by_type type df ;;
            if empty df then Some (NoneFoundFor (type_text type) period_text)
            else
              total <- sum_of "Amount" df ;;
              Some (Total (type_text type) period_text total))
  end.

(** One section of [/summary]: the breakdown when the kind has rows. *)
Definition section (kind_df : DataFrame) : option (option (list (string * Q))) :=
  if empty kind_df then Some None
  else
    m <- by_category kind_df ;;
    Some (Some m).

(** [/summary]; its [type] argument is not used. *)
Definition financial_summary (worksheet : option (list (list string)))
  (user period type : string) (now : Timestamp) : reply :=
  match worksheet with
  | None => Unavailable
  | Some _ =>
      try (
        let df := get_processed_records worksheet in
        if empty df then Some NoTransactionsFound
        else
          df <- where_eq "User" user df ;;
          if empty df then Some NoRecordedTransactions
          else
            ' (df, period_text) <- filter_by_period period now df ;;
            if empty df then Some (NoTransactionsFoundFor period_text)
            else
              income_df <- where_eq "Type" "Income" df ;;
              expense_df <- where_eq "Type" "Expense" df ;;
              total_income <- sum_of "Amount" income_df ;;
              total_expense <- sum_of "Amount" expense_df ;;
              income_by_category <- section income_df ;;
              expense_by_category <- section expense_df ;;
              Some (FinancialSummary period_text income_by_category total_income
                      expense_by_category total_expense
                      (total_income - total_expense)%Q))
  end.

Definition entry_of (cols : list string) (row : list value) : option entry :=
  a <- loc "Amount" cols ;;
  t <- loc "Type" cols ;;
  d <- loc "Date" cols ;;
  s <- loc "Description" cols ;;
  c <- loc "Category" cols ;;
  Some (mkEntry (cell a row) (cell s row) (cell c row) (cell d row) (cell t row)).

Fixpoint entries_of (cols : list string) (rows : list (list value)) : option (list entry) :=
  match rows with
  | [] => Some []
  | r :: rows' =>
      e <- entry_of cols r ;;
      es <- entries_of cols rows' ;;
      Some (e :: es)
  end.

(** [df.sort_values('Date', ascending=False).head(limit)]. *)
Definition recent_entries (limit : Z) (df : DataFrame) : option (list (list value)) :=
  d <- loc "Date" (columns df) ;;
  Some (head limit (sort_rows_desc (fun r => key_instant (cell d r)) (data df))).

(** [/history]. *)
Definition financial_history (worksheet : option (list (list string)))
  (user : string) (limit : Z) (type : string) : reply :=
  match worksheet with
  | None => Unavailable
  | Some _ =>
      try (
        let df := get_processed_records worksheet in
        if empty df then Some NoTransactionsFound
        else
          df <- where_eq "User" user df ;;
          if empty df then Some NoRecordedTransactions
          else
            df <- filter_by_type type df ;;
            if empty df then Some (NoneFound (type_text type))
            else
              rows <- recent_entries limit df ;;
              entries <- entries_of (columns df) rows ;;
              Some (RecentHistory entries))
  end.

(** [filter_data_by_period(df, interaction, period)]. *)
Definition filter_data_by_period (df : DataFrame) (user period : string) (now : Timestamp)
  : option (DataFrame * string) :=
  if empty df then Some (df, "No data")
  else
    df <- where_eq "User" user df ;;
    if empty df then Some (df, "No user data")
    else filter_by_period period now df.

(** [/chart]. *)
Definition financial_chart (worksheet : option (list (list string)))
  (user chart_type period : string) (now : Timestamp) : reply :=
  match worksheet with
  | None => Unavailable
  | Some _ =>
      try (
        let df := get_processed_records worksheet in
        ' (filtered_df, period_text) <- filter_data_by_period df user period now ;;
        if empty filtered_df then Some (NoDataAvailableFor period_text)
        else
          image <- generate_chart_image filtered_df chart_type period_text now ;;
          Some (ChartFile chart_type period_text image))
  end.

End Commands.

(** ** Notions the statements below are written in *)

(** The value the normaliser is to leave in a cell under [label], given
    what the raw row had there ([None]: the row was too short). *)
Definition normalised {C : Coercions} (label : string) (raw : option string) : value :=
  if String.eqb label "Amount" then
    Num (match raw with
         | Some s => match to_numeric s with Some q => q | None => 0%Q end
         | None => 0%Q
         end)
  else if String.eqb label "Date" then
    match raw with
    | Some s => match to_datetime s with Some t => Time t | None => Null end
    | None => Null
    end
  else if String.eqb label "Category" then
    match raw with Some s => Str s | None => Str "Uncategorized" end
  else if String.eqb label "Type" then
    match raw with Some s => Str s | None => Str "Expense" end
  else
    match raw with Some s => Str s | None => Null end.

(** The labels of a list in the order in which each is first seen. *)
Fixpoint first_seen (seen l : list string) : list string :=
  match l with
  | [] => []
  | s :: l' =>
      if existsb (String.eqb s) seen then first_seen seen l'
      else s :: first_seen (s :: seen) l'
  end.


(** Later instant first; rows without a date after all rows with one. *)
Definition latest_first {A : Type} (key : A -> option Z) (x y : A) : Prop :=
  match key x, key y with
  | Some a, Some b => b <= a
  | Some _, None => True
  | None, Some _ => False
  | None, None => True
  end.

(** The sum a grouped series holds for [k]. *)
Definition sum_at (k : Z) (m : list (Z * Q)) : option Q :=
  match find (fun kv => fst kv =? k) m with
  | Some kv => Some (snd kv)
  | None => None
  end.

(** The rows of [df] of kind [kind] dated on the calendar day [o]. *)
Definition on_day (t d : nat) (kind : string) (o : Z) (df : DataFrame) : list (list value) :=
  filter (fun r => eq_str kind (cell t r) &&
                   match key_day (cell d r) with Some o' => o' =? o | None => false end)
         (data df).

(** Two selectors the period block treats alike. *)
Definition same_selection {C : Coercions} (p q : string) : Prop :=
  forall (now : Timestamp) (df : DataFrame),
    filter_by_period p now df = filter_by_period q now df.

(** The row of the result that stands for the raw row [r]. *)
Definition processed_row {C : Coercions} (headers : list string) (a d w : nat) (r : list string)
  : list value :=
  update_at d coerce_datetime
    (fill_row "Type" (Str "Expense") headers
       (fill_row "Category" (Str "Uncategorized") headers
          (fill_row "Amount" (Num 0) headers
             (update_at a coerce_numeric (pad w r))))).

(** The order of a grouped series: by key, ascending. *)
Definition key_lt {K : Type} (cmp : K -> K -> comparison) (x y : K * Q) : Prop :=
  cmp (fst x) (fst y) = Lt.

(** The three columns of [date_df] before the running total. *)
Definition daily_rows (all_dates : list Z) (daily_income daily_expense : list (Z * Q))
  : list (Z * Q * Q) :=
  map (fun o => (o, or_zero (sum_at o daily_income), or_zero (sum_at o daily_expense)))
      all_dates.

(** The rows [daily_sum] groups: day and amount of every row of a kind. *)
Definition day_amounts (t d a : nat) (kind : string) (df : DataFrame)
  : list (option Z * Q) :=
  map (fun r => (key_day (cell d r), num (cell a r)))
      (filter (fun r => eq_str kind (cell t r)) (data df)).

(** The sum of the entries of a series under the key [o]. *)
Definition total_at (o : Z) (m : list (Z * Q)) : Q :=
  Qsum (map snd (filter (fun kv => fst kv =? o) m)).

(** ** Sample ledgers *)

(** Wednesday 13 March 2024, 10:00; ISO week 11 of 2024. *)
Definition wednesday : Timestamp := mkTimestamp 2024 3 13 36000.

(** One income of alice on Wednesday 15 March 2023: ISO week 11 of 2023. *)
Definition ledger_2023 : list (list string) :=
  [HEADERS; ["alice"; "50.0"; "refund"; "Other"; "Income"; "2023-03-15 09:30:00"]].

(** One expense of alice on 1 January 2020. *)
Definition ledger_2020 : list (list string) :=
  [HEADERS; ["alice"; "12.5"; "lunch"; "Food"; "Expense"; "2020-01-01 12:00:00"]].

(** A row with no description, an amount and a date that do not parse,
    and a short row. *)
Definition ledger_blanks : list (list string) :=
  [HEADERS; ["alice"; "abc"; ""; "Food"; "Expense"; "yesterday"]; ["bob"; "7"]].

(** What [/expense amount:-5] appends. *)
Definition ledger_negative : list (list string) :=
  [HEADERS; ["alice"; "-5.0"; "N/A"; "Uncategorized"; "Expense"; "2024-03-12 08:00:00"]].

(** Three categories with the same sum, first seen as Food, Bills, Rent. *)
Definition ledger_ties : list (list string) :=
  [HEADERS;
   ["alice"; "10.0"; "lunch"; "Food"; "Expense"; "2024-03-11 12:00:00"];
   ["alice"; "10.0"; "power"; "Bills"; "Expense"; "2024-03-12 12:00:00"];
   ["alice"; "10.0"; "room"; "Rent"; "Expense"; "2024-03-13 09:00:00"]].

(** A header without the [Amount] column. *)
Definition ledger_no_amount : list (list string) :=
  [["User"; "Description"; "Category"; "Type"; "Date"];
   ["alice"; "lunch"; "Food"; "Expense"; "2024-03-12 08:00:00"]].

(** A row with one cell more than the header. *)
Definition ledger_long_row : list (list string) :=
  [HEADERS; ["alice"; "5.0"; "tea"; "Food"; "Expense"; "2024-03-12 08:00:00"; "x"]].

(** A week of alice: pay on Monday, two expenses, one row without a date. *)
Definition ledger_week : list (list string) :=
  [HEADERS;
   ["alice"; "100.0"; "pay"; "Salary"; "Income"; "2024-03-11 09:00:00"];
   ["alice"; "30.0"; "food"; "Food"; "Expense"; "2024-03-11 19:00:00"];
   ["alice"; "20.0"; "bus"; "Transportation"; "Expense"; "2024-03-13 08:00:00"];
   ["alice"; "5.0"; "misc"; "Other"; "Expense"; "some day"]].

(** ** The sheet and the calls that write to it

    The worksheet is the grid of its cells, row by row from the top, each
    row as far as its last cell that was ever written.  The calls of the
    client library are its plain list operations. *)

(** [worksheet.get_all_values()]: every row filled up with empty strings
    to the width of the widest. *)
Definition get_all_values (ws : list (list string)) : list (list string) :=
  map (fun r => (r ++ repeat "" (width ws - List.length r))%list) ws.

(** A row without the empty cells at its end. *)
Fixpoint trim (r : list string) : list string :=
  match r with
  | [] => []
  | c :: r' =>
      match trim r' with
      | [] => if String.eqb c "" then [] else [c]
      | t => c :: t
      end
  end.

(** [worksheet.row_values(1)]: the first row up to its last cell that is
    not empty, and nothing for a sheet without rows. *)
Definition row_values_1 (ws : list (list string)) : list string :=
  match ws with
  | [] => []
  | r :: _ => trim r
  end.

(** [worksheet.insert_row(values, 1)]. *)
Definition insert_row_1 (values : list string) (ws : list (list string))
  : list (list string) := values :: ws.

(** [worksheet.delete_row(1)]. *)
Definition delete_row_1 (ws : list (list string)) : list (list string) := List.tl ws.

(** [worksheet.append_row(values)]. *)
Definition append_row (values : list string) (ws : list (list string))
  : list (list string) := (ws ++ [values])%list.

(** Writes [v] at place [i] of a row, from 0, filling the row up with
    empty cells when it is shorter. *)
Fixpoint set_cell (i : nat) (v : string) (r : list string) : list string :=
  match i, r with
  | O, [] => [v]
  | O, _ :: r' => v :: r'
  | S i', [] => "" :: set_cell i' v []
  | S i', c :: r' => c :: set_cell i' v r'
  end.

(** Applies [f] to row [i] of the sheet, from 0; rows up to it that the
    sheet does not have yet are empty. *)
Fixpoint at_row (i : nat) (f : list string -> list string) (ws : list (list string))
  : list (list string) :=
  match i, ws with
  | O, [] => [f []]
  | O, r :: ws' => f r :: ws'
  | S i', [] => [] :: at_row i' f []
  | S i', r :: ws' => r :: at_row i' f ws'
  end.

(** [worksheet.update_cell(row, col, value)], rows and columns from 1. *)
Definition update_cell (row col : nat) (value : string) (ws : list (list string))
  : list (list string) :=
  at_row (row - 1) (set_cell (col - 1) value) ws.

Fixpoint list_eqb (a b : list string) : bool :=
  match a, b with
  | [], [] => true
  | x :: a', y :: b' => String.eqb x y && list_eqb a' b'
  | _, _ => false
  end.

(** [ensure_headers()] on a sheet that answers: the sheet it leaves and
    the value it returns.  An empty first row gets the header put above
    it; a first row that is not the header is deleted and the header put
    in its place. *)
Definition ensure_headers (ws : list (list string)) : list (list string) * bool :=
  let current_headers := row_values_1 ws in
  match current_headers with
  | [] => (insert_row_1 HEADERS ws, true)
  | _ =>
      if negb (list_eqb current_headers HEADERS)
      then (insert_row_1 HEADERS (delete_row_1 ws), true)
      else (ws, true)
  end.

(** The characters [str.strip()] removes, those [str.isspace()] is true
    of, in UTF-8.  In one byte: U+0009 to U+000D and U+001C to U+0020. *)
Definition isspace1 (a : nat) : bool :=
  (Nat.leb 9 a && Nat.leb a 13) || (Nat.leb 28 a && Nat.leb a 32).

(** In two bytes: U+0085 and U+00A0. *)
Definition isspace2 (a b : nat) : bool :=
  Nat.eqb a 194 && (Nat.eqb b 133 || Nat.eqb b 160).

(** In three bytes: U+1680, U+2000 to U+200A, U+2028, U+2029, U+202F,
    U+205F and U+3000. *)
Definition isspace3 (a b c : nat) : bool :=
  (Nat.eqb a 225 && Nat.eqb b 154 && Nat.eqb c 128)
  || (Nat.eqb a 226 && Nat.eqb b 128 &&
      ((Nat.leb 128 c && Nat.leb c 138) || Nat.eqb c 168 || Nat.eqb c 169
       || Nat.eqb c 175))
  || (Nat.eqb a 226 && Nat.eqb b 129 && Nat.eqb c 159)
  || (Nat.eqb a 227 && Nat.eqb b 128 && Nat.eqb c 128).

(** [not description or description.strip() == ""]: nothing but white
    space. *)
Fixpoint blank (s : string) : bool :=
  match s with
  | EmptyString => true
  | String c1 s1 =>
      if isspace1 (nat_of_ascii c1) then blank s1
      else
        match s1 with
        | EmptyString => false
        | String c2 s2 =>
            if isspace2 (nat_of_ascii c1) (nat_of_ascii c2) then blank s2
            else
              match s2 with
              | EmptyString => false
              | String c3 s3 =>
                  isspace3 (nat_of_ascii c1) (nat_of_ascii c2) (nat_of_ascii c3)
                  && blank s3
              end
        end
  end.

(** U+00A0, the no-break space, and U+200B, the zero width space, which
    is not white space. *)
Definition no_break_space : string :=
  String (ascii_of_nat 194) (String (ascii_of_nat 160) EmptyString).

Definition zero_width_space : string :=
  String (ascii_of_nat 226) (String (ascii_of_nat 128) (String (ascii_of_nat 139)
    EmptyString)).

(** What a recording command sends back, and with it what it wrote. *)
Inductive receipt :=
| Recorded (kind amount description category : string)
| CategorySet (entry_id : Z) (category : string)
| NoEntries
    (* No entries found to categorize. *)
| InvalidEntryId (last_id : Z).
    (* Invalid entry ID. Please use a number between 1 and {last_id} *)

(** The body of [/expense] and [/income]: [amount] is the text
    [str(amount)] and [current_time] the text
    [datetime.now().strftime('%Y-%m-%d %H:%M:%S')]. *)
Definition record (kind : string) (ws : list (list string))
  (user amount description category current_time : string)
  : list (list string) * receipt :=
  let ws := fst (ensure_headers ws) in
  let description := if blank description then "N/A" else description in
  (append_row [user; amount; description; category; kind; current_time] ws,
   Recorded kind amount description category).

(** [/expense]. *)
Definition add_expense := record "Expense".

(** [/income]. *)
Definition add_income := record "Income".

(** [/category] and [!category]. *)
Definition set_category (ws : list (list string)) (entry_id : Z) (category : string)
  : list (list string) * receipt :=
  let ws := fst (ensure_headers ws) in
  let all_values := get_all_values ws in
  let n := Z.of_nat (List.length all_values) in
  if n <=? 1 then (ws, NoEntries)
  else if (1 <=? entry_id) && (entry_id <=? n - 1)
  then (update_cell (Z.to_nat (entry_id + 1)) 4 category ws, CategorySet entry_id category)
  else (ws, InvalidEntryId (n - 1)).

(** ** Categories for the autocompletion *)

Definition DEFAULT_CATEGORIES : list string :=
  ["Food"; "Transportation"; "Utilities"; "Entertainment"; "Shopping"; "Salary";
   "Gifts"; "Other"].

(** The strings of a column. *)
Definition strings (l : list value) : list string :=
  flat_map (fun v => match v with Str s => [s] | _ => [] end) l.

(** [get_categories()]: the categories of the sheet in the order they
    are first seen, and the default ones when there is none or the column
    cannot be read. *)
Definition get_categories {C : Coercions} (worksheet : option (list (list string)))
  : list string :=
  let df := get_processed_records worksheet in
  match loc "Category" (columns df) with
  | Some c =>
      match first_seen [] (strings (map (cell c) (data df))) with
      | [] => DEFAULT_CATEGORIES
      | categories => categories
      end
  | None => DEFAULT_CATEGORIES
  end.

(** Puts [s] into a list kept in ascending order without repetition. *)
Fixpoint insert_unique (s : string) (l : list string) : list string :=
  match l with
  | [] => [s]
  | x :: l' =>
      match String.compare s x with
      | Lt => s :: l
      | Eq => l
      | Gt => x :: insert_unique s l'
      end
  end.

(** [l = list(set(l)); l.sort()]. *)
Definition sorted_set (l : list string) : list string :=
  fold_right insert_unique [] l.

(** [get_all_categories()]. *)
Definition get_all_categories {C : Coercions} (worksheet : option (list (list string)))
  : list string :=
  sorted_set (get_categories worksheet ++ DEFAULT_CATEGORIES)%list.

(** [a in b] on strings. *)
Fixpoint contains (a b : string) : bool :=
  String.prefix a b ||
  match b with
  | EmptyString => false
  | String _ b' => contains a b'
  end.

(** [category_autocomplete(interaction, current)]: the names offered. *)
Definition category_autocomplete {C : Coercions} (worksheet : option (list (list string)))
  (current : string) : list string :=
  firstn 25 (filter (fun category => contains (lower current) (lower category))
                    (get_all_categories worksheet)).

(** What a reporting command reads: the values of the sheet after
    [ensure_headers()] has run on it. *)
Definition snapshot (ws : list (list string)) : option (list (list string)) :=
  Some (get_all_values (fst (ensure_headers ws))).

(** What a cell under [label] may hold once the normaliser has run: a
    number under [Amount], a timestamp or nothing under [Date], a string
    under [Category] and [Type], a string or nothing elsewhere. *)
Definition well_typed (label : string) (v : value) : bool :=
  if String.eqb label "Amount" then match v with Num _ => true | _ => false end
  else if String.eqb label "Date" then
    match v with Time _ => true | Null => true | _ => false end
  else if String.eqb label "Category" || String.eqb label "Type" then
    match v with Str _ => true | _ => false end
  else match v with Str _ => true | Null => true | _ => false end.

(** The amount pandas reads in the second cell of a row of the sheet. *)
Definition raw_amount {C : Coercions} (r : list string) : Q :=
  match to_numeric (nth 1 r "") with Some q => q | None => 0%Q end.

(** The rows of the sheet below the header that [user] recorded. *)
Definition own_rows (user : string) (ws : list (list string)) : list (list string) :=
  filter (fun r => String.eqb (nth 0 r "") user) (List.tl ws).

(** The sum of the amounts of the rows whose fifth cell is [kind]. *)
Definition raw_total {C : Coercions} (kind : string) (rows : list (list string)) : Q :=
  Qsum (map raw_amount (filter (fun r => String.eqb (nth 4 r "") kind) rows)).

(** [period_text] as the period block sets it. *)
Definition period_text_of {C : Coercions} (period : string) : string :=
  if String.eqb (lower period) "month" then "this month"
  else if String.eqb (lower period) "week" then "this week"
  else "all time".

(** Whether the period block keeps a row of the sheet, by the date
    pandas reads in its sixth cell. *)
Definition raw_in_period {C : Coercions} (period : string) (now : Timestamp)
  (r : list string) : bool :=
  if String.eqb (lower period) "month"
  then same_month now (coerce_datetime (Str (nth 5 r "")))
  else if String.eqb (lower period) "week"
  then same_week now (coerce_datetime (Str (nth 5 r "")))
  else true.

(** The rows of [user] that [/total] and [/history] keep for [type]. *)
Definition own_rows_of_type (user type : string) (ws : list (list string))
  : list (list string) :=
  if String.eqb type "All" then own_rows user ws
  else filter (fun r => String.eqb (nth 4 r "") type) (own_rows user ws).

(** How many rows [head(n)] leaves of [len]. *)
Definition head_length (n : Z) (len : nat) : nat :=
  if 0 <=? n then Nat.min (Z.to_nat n) len else (len - Z.to_nat (- n))%nat.

(** * Properties *)

(** ** Selectors *)

Section Selectors.

Context {C : Coercions}.

Lemma filter_by_period_other (period : string) (now : Timestamp) (df : DataFrame) :
  lower period <> "month" -> lower period <> "week" ->
  filter_by_period period now df = Some (df, "all time").
Proof.
  intros Hm Hw. unfold filter_by_period.
  apply String.eqb_neq in Hm. apply String.eqb_neq in Hw.
  now rewrite Hm, Hw.
Qed.

Lemma filter_by_period_lower (p q : string) (now : Timestamp) (df : DataFrame) :
  lower p = lower q -> filter_by_period p now df = filter_by_period q now df.
Proof.
  intros E. unfold filter_by_period. now rewrite E.
Qed.

Lemma same_selection_lower (p q : string) :
  lower p = lower q -> same_selection p q.
Proof.
  intros E now df. now apply filter_by_period_lower.
Qed.

Lemma same_selection_other (p : string) :
  lower p <> "month" -> lower p <> "week" -> same_selection p "all".
Proof.
  intros Hm Hw now df. rewrite (filter_by_period_other p now df Hm Hw).
  unfold filter_by_period. now rewrite (lower_of_ascii "all" eq_refl).
Qed.

Ltac enter_command :=
  match goal with
  | |- context [get_processed_records ?w] =>
      destruct (empty (get_processed_records w)); [reflexivity|];
      cbn [bind];
      destruct (where_eq "User" _ (get_processed_records w)) as [u|]; [|reflexivity];
      cbn [bind];
      destruct (empty u); [reflexivity|]
  end.

Lemma balance_selection (ws : option (list (list string))) (user p q : string)
  (now : Timestamp) :
  same_selection p q -> balance ws user p now = balance ws user q now.
Proof.
  intros E. unfold balance. destruct ws as [s|]; [|reflexivity].
  f_equal. enter_command. now rewrite (E now u).
Qed.

Lemma balance_prefix_selection (ws : option (list (list string))) (user p q : string)
  (now : Timestamp) :
  same_selection p q -> balance_prefix ws user p now = balance_prefix ws user q now.
Proof.
  intros E. unfold balance_prefix. destruct ws as [s|]; [|reflexivity].
  f_equal. enter_command. now rewrite (E now u).
Qed.

Lemma total_entries_selection (ws : option (list (list string))) (user p q type : string)
  (now : Timestamp) :
  same_selection p q ->
  total_entries ws user p type now = total_entries ws user q type now.
Proof.
  intros E. unfold total_entries. destruct ws as [s|]; [|reflexivity].
  f_equal. enter_command. now rewrite (E now u).
Qed.

Lemma financial_summary_selection (ws : option (list (list string)))
  (user p q type : string) (now : Timestamp) :
  same_selection p q ->
  financial_summary ws user p type now = financial_summary ws user q type now.
Proof.
  intros E. unfold financial_summary. destruct ws as [s|]; [|reflexivity].
  f_equal. enter_command. now rewrite (E now u).
Qed.

Lemma financial_chart_selection (ws : option (list (list string)))
  (user chart_type p q : string) (now : Timestamp) :
  same_selection p q ->
  financial_chart ws user chart_type p now = financial_chart ws user chart_type q now.
Proof.
  intros E. unfold financial_chart, filter_data_by_period.
  destruct ws as [s|]; [|reflexivity].
  f_equal.
  destruct (empty (get_processed_records (Some s))); [reflexivity|].
  destruct (where_eq "User" user (get_processed_records (Some s))) as [u|]; [|reflexivity].
  cbn [bind]. destruct (empty u); [reflexivity|].
  now rewrite (E now u).
Qed.

(** C10.  A period selector whose lower-case form is neither [month] nor
    [week] filters nothing and is reported as [all time], without a
    failure of its own: the period block returns the frame it was given,
    and [/balance], [!balance], [/total], [/summary] and [/chart] answer
    as they do for [all].  Matching goes through [lower], so any spelling
    of [month] or [week] in other case selects that period. *)
Theorem unrecognised_selector_is_all_time (period : string) :
  lower period <> "month" -> lower period <> "week" ->
  (forall (now : Timestamp) (df : DataFrame),
      filter_by_period period now df = Some (df, "all time")) /\
  (forall ws user type chart_type now,
      balance ws user period now = balance ws user "all" now /\
      balance_prefix ws user period now = balance_prefix ws user "all" now /\
      total_entries ws user period type now = total_entries ws user "all" type now /\
      financial_summary ws user period type now
        = financial_summary ws user "all" type now /\
      financial_chart ws user chart_type period now
        = financial_chart ws user chart_type "all" now) /\
  (forall q ws user type chart_type now,
      lower q = "month" \/ lower q = "week" ->
      balance ws user q now = balance ws user (lower q) now /\
      balance_prefix ws user q now = balance_prefix ws user (lower q) now /\
      total_entries ws user q type now = total_entries ws user (lower q) type now /\
      financial_summary ws user q type now
        = financial_summary ws user (lower q) type now /\
      financial_chart ws user chart_type q now
        = financial_chart ws user chart_type (lower q) now).
Proof.
  intros Hm Hw. split; [|split].
  - intros now df. now apply filter_by_period_other.
  - intros ws user type chart_type now.
    pose proof (same_selection_other period Hm Hw) as S.
    repeat split.
    + now apply balance_selection.
    + now apply balance_prefix_selection.
    + now apply total_entries_selection.
    + now apply financial_summary_selection.
    + now apply financial_chart_selection.
  - intros q ws user type chart_type now Hq.
    assert (S : same_selection q (lower q)).
    { apply same_selection_lower.
      destruct Hq as [E|E]; rewrite E; symmetry; now apply lower_of_ascii. }
    repeat split.
    + now apply balance_selection.
    + now apply balance_prefix_selection.
    + now apply total_entries_selection.
    + now apply financial_summary_selection.
    + now apply financial_chart_selection.
Qed.

End Selectors.

Lemma unrecognised_selector_is_all_time_witness :
  @lower bot_format "Fortnight" <> "month" /\
  @lower bot_format "Fortnight" <> "week" /\
  @balance bot_format (Some ledger_week) "alice" "Fortnight" wednesday
    = @balance bot_format (Some ledger_week) "alice" "all" wednesday.
Proof.
  assert (Hm : @lower bot_format "Fortnight" <> "month") by (vm_compute; discriminate).
  assert (Hw : @lower bot_format "Fortnight" <> "week") by (vm_compute; discriminate).
  split; [exact Hm|]. split; [exact Hw|].
  exact (proj1 (proj1 (proj2 (@unrecognised_selector_is_all_time bot_format
                                 "Fortnight" Hm Hw))
                 (Some ledger_week) "alice" "All" "income_vs_expense" wednesday)).
Defined.

(** ** A snapshot the normaliser cannot read *)

Section Unreadable.

Context {C : Coercions}.

Lemma get_processed_records_raised (all_values : list (list string)) :
  process_records all_values = None ->
  get_processed_records (Some all_values) = empty_frame.
Proof.
  intros E. unfold get_processed_records. now rewrite E.
Qed.

(** C9.  When the body of [get_processed_records] raises, whatever the
    reason, the function returns the empty frame, and every command then
    answers that there are no transactions for the whole snapshot:
    nothing is propagated and no single row is dropped or defaulted
    instead. *)
Theorem unreadable_snapshot_is_an_empty_ledger (all_values : list (list string)) :
  process_records all_values = None ->
  get_processed_records (Some all_values) = empty_frame /\
  (forall user period type chart_type limit now,
      balance (Some all_values) user period now = NoTransactionsFound /\
      balance_prefix (Some all_values) user period now = NoTransactionsFound /\
      total_entries (Some all_values) user period type now = NoTransactionsFound /\
      financial_summary (Some all_values) user period type now = NoTransactionsFound /\
      financial_history (Some all_values) user limit type = NoTransactionsFound /\
      financial_chart (Some all_values) user chart_type period now
        = NoDataAvailableFor "No data").
Proof.
  intros E. pose proof (get_processed_records_raised all_values E) as R.
  split; [exact R|].
  intros user period type chart_type limit now.
  unfold balance, balance_prefix, total_entries, financial_summary,
    financial_history, financial_chart, filter_data_by_period.
  rewrite R. repeat split; reflexivity.
Qed.

(** The two ways the construction fails: the rows are wider or narrower
    than the header, or [Amount] or [Date] is not the label of exactly one
    column. *)
Lemma process_records_raises (headers : list string) (data_rows : list (list string)) :
  data_rows <> [] -> headers <> [] ->
  (process_records (headers :: data_rows) = None <->
   width data_rows <> List.length headers \/
   loc "Amount" headers = None \/ loc "Date" headers = None).
Proof.
  intros Hr Hh. unfold process_records, DataFrame_of.
  destruct data_rows as [|r rs]; [congruence|].
  destruct (Nat.eqb_spec (width (r :: rs)) (List.length headers)) as [E|E].
  - cbn [bind]. unfold empty. cbn [data columns map].
    destruct headers as [|h hs]; [congruence|].
    destruct (loc "Amount" (h :: hs)) as [a|]; cbn [bind columns fillna assign].
    + destruct (loc "Date" (h :: hs)) as [d|]; cbn [bind].
      * split; [discriminate|]. intros [H|[H|H]]; congruence.
      * split; auto.
    + split; auto.
  - cbn [bind]. split; auto.
Qed.

End Unreadable.

Lemma unreadable_snapshot_is_an_empty_ledger_witness :
  @process_records bot_format ledger_no_amount = None /\
  @process_records bot_format ledger_long_row = None /\
  @get_processed_records bot_format (Some ledger_no_amount) = empty_frame /\
  @get_processed_records bot_format (Some ledger_long_row) = empty_frame.
Proof.
  assert (H1 : @process_records bot_format ledger_no_amount = None) by reflexivity.
  assert (H2 : @process_records bot_format ledger_long_row = None) by reflexivity.
  split; [exact H1|]. split; [exact H2|]. split.
  - exact (proj1 (@unreadable_snapshot_is_an_empty_ledger bot_format ledger_no_amount H1)).
  - exact (proj1 (@unreadable_snapshot_is_an_empty_ledger bot_format ledger_long_row H2)).
Defined.

(** ** The week and the empty period *)

(** C1.  Under [week] the commands keep a row when its ISO week number is
    the current one, whatever its year: the income of Wednesday 15 March
    2023 is counted in the week of Wednesday 13 March 2024, whose Monday
    and Sunday are 11 and 17 March 2024. *)
Theorem week_filter_keeps_other_years :
  iso_week wednesday = 11 /\ iso_year wednesday = 2024 /\
  toordinal wednesday - weekday wednesday = ymd2ord 2024 3 11 /\
  iso_week (mkTimestamp 2023 3 15 34200) = 11 /\
  iso_year (mkTimestamp 2023 3 15 34200) = 2023 /\
  toordinal (mkTimestamp 2023 3 15 34200) < ymd2ord 2024 3 11 /\
  @balance bot_format (Some ledger_2023) "alice" "week" wednesday
    = BalanceSummary "this week" 50.0 0 50.0 /\
  @total_entries bot_format (Some ledger_2023) "alice" "week" "Income" wednesday
    = Total "income" "this week" 50.0 /\
  @financial_summary bot_format (Some ledger_2023) "alice" "week" "All" wednesday
    = FinancialSummary "this week" (Some [("Other", 50.0%Q)]) 50.0 None 0 50.0 /\
  @financial_chart bot_format (Some ledger_2023) "alice" "income_vs_expense" "week"
      wednesday
    = ChartFile "income_vs_expense" "this week" (IncomeVsExpense 50.0 0 50.0).
Proof.
  repeat split; vm_compute; reflexivity.
Qed.

(** C2.  [/balance] and [!balance] have no test after the period block:
    for a user whose rows all fall outside the period they send a summary
    of zeros, where [/total], [/summary] and [/chart] say that nothing was
    found. *)
Theorem balance_reports_zeros_for_an_empty_period :
  @balance bot_format (Some ledger_2020) "alice" "month" wednesday
    = BalanceSummary "this month" 0 0 0 /\
  @balance_prefix bot_format (Some ledger_2020) "alice" "month" wednesday
    = BalanceSummary "this month" 0 0 0 /\
  @total_entries bot_format (Some ledger_2020) "alice" "month" "All" wednesday
    = NoneFoundFor "transactions" "this month" /\
  @financial_summary bot_format (Some ledger_2020) "alice" "month" "All" wednesday
    = NoTransactionsFoundFor "this month" /\
  @financial_chart bot_format (Some ledger_2020) "alice" "balance_over_time" "month"
      wednesday
    = NoDataAvailableFor "this month".
Proof.
  repeat split; vm_compute; reflexivity.
Qed.

(** ** Columns and cells *)

Lemma positions_spec (name : string) (cols : list string) (k i : nat) :
  In i (positions name cols k) <->
  (k <= i)%nat /\ nth_error cols (i - k) = Some name.
Proof.
  revert k. induction cols as [|c cols IH]; intros k; simpl.
  - split; [tauto|]. intros [_ H]. destruct (i - k)%nat; discriminate.
  - destruct (String.eqb_spec c name) as [E|E].
    + simpl. rewrite IH. split.
      * intros [H|[H1 H2]].
        -- subst i. split; [lia|]. rewrite Nat.sub_diag. simpl. now subst.
        -- split; [lia|]. replace (i - k)%nat with (S (i - S k)) by lia. exact H2.
      * intros [H1 H2]. destruct (Nat.eq_dec k i) as [->|N]; [now left|right].
        split; [lia|]. replace (i - k)%nat with (S (i - S k)) in H2 by lia. exact H2.
    + rewrite IH. split.
      * intros [H1 H2]. split; [lia|].
        replace (i - k)%nat with (S (i - S k)) by lia. exact H2.
      * intros [H1 H2]. destruct (Nat.eq_dec k i) as [->|N].
        -- rewrite Nat.sub_diag in H2. simpl in H2. congruence.
        -- split; [lia|]. replace (i - k)%nat with (S (i - S k)) in H2 by lia. exact H2.
Qed.

Lemma loc_Some (name : string) (cols : list string) (i : nat) :
  loc name cols = Some i ->
  nth_error cols i = Some name /\
  forall j, nth_error cols j = Some name -> j = i.
Proof.
  unfold loc. intros H.
  destruct (positions name cols 0) as [|p [|p' ps]] eqn:E; try discriminate.
  injection H as ->.
  assert (S : forall j, In j [i] <-> (0 <= j)%nat /\ nth_error cols (j - 0) = Some name).
  { intros j. rewrite <- E. apply positions_spec. }
  split.
  - destruct (S i) as [S1 _]. destruct S1 as [_ S1]; [now left|].
    now rewrite Nat.sub_0_r in S1.
  - intros j Hj. destruct (S j) as [_ S2].
    destruct S2 as [S2|[]]; [|now symmetry].
    split; [lia|]. now rewrite Nat.sub_0_r.
Qed.

Lemma loc_lt (name : string) (cols : list string) (i : nat) :
  loc name cols = Some i -> (i < List.length cols)%nat.
Proof.
  intros H. apply loc_Some in H. destruct H as [H _].
  apply nth_error_Some. congruence.
Qed.

Lemma update_at_length (i : nat) (f : value -> value) (row : list value) :
  List.length (update_at i f row) = List.length row.
Proof.
  revert i. induction row as [|v row IH]; intros [|i]; simpl; auto.
Qed.

Lemma cell_update_at (i j : nat) (f : value -> value) (row : list value) :
  (j < List.length row)%nat ->
  cell j (update_at i f row) = if Nat.eqb j i then f (cell j row) else cell j row.
Proof.
  unfold cell. revert i j. induction row as [|v row IH]; intros i j H; simpl in H.
  - lia.
  - destruct i as [|i], j as [|j]; simpl; auto.
    apply IH. lia.
Qed.

Lemma fill_row_length (name : string) (d : value) (cols : list string) (row : list value) :
  List.length (fill_row name d cols row) = List.length row.
Proof.
  revert row. induction cols as [|c cols IH]; intros [|v row]; simpl; auto.
Qed.

Lemma cell_fill_row (name : string) (d : value) (cols : list string) (row : list value)
  (j : nat) :
  (j < List.length row)%nat -> (j < List.length cols)%nat ->
  cell j (fill_row name d cols row)
  = if String.eqb (nth j cols "") name && isna (cell j row) then d else cell j row.
Proof.
  unfold cell. revert row j. induction cols as [|c cols IH]; intros [|v row] j Hr Hc;
    simpl in *; try lia.
  destruct j as [|j].
  - destruct (String.eqb c name), (isna v); reflexivity.
  - apply IH; lia.
Qed.

Lemma pad_length (w : nat) (r : list string) :
  (List.length r <= w)%nat -> List.length (pad w r) = w.
Proof.
  intros H. unfold pad. rewrite length_app, length_map, repeat_length. lia.
Qed.

Lemma cell_pad (w : nat) (r : list string) (j : nat) :
  cell j (pad w r) = match nth_error r j with Some s => Str s | None => Null end.
Proof.
  unfold cell, pad. destruct (nth_error r j) as [s|] eqn:E.
  - assert (j < List.length r)%nat by (apply nth_error_Some; congruence).
    rewrite app_nth1 by now rewrite length_map.
    rewrite (nth_indep _ Null (Str "")) by now rewrite length_map.
    rewrite map_nth. f_equal. now apply nth_error_nth.
  - apply nth_error_None in E.
    rewrite app_nth2 by (rewrite length_map; lia).
    destruct (Nat.lt_ge_cases (j - List.length (map Str r)) (w - List.length r)) as [L|L].
    + now rewrite nth_repeat_lt.
    + apply nth_overflow. now rewrite repeat_length.
Qed.

Lemma width_ge (rows : list (list string)) (r : list string) :
  In r rows -> (List.length r <= width rows)%nat.
Proof.
  induction rows as [|x rows IH]; simpl; [tauto|].
  intros [->|H]; [lia|]. specialize (IH H). lia.
Qed.

(** ** What the normaliser leaves in every cell *)

Section Normalised.

Context {C : Coercions}.

Lemma process_records_Some (headers : list string) (rows : list (list string)) (a d : nat) :
  rows <> [] -> width rows = List.length headers ->
  loc "Amount" headers = Some a -> loc "Date" headers = Some d ->
  process_records (headers :: rows)
  = Some (mkDataFrame headers (map (processed_row headers a d (width rows)) rows)).
Proof.
  intros Hr Hw Ha Hd. unfold process_records, DataFrame_of.
  destruct rows as [|r rs]; [congruence|].
  rewrite Hw, Nat.eqb_refl. cbn [bind].
  destruct headers as [|h hs]; [discriminate|].
  replace (empty _) with false by reflexivity.
  cbn [columns]. rewrite Ha. cbn [bind columns fillna assign data]. rewrite Hd.
  cbn [bind]. f_equal. unfold assign, fillna. cbn [columns data]. f_equal.
  rewrite !map_map. reflexivity.
Qed.

Lemma cell_processed_row (headers : list string) (a d : nat) (r : list string) (j : nat) :
  loc "Amount" headers = Some a -> loc "Date" headers = Some d ->
  (List.length r <= List.length headers)%nat -> (j < List.length headers)%nat ->
  cell j (processed_row headers a d (List.length headers) r)
  = normalised (nth j headers "") (nth_error r j).
Proof.
  intros Ha Hd Hr Hj.
  apply loc_Some in Ha. destruct Ha as [Ha Ua].
  apply loc_Some in Hd. destruct Hd as [Hd Ud].
  assert (Hlab : nth_error headers j = Some (nth j headers ""))
    by (now apply nth_error_nth').
  set (lab := nth j headers "") in *.
  assert (Lp : List.length (pad (List.length headers) r) = List.length headers)
    by now apply pad_length.
  unfold processed_row.
  rewrite cell_update_at by (rewrite ?fill_row_length, ?update_at_length, ?Lp; exact Hj).
  rewrite !cell_fill_row by (rewrite ?fill_row_length, ?update_at_length, ?Lp; exact Hj).
  rewrite cell_update_at by (rewrite Lp; exact Hj).
  rewrite cell_pad. fold lab. unfold normalised.
  destruct (Nat.eqb_spec j a) as [Ja|Ja]; destruct (Nat.eqb_spec j d) as [Jd|Jd];
    destruct (String.eqb_spec lab "Amount") as [La|La];
    destruct (String.eqb_spec lab "Date") as [Ld|Ld];
    destruct (String.eqb_spec lab "Category") as [Lc|Lc];
    destruct (String.eqb_spec lab "Type") as [Lt|Lt];
    try congruence;
    try (exfalso; apply Ja; apply Ua; congruence);
    try (exfalso; apply Jd; apply Ud; congruence);
    destruct (nth_error r j) as [s|]; cbn;
    try destruct (to_numeric s); try destruct (to_datetime s); reflexivity.
Qed.

Lemma processed_cells (headers : list string) (rows : list (list string)) (a d : nat) :
  rows <> [] -> width rows = List.length headers ->
  loc "Amount" headers = Some a -> loc "Date" headers = Some d ->
  forall i j raw,
    nth_error rows i = Some raw -> (j < List.length headers)%nat ->
    cell j (nth i (data (get_processed_records (Some (headers :: rows)))) [])
    = normalised (nth j headers "") (nth_error raw j).
Proof.
  intros Hr Hw Ha Hd i j raw Hi Hj. unfold get_processed_records.
  rewrite (process_records_Some headers rows a d Hr Hw Ha Hd). cbn [columns data].
  rewrite (nth_indep _ [] (processed_row headers a d (width rows) [])).
  2:{ rewrite length_map. apply nth_error_Some. congruence. }
  rewrite map_nth, Hw. rewrite (nth_error_nth _ _ _ Hi).
  apply cell_processed_row; auto.
  rewrite <- Hw. apply width_ge. now apply nth_error_In with i.
Qed.

(** C3, amended.  For a snapshot whose rows are as wide as its header and
    whose header labels one column [Amount] and one [Date], the normaliser
    returns as many rows as it was given, in their order, with a value in
    every cell that depends on the raw cell alone: an amount that does not
    parse is 0, a missing category is [Uncategorized], a missing kind is
    [Expense], a date that does not parse is the unknown date, and the
    description is kept as it is, the empty one too. *)
Theorem normalisation_keeps_rows_and_defaults
  (headers : list string) (rows : list (list string)) (a d : nat) :
  rows <> [] -> width rows = List.length headers ->
  loc "Amount" headers = Some a -> loc "Date" headers = Some d ->
  columns (get_processed_records (Some (headers :: rows))) = headers /\
  List.length (data (get_processed_records (Some (headers :: rows)))) = List.length rows /\
  forall i j raw,
    nth_error rows i = Some raw -> (j < List.length headers)%nat ->
    cell j (nth i (data (get_processed_records (Some (headers :: rows)))) [])
    = normalised (nth j headers "") (nth_error raw j).
Proof.
  intros Hr Hw Ha Hd. split; [|split].
  - unfold get_processed_records.
    now rewrite (process_records_Some headers rows a d Hr Hw Ha Hd).
  - unfold get_processed_records.
    rewrite (process_records_Some headers rows a d Hr Hw Ha Hd).
    apply length_map.
  - now apply processed_cells with a d.
Qed.

(** C4, amended.  The amount of a normalised row is the number its raw
    cell parses to, whatever its sign, and 0 when the cell does not parse
    or the row has none: the amount is negative exactly when the raw cell
    parses to a negative number. *)
Theorem amount_is_the_parsed_number
  (headers : list string) (rows : list (list string)) (a d : nat) :
  rows <> [] -> width rows = List.length headers ->
  loc "Amount" headers = Some a -> loc "Date" headers = Some d ->
  forall i raw,
    nth_error rows i = Some raw ->
    (forall s q,
        nth_error raw a = Some s -> to_numeric s = Some q ->
        cell a (nth i (data (get_processed_records (Some (headers :: rows)))) [])
        = Num q) /\
    (forall s,
        nth_error raw a = Some s -> to_numeric s = None ->
        cell a (nth i (data (get_processed_records (Some (headers :: rows)))) [])
        = Num 0) /\
    (nth_error raw a = None ->
     cell a (nth i (data (get_processed_records (Some (headers :: rows)))) [])
     = Num 0) /\
    ((exists q,
         cell a (nth i (data (get_processed_records (Some (headers :: rows)))) [])
         = Num q /\ (q < 0)%Q) <->
     (exists s q, nth_error raw a = Some s /\ to_numeric s = Some q /\ (q < 0)%Q)).
Proof.
  intros Hr Hw Ha Hd i raw Hi.
  rewrite (processed_cells headers rows a d Hr Hw Ha Hd i a raw Hi (loc_lt _ _ _ Ha)).
  destruct (loc_Some _ _ _ Ha) as [Hn _].
  rewrite (nth_error_nth _ _ _ Hn). unfold normalised. cbn.
  destruct (nth_error raw a) as [s|] eqn:Es.
  - destruct (to_numeric s) as [q|] eqn:Eq.
    + split; [|split; [|split]].
      * intros s' q' [= <-] E. congruence.
      * intros s' [= <-] E. congruence.
      * discriminate.
      * split.
        -- intros (q' & [= <-] & L). now exists s, q.
        -- intros (s' & q' & [= <-] & E & L). exists q'. split; [congruence|exact L].
    + split; [|split; [|split]].
      * intros s' q' [= <-] E. congruence.
      * reflexivity.
      * discriminate.
      * split.
        -- intros (q' & [= <-] & L). discriminate L.
        -- intros (s' & q' & [= <-] & E & L). congruence.
  - split; [|split; [|split]].
    + discriminate.
    + discriminate.
    + reflexivity.
    + split.
      * intros (q' & [= <-] & L). discriminate L.
      * intros (s' & q' & E & _). discriminate E.
Qed.

End Normalised.

Lemma normalisation_keeps_rows_and_defaults_witness :
  List.tl ledger_blanks <> [] /\
  width (List.tl ledger_blanks) = List.length HEADERS /\
  loc "Amount" HEADERS = Some 1%nat /\ loc "Date" HEADERS = Some 5%nat /\
  List.length (data (@get_processed_records bot_format (Some ledger_blanks))) = 2%nat.
Proof.
  assert (H1 : List.tl ledger_blanks <> []) by discriminate.
  assert (H2 : width (List.tl ledger_blanks) = List.length HEADERS) by reflexivity.
  assert (H3 : loc "Amount" HEADERS = Some 1%nat) by reflexivity.
  assert (H4 : loc "Date" HEADERS = Some 5%nat) by reflexivity.
  repeat (split; [assumption|]).
  exact (proj1 (proj2 (@normalisation_keeps_rows_and_defaults bot_format
                         HEADERS (List.tl ledger_blanks) 1 5 H1 H2 H3 H4))).
Defined.

(** The claim C3 as it stands fails on the description: the normaliser
    does not put [N/A] where the sheet has an empty description, nor where
    the row has none. *)
Lemma empty_description_is_kept :
  loc "Description" (columns (@get_processed_records bot_format (Some ledger_blanks)))
    = Some 2%nat /\
  map (cell 2) (data (@get_processed_records bot_format (Some ledger_blanks)))
    = [Str ""; Null] /\
  ~ In (Str "N/A")
       (map (cell 2) (data (@get_processed_records bot_format (Some ledger_blanks)))).
Proof.
  split; [reflexivity|]. split; [reflexivity|].
  intros [H|[H|[]]]; discriminate.
Qed.

Lemma amount_is_the_parsed_number_witness :
  List.tl ledger_negative <> [] /\
  width (List.tl ledger_negative) = List.length HEADERS /\
  loc "Amount" HEADERS = Some 1%nat /\ loc "Date" HEADERS = Some 5%nat /\
  nth_error (nth 0 (List.tl ledger_negative) []) 1 = Some "-5.0" /\
  decimal "-5.0" = Some (-5.0)%Q /\
  cell 1 (nth 0 (data (@get_processed_records bot_format (Some ledger_negative))) [])
    = Num (-5.0).
Proof.
  assert (H1 : List.tl ledger_negative <> []) by discriminate.
  assert (H2 : width (List.tl ledger_negative) = List.length HEADERS) by reflexivity.
  assert (H3 : loc "Amount" HEADERS = Some 1%nat) by reflexivity.
  assert (H4 : loc "Date" HEADERS = Some 5%nat) by reflexivity.
  repeat (split; [assumption|]).
  split; [reflexivity|]. split; [reflexivity|].
  exact (proj1 (@amount_is_the_parsed_number bot_format HEADERS (List.tl ledger_negative)
                  1 5 H1 H2 H3 H4 0%nat _ eq_refl)
           "-5.0" (-5.0)%Q eq_refl eq_refl).
Defined.

(** The claim C4 as it stands fails on [/expense amount:-5]: the amount
    of the normalised row is negative. *)
Lemma negative_amount_is_kept :
  cell 1 (nth 0 (data (@get_processed_records bot_format (Some ledger_negative))) [])
    = Num (-5.0) /\
  ~ (0 <= -5.0)%Q.
Proof.
  split; [reflexivity|]. intros H. vm_compute in H. now apply H.
Qed.

(** ** The insertion sort *)

Section SortFacts.

Context {A : Type}.

Variable before : A -> A -> bool.





(** [P] is what is known of the input order, [R] the order wanted. *)
Variables P R : A -> A -> Prop.

Hypothesis behind : forall x y, P x y -> before x y = false -> R y x.
Hypothesis ahead : forall x y, P x y -> before x y = true -> R x y.
Hypothesis ahead_of_rest :
  forall x y z, P x y -> P x z -> before x y = true -> R y z -> R x z.



End SortFacts.

Lemma StronglySorted_app {A : Type} (R : A -> A -> Prop) (l1 l2 : list A) :
  StronglySorted R l1 -> StronglySorted R l2 ->
  (forall x y, In x l1 -> In y l2 -> R x y) ->
  StronglySorted R (l1 ++ l2).
Proof.
  intros H1 H2 H. induction H1 as [|x l1 HS IH Hx]; simpl; [exact H2|].
  constructor.
  - apply IH. intros a b Ha Hb. apply H; [now right|exact Hb].
  - apply Forall_app. split; [exact Hx|].
    rewrite Forall_forall. intros y Hy. apply H; [now left|exact Hy].
Qed.

Lemma StronglySorted_any {A : Type} (l : list A) :
  StronglySorted (fun _ _ => True) l.
Proof.
  induction l; constructor; auto. rewrite Forall_forall. auto.
Qed.

(** ** Grouping *)

Section GroupFacts.

Context {K : Type}.

Variable cmp : K -> K -> comparison.

Hypothesis cmp_eq : forall a b, cmp a b = Eq -> a = b.
Hypothesis cmp_antisym : forall a b, cmp a b = CompOpp (cmp b a).
Hypothesis cmp_trans : forall a b c, cmp a b = Lt -> cmp b c = Lt -> cmp a c = Lt.

Lemma cmp_irrefl (a : K) : cmp a a <> Lt.
Proof.
  intros H. pose proof (cmp_antisym a a) as E. rewrite H in E. discriminate.
Qed.

Lemma upsert_keys (k : K) (q : Q) (m : list (K * Q)) (x : K * Q) :
  In x (upsert cmp k q m) -> fst x = k \/ In (fst x) (map fst m).
Proof.
  induction m as [|[k' q'] m IH]; simpl.
  - intros [<-|[]]. now left.
  - destruct (cmp k k') eqn:E; simpl.
    + intros [<-|H]; simpl; auto. right. right. now apply in_map.
    + intros [<-|[<-|H]]; simpl; auto. right. right. now apply in_map.
    + intros [<-|H]; simpl; auto. destruct (IH H); auto.
Qed.

Lemma upsert_sorted (k : K) (q : Q) (m : list (K * Q)) :
  StronglySorted (key_lt cmp) m -> StronglySorted (key_lt cmp) (upsert cmp k q m).
Proof.
  intros H. induction H as [|[k' q'] m HS IH Hk]; simpl.
  - constructor; constructor.
  - destruct (cmp k k') eqn:E.
    + apply cmp_eq in E. subst k'. constructor; [exact HS|exact Hk].
    + constructor; [now constructor|].
      constructor; [exact E|].
      rewrite Forall_forall in *. intros z Hz. unfold key_lt in *. simpl in *.
      eapply cmp_trans; [exact E|]. now apply Hk.
    + constructor; [exact IH|].
      rewrite Forall_forall in *. intros z Hz. unfold key_lt in *. simpl in *.
      destruct (upsert_keys _ _ _ _ Hz) as [->|Hin].
      * rewrite cmp_antisym, E. reflexivity.
      * apply in_map_iff in Hin. destruct Hin as (y & Ey & Hy).
        rewrite <- Ey. now apply Hk.
Qed.

Lemma fold_add_row_sorted (l : list (option K * Q)) (m : list (K * Q)) :
  StronglySorted (key_lt cmp) m -> StronglySorted (key_lt cmp) (fold_left (add_row cmp) l m).
Proof.
  revert m. induction l as [|[[k|] q] l IH]; intros m H; simpl; auto.
  apply IH. unfold add_row. simpl. now apply upsert_sorted.
Qed.

Lemma groupby_sum_sorted (l : list (option K * Q)) :
  StronglySorted (key_lt cmp) (groupby_sum cmp l).
Proof.
  apply fold_add_row_sorted. constructor.
Qed.

Lemma sorted_keys_NoDup (m : list (K * Q)) :
  StronglySorted (key_lt cmp) m -> NoDup (map fst m).
Proof.
  intros H. induction H as [|x m HS IH Hx]; simpl; constructor; auto.
  intros Hin. apply in_map_iff in Hin. destruct Hin as (y & Ey & Hy).
  rewrite Forall_forall in Hx. specialize (Hx y Hy). unfold key_lt in Hx.
  rewrite Ey in Hx. now apply cmp_irrefl in Hx.
Qed.

Lemma fold_add_row_keys (l : list (option K * Q)) (m : list (K * Q)) (k : K) :
  In k (map fst (fold_left (add_row cmp) l m)) ->
  In k (map fst m) \/ In (Some k) (map fst l).
Proof.
  revert m. induction l as [|[[k'|] q] l IH]; intros m H; simpl in *; auto.
  - destruct (IH _ H) as [Hm|Hl]; auto.
    unfold add_row in Hm. simpl in Hm.
    apply in_map_iff in Hm. destruct Hm as (x & Ex & Hx).
    destruct (upsert_keys _ _ _ _ Hx) as [E|E].
    + right. left. congruence.
    + left. now rewrite <- Ex.
  - destruct (IH _ H) as [Hm|Hl]; auto.
Qed.

Lemma groupby_sum_keys (l : list (option K * Q)) (k : K) :
  In k (map fst (groupby_sum cmp l)) -> In (Some k) (map fst l).
Proof.
  intros H. destruct (fold_add_row_keys l [] k H) as [[]|H']. exact H'.
Qed.

End GroupFacts.

Lemma string_compare_trans (a b c : string) :
  String.compare a b = Lt -> String.compare b c = Lt -> String.compare a c = Lt.
Proof.
  intros H1 H2. apply String_as_OT.cmp_lt.
  apply String_as_OT.cmp_lt in H1. apply String_as_OT.cmp_lt in H2.
  now apply String_as_OT.lt_trans with b.
Qed.

Lemma Z_compare_trans (a b c : Z) :
  Z.compare a b = Lt -> Z.compare b c = Lt -> Z.compare a c = Lt.
Proof.
  rewrite !Z.compare_lt_iff. lia.
Qed.

(** ** The category breakdown *)

Lemma StronglySorted_weaken {A : Type} (R R' : A -> A -> Prop) (l : list A) :
  (forall x y, In x l -> In y l -> R' x y -> R x y) ->
  StronglySorted R' l -> StronglySorted R l.
Proof.
  intros H HS. induction HS as [|x l HS IH Hx]; constructor.
  - apply IH. intros a b Ha Hb. apply H; now right.
  - rewrite Forall_forall in *. intros y Hy.
    apply H; [now left|now right|now apply Hx].
Qed.


Section Breakdown.

Context {C : Coercions}.





End Breakdown.



(** ** History *)

Lemma filter_split_perm {A : Type} (p : A -> bool) (l : list A) :
  Permutation (filter p l ++ filter (fun x => negb (p x)) l) l.
Proof.
  induction l as [|x l IH]; simpl; [constructor|].
  destruct (p x); simpl.
  - now apply perm_skip.
  - eapply perm_trans; [apply Permutation_sym, Permutation_middle|].
    now apply perm_skip.
Qed.

Section History.

Context {C : Coercions}.

Lemma sort_rows_desc_perm {A : Type} (key : A -> option Z) (rows : list A) :
  Permutation (sort_rows_desc key rows) rows.
Proof.
  unfold sort_rows_desc.
  eapply perm_trans; [|apply (filter_split_perm (has_key key))].
  apply Permutation_app_tail. apply quicksort_permutes.
Qed.

Lemma sort_rows_desc_sorted {A : Type} (key : A -> option Z) (rows : list A) :
  StronglySorted (latest_first key) (sort_rows_desc key rows).
Proof.
  unfold sort_rows_desc.
  set (before := fun x y : A => key_or_zero key y <=? key_or_zero key x).
  assert (In_sorted : forall x, In x (quicksort before (filter (has_key key) rows)) ->
                                has_key key x = true).
  { intros x Hx. apply (Permutation_in _ (quicksort_permutes _ _ _)) in Hx.
    now apply filter_In in Hx. }
  apply StronglySorted_app.
  - apply StronglySorted_weaken with (R' := fun x y => before x y = true).
    + intros x y Hx Hy L. apply In_sorted in Hx, Hy. unfold before in L.
      apply Z.leb_le in L.
      unfold latest_first, has_key, key_or_zero in *.
      destruct (key x), (key y); try discriminate. exact L.
    + apply quicksort_orders; unfold before.
      * intros x y.
        destruct (Z.leb_spec (key_or_zero key y) (key_or_zero key x)); [now left|].
        right. apply Z.leb_le. lia.
      * intros x y z B1 B2. apply Z.leb_le in B1, B2. apply Z.leb_le. lia.
  - apply StronglySorted_weaken with (R' := fun _ _ => True);
      [|apply StronglySorted_any].
    intros x y Hx Hy _. apply filter_In in Hx, Hy.
    destruct Hx as [_ Hx], Hy as [_ Hy].
    unfold latest_first, has_key in *. destruct (key x), (key y); try discriminate.
    exact I.
  - intros x y Hx Hy. apply In_sorted in Hx. apply filter_In in Hy.
    destruct Hy as [_ Hy].
    unfold latest_first, has_key in *. destruct (key x), (key y); try discriminate.
    exact I.
Qed.

Lemma head_is_a_prefix {A : Type} (limit : Z) (l : list A) :
  (exists n, head limit l = firstn n l) /\
  (0 <= limit -> head limit l = firstn (Z.to_nat limit) l).
Proof.
  unfold head. split.
  - destruct (0 <=? limit); eexists; reflexivity.
  - intros H. apply Z.leb_le in H. now rewrite H.
Qed.

Lemma entries_of_dates (cols : list string) (d : nat) (rows : list (list value))
  (entries : list entry) :
  loc "Date" cols = Some d -> entries_of cols rows = Some entries ->
  map entry_date entries = map (cell d) rows.
Proof.
  intros Hd. revert entries. induction rows as [|r rows IH]; intros entries H.
  - injection H as <-. reflexivity.
  - cbn [entries_of] in H. unfold entry_of in H at 1. rewrite Hd in H.
    destruct (loc "Amount" cols); [|discriminate].
    destruct (loc "Type" cols); [|discriminate].
    destruct (loc "Description" cols); [|discriminate].
    destruct (loc "Category" cols); [|discriminate].
    cbn [bind] in H.
    destruct (entries_of cols rows) as [es|]; [|discriminate].
    cbn [bind] in H. injection H as <-. cbn [map entry_date]. f_equal. now apply IH.
Qed.

Lemma entries_of_defined (cols : list string) (rows : list (list value)) :
  (forall name, In name HEADERS -> loc name cols <> None) ->
  exists entries, entries_of cols rows = Some entries.
Proof.
  intros H. induction rows as [|r rows [es IH]]; [now exists []|].
  cbn [entries_of]. unfold entry_of.
  destruct (loc "Amount" cols) eqn:Ea; [|exfalso; apply (H "Amount"); cbn; tauto].
  destruct (loc "Type" cols) eqn:Et; [|exfalso; apply (H "Type"); cbn; tauto].
  destruct (loc "Date" cols) eqn:Ed; [|exfalso; apply (H "Date"); cbn; tauto].
  destruct (loc "Description" cols) eqn:Es;
    [|exfalso; apply (H "Description"); cbn; tauto].
  destruct (loc "Category" cols) eqn:Ec; [|exfalso; apply (H "Category"); cbn; tauto].
  cbn [bind]. rewrite IH. cbn [bind]. eexists. reflexivity.
Qed.

(** C8.  What [/history] answers, when it answers with a history, is a
    prefix of the rows of the user, of the type asked for, put latest
    first, the rows without a date after all rows with one: the first
    [limit] of them for a [limit] that is not negative.  It does answer
    so whenever the user has such rows under the columns of the bot. *)
Theorem history_is_latest_first
  (worksheet : option (list (list string))) (user : string) (limit : Z) (type : string)
  (delivered : reply -> bool) :
  (forall entries,
      sent delivered (financial_history worksheet user limit type)
      = RecentHistory entries ->
      exists own kept d sorted,
        where_eq "User" user (get_processed_records worksheet) = Some own /\
        filter_by_type type own = Some kept /\
        loc "Date" (columns kept) = Some d /\
        Permutation sorted (data kept) /\
        StronglySorted (latest_first (fun r => key_instant (cell d r))) sorted /\
        entries_of (columns kept) (head limit sorted) = Some entries /\
        map entry_date entries = map (cell d) (head limit sorted) /\
        (exists n, head limit sorted = firstn n sorted) /\
        (0 <= limit -> head limit sorted = firstn (Z.to_nat limit) sorted)) /\
  (forall own kept,
      worksheet <> None ->
      empty (get_processed_records worksheet) = false ->
      where_eq "User" user (get_processed_records worksheet) = Some own ->
      empty own = false ->
      filter_by_type type own = Some kept ->
      empty kept = false ->
      (forall name, In name HEADERS -> loc name (columns kept) <> None) ->
      exists entries,
        financial_history worksheet user limit type = RecentHistory entries /\
        sent delivered (financial_history worksheet user limit type)
        = if delivered (RecentHistory entries) then RecentHistory entries else Error).
Proof.
  split.
  - intros entries H. unfold sent in H.
    destruct (delivered _); [|discriminate].
    unfold financial_history in H. destruct worksheet as [all_values|]; [|discriminate].
    destruct (empty (get_processed_records (Some all_values))); [discriminate|].
    destruct (where_eq "User" user (get_processed_records (Some all_values)))
      as [own|] eqn:Eo; [|discriminate].
    cbn [bind] in H. destruct (empty own); [discriminate|].
    destruct (filter_by_type type own) as [kept|] eqn:Ek; [|discriminate].
    cbn [bind] in H. destruct (empty kept); [discriminate|].
    unfold recent_entries in H.
    destruct (loc "Date" (columns kept)) as [d|] eqn:Ed; [|discriminate].
    cbn [bind] in H.
    set (sorted := sort_rows_desc (fun r => key_instant (cell d r)) (data kept)) in *.
    destruct (entries_of (columns kept) (head limit sorted)) as [es|] eqn:Ee;
      [|discriminate].
    cbn [bind try] in H. injection H as <-.
    exists own, kept, d, sorted.
    split; [reflexivity|]. split; [exact Ek|]. split; [exact Ed|].
    split; [apply sort_rows_desc_perm|]. split; [apply sort_rows_desc_sorted|].
    split; [exact Ee|]. split; [now apply entries_of_dates with (columns kept)|].
    apply head_is_a_prefix.
  - intros own kept Hw E1 Ho E2 Hk E3 Hcols.
    destruct worksheet as [all_values|]; [|congruence].
    assert (R : exists entries,
               financial_history (Some all_values) user limit type
               = RecentHistory entries).
    { unfold financial_history. rewrite E1, Ho. cbn [bind]. rewrite E2, Hk.
      cbn [bind]. rewrite E3. unfold recent_entries.
      destruct (loc "Date" (columns kept)) as [d|] eqn:Ed;
        [|exfalso; apply (Hcols "Date"); [cbn; tauto|exact Ed]].
      cbn [bind].
      destruct (entries_of_defined (columns kept)
                  (head limit (sort_rows_desc (fun r => key_instant (cell d r))
                                 (data kept))) Hcols) as [es Ees].
      rewrite Ees. cbn [bind try]. now exists es. }
    destruct R as [es R]. exists es. split; [exact R|].
    unfold sent. now rewrite R.
Qed.

End History.

Lemma history_is_latest_first_witness :
  exists entries,
    sent (fun _ => true) (@financial_history bot_format (Some ledger_week) "alice" 2 "All")
    = RecentHistory entries /\
    exists own kept d sorted,
      where_eq "User" "alice" (@get_processed_records bot_format (Some ledger_week))
      = Some own /\
      filter_by_type "All" own = Some kept /\
      loc "Date" (columns kept) = Some d /\
      Permutation sorted (data kept) /\
      StronglySorted (latest_first (fun r => key_instant (cell d r))) sorted /\
      @entries_of (columns kept) (head 2 sorted) = Some entries /\
      map entry_date entries = map (cell d) (head 2 sorted) /\
      (exists n, head 2 sorted = firstn n sorted) /\
      (0 <= 2 -> head 2 sorted = firstn (Z.to_nat 2) sorted).
Proof.
  let v := eval vm_compute in
             (@financial_history bot_format (Some ledger_week) "alice" 2 "All") in
  assert (E : sent (fun _ => true)
                (@financial_history bot_format (Some ledger_week) "alice" 2 "All") = v)
    by (vm_compute; reflexivity).
  match type of E with
  | _ = RecentHistory ?es =>
      exists es; split; [exact E|];
      exact (proj1 (@history_is_latest_first bot_format (Some ledger_week) "alice" 2 "All"
                      (fun _ => true)) es E)
  end.
Defined.

(** ** The daily series *)

Lemma filter_unique_key (k : Z) (m : list (Z * Q)) :
  NoDup (map fst m) ->
  filter (fun kv => fst kv =? k) m
  = match find (fun kv => fst kv =? k) m with Some kv => [kv] | None => [] end.
Proof.
  induction m as [|[k' q] m IH]; simpl; [reflexivity|].
  intros H. inversion H as [|? ? Hn Hm]; subst.
  destruct (Z.eqb_spec k' k) as [->|N]; [|now apply IH].
  f_equal. clear IH Hm H. induction m as [|[k2 q2] m IH]; simpl in *; [reflexivity|].
  destruct (Z.eqb_spec k2 k) as [->|N]; [tauto|]. apply IH. tauto.
Qed.

Lemma merge_left_unique {A : Type} (day_of : A -> Z) (left : list A) (right : list (Z * Q)) :
  NoDup (map fst right) ->
  merge_left day_of left right = map (fun a => (a, sum_at (day_of a) right)) left.
Proof.
  intros H. unfold merge_left.
  rewrite (flat_map_ext _ (fun a => [(a, sum_at (day_of a) right)])).
  - induction left as [|a left IH]; simpl; [reflexivity|]. now rewrite IH.
  - intros a. rewrite (filter_unique_key _ _ H). unfold sum_at.
    destruct (find _ right); reflexivity.
Qed.

Lemma date_df_unique (all_dates : list Z) (daily_income daily_expense : list (Z * Q)) :
  NoDup (map fst daily_income) -> NoDup (map fst daily_expense) ->
  date_df all_dates daily_income daily_expense
  = map (fun rc => mkDailyPoint (fst (fst (fst rc))) (snd (fst (fst rc))) (snd (fst rc))
                     (snd (fst (fst rc)) - snd (fst rc))%Q (snd rc))
        (combine (daily_rows all_dates daily_income daily_expense)
                 (cumsum (map (fun r => (snd (fst r) - snd r)%Q)
                              (daily_rows all_dates daily_income daily_expense)))).
Proof.
  intros Hi He. unfold date_df.
  rewrite (merge_left_unique _ _ _ Hi), (merge_left_unique _ _ _ He).
  unfold daily_rows. rewrite !map_map. reflexivity.
Qed.

Lemma cumsum_from_length (acc : Q) (l : list Q) :
  List.length (cumsum_from acc l) = List.length l.
Proof.
  revert acc. induction l as [|x l IH]; intros acc; simpl; auto.
Qed.

Lemma date_range_length (s e : Z) :
  List.length (date_range s e) = Z.to_nat (e - s + 1).
Proof.
  unfold date_range. now rewrite length_map, length_seq.
Qed.

Lemma date_range_nth (s e : Z) (i : nat) :
  (i < Z.to_nat (e - s + 1))%nat -> nth i (date_range s e) 0 = s + Z.of_nat i.
Proof.
  intros H. unfold date_range.
  rewrite (nth_indep _ 0 (s + Z.of_nat 0)) by now rewrite length_map, length_seq.
  rewrite (map_nth (fun i => s + Z.of_nat i)). now rewrite seq_nth.
Qed.

Lemma date_range_In (s e o : Z) : In o (date_range s e) <-> s <= o <= e.
Proof.
  unfold date_range. rewrite in_map_iff. split.
  - intros (i & <- & Hi). apply in_seq in Hi. lia.
  - intros H. exists (Z.to_nat (o - s)). split; [lia|]. apply in_seq. lia.
Qed.

Lemma NoDup_map_inj {A B : Type} (f : A -> B) (l : list A) :
  (forall x y, f x = f y -> x = y) -> NoDup l -> NoDup (map f l).
Proof.
  intros Hf H. induction H as [|x l Hx H IH]; simpl; constructor; auto.
  intros Hin. apply in_map_iff in Hin. destruct Hin as (y & E & Hy).
  apply Hf in E. now subst.
Qed.

Lemma date_range_NoDup (s e : Z) : NoDup (date_range s e).
Proof.
  unfold date_range. apply NoDup_map_inj; [|apply seq_NoDup].
  intros i j H. lia.
Qed.

Lemma map_fst_combine {A B : Type} (l : list A) (l' : list B) :
  List.length l' = List.length l -> map fst (combine l l') = l.
Proof.
  revert l'. induction l as [|x l IH]; intros [|y l'] H; simpl in *; try lia; auto.
  f_equal. apply IH. lia.
Qed.

Lemma date_df_days (all_dates : list Z) (daily_income daily_expense : list (Z * Q)) :
  NoDup (map fst daily_income) -> NoDup (map fst daily_expense) ->
  map Day (date_df all_dates daily_income daily_expense) = all_dates.
Proof.
  intros Hi He. rewrite (date_df_unique _ _ _ Hi He).
  rewrite map_map. cbn [Day].
  rewrite <- (map_map fst (fun r => fst (fst r))), map_fst_combine.
  2:{ unfold cumsum. now rewrite cumsum_from_length, length_map. }
  unfold daily_rows. rewrite map_map. cbn [fst]. apply map_id.
Qed.

Lemma date_df_In (all_dates : list Z) (daily_income daily_expense : list (Z * Q))
  (p : DailyPoint) :
  NoDup (map fst daily_income) -> NoDup (map fst daily_expense) ->
  In p (date_df all_dates daily_income daily_expense) ->
  Income p = or_zero (sum_at (Day p) daily_income) /\
  Expense p = or_zero (sum_at (Day p) daily_expense) /\
  Balance p = (Income p - Expense p)%Q.
Proof.
  intros Hi He. rewrite (date_df_unique _ _ _ Hi He).
  intros H. apply in_map_iff in H. destruct H as ([[[o i] e] c] & <- & H).
  apply in_combine_l in H. unfold daily_rows in H.
  apply in_map_iff in H. destruct H as (o' & E & _). injection E as -> <- <-.
  cbn. auto.
Qed.

Lemma sum_at_None (k : Z) (m : list (Z * Q)) :
  ~ In k (map fst m) -> sum_at k m = None.
Proof.
  intros H. unfold sum_at.
  destruct (find (fun kv => fst kv =? k) m) as [kv|] eqn:E; [|reflexivity].
  apply find_some in E. destruct E as [E1 E2]. apply Z.eqb_eq in E2.
  exfalso. apply H. rewrite <- E2. now apply in_map.
Qed.

Lemma daily_sum_Some (df : DataFrame) (t d a : nat) (kind : string) :
  loc "Type" (columns df) = Some t -> loc "Date" (columns df) = Some d ->
  loc "Amount" (columns df) = Some a ->
  daily_sum kind df = Some (groupby_sum Z.compare (day_amounts t d a kind df)).
Proof.
  intros Ht Hd Ha. unfold daily_sum, where_eq. rewrite Ht. cbn [bind select columns].
  rewrite Hd, Ha. reflexivity.
Qed.

Lemma daily_sum_NoDup (l : list (option Z * Q)) :
  NoDup (map fst (groupby_sum Z.compare l)).
Proof.
  apply (sorted_keys_NoDup Z.compare).
  - intros x y. apply Z.compare_antisym.
  - apply groupby_sum_sorted.
    + apply Z.compare_eq.
    + intros x y. apply Z.compare_antisym.
    + apply Z_compare_trans.
Qed.

Lemma balance_over_time_Some (df : DataFrame) (start_date end_date : Z) (t d a : nat) :
  loc "Type" (columns df) = Some t -> loc "Date" (columns df) = Some d ->
  loc "Amount" (columns df) = Some a ->
  balance_over_time start_date end_date df
  = Some (date_df (date_range start_date end_date)
            (groupby_sum Z.compare (day_amounts t d a "Income" df))
            (groupby_sum Z.compare (day_amounts t d a "Expense" df))).
Proof.
  intros Ht Hd Ha. unfold balance_over_time.
  rewrite (daily_sum_Some df t d a "Income" Ht Hd Ha).
  rewrite (daily_sum_Some df t d a "Expense" Ht Hd Ha).
  reflexivity.
Qed.

Lemma no_rows_no_sum (df : DataFrame) (t d a : nat) (kind : string) (o : Z) :
  on_day t d kind o df = [] ->
  sum_at o (groupby_sum Z.compare (day_amounts t d a kind df)) = None.
Proof.
  intros H. apply sum_at_None. intros Hin.
  apply groupby_sum_keys in Hin. unfold day_amounts in Hin.
  rewrite map_map in Hin. cbn [fst] in Hin.
  apply in_map_iff in Hin. destruct Hin as (r & Er & Hr).
  apply filter_In in Hr. destruct Hr as [Hr Hk].
  assert (Hin : In r (on_day t d kind o df)).
  { unfold on_day. apply filter_In. split; [exact Hr|].
    rewrite Hk, Er. now rewrite Z.eqb_refl. }
  rewrite H in Hin. exact Hin.
Qed.

(** C6.  Over the days from [start_date] to [end_date] the series has one
    point for each day and no other: as many points as the range has
    days, the point at place [i] standing for day [start_date + i], hence
    in strictly ascending order without a day twice or a day left out.  A
    day on which the frame has no income carries income 0, and a day with
    no expense carries expense 0. *)
Theorem series_has_one_point_per_day
  (df : DataFrame) (start_date end_date : Z) (t d a : nat) :
  loc "Type" (columns df) = Some t -> loc "Date" (columns df) = Some d ->
  loc "Amount" (columns df) = Some a ->
  exists points,
    balance_over_time start_date end_date df = Some points /\
    List.length points = Z.to_nat (end_date - start_date + 1) /\
    (forall i, (i < List.length points)%nat ->
               nth i (map Day points) 0 = start_date + Z.of_nat i) /\
    NoDup (map Day points) /\
    (forall o, start_date <= o <= end_date <-> In o (map Day points)) /\
    (forall p, In p points ->
       (on_day t d "Income" (Day p) df = [] -> Income p = 0%Q) /\
       (on_day t d "Expense" (Day p) df = [] -> Expense p = 0%Q)).
Proof.
  intros Ht Hd Ha. eexists. split; [now apply (balance_over_time_Some df _ _ t d a)|].
  set (inc := groupby_sum Z.compare (day_amounts t d a "Income" df)).
  set (exp := groupby_sum Z.compare (day_amounts t d a "Expense" df)).
  assert (Ni : NoDup (map fst inc)) by apply daily_sum_NoDup.
  assert (Ne : NoDup (map fst exp)) by apply daily_sum_NoDup.
  pose proof (date_df_days (date_range start_date end_date) inc exp Ni Ne) as Days.
  assert (Len : List.length (date_df (date_range start_date end_date) inc exp)
                = Z.to_nat (end_date - start_date + 1)).
  { rewrite <- (length_map Day), Days. apply date_range_length. }
  split; [exact Len|]. rewrite Days.
  split; [intros i Hi; apply date_range_nth; now rewrite <- Len|].
  split; [apply date_range_NoDup|].
  split; [intros o; symmetry; apply date_range_In|].
  intros p Hp. destruct (date_df_In _ _ _ p Ni Ne Hp) as (Ei & Ee & _).
  split; intros H.
  - rewrite Ei. unfold inc. now rewrite (no_rows_no_sum df t d a "Income" _ H).
  - rewrite Ee. unfold exp. now rewrite (no_rows_no_sum df t d a "Expense" _ H).
Qed.

Lemma series_has_one_point_per_day_witness :
  loc "Type" (columns (@get_processed_records bot_format (Some ledger_week)))
    = Some 4%nat /\
  loc "Date" (columns (@get_processed_records bot_format (Some ledger_week)))
    = Some 5%nat /\
  loc "Amount" (columns (@get_processed_records bot_format (Some ledger_week)))
    = Some 1%nat /\
  exists points,
    balance_over_time (ymd2ord 2024 3 11) (ymd2ord 2024 3 17)
      (@get_processed_records bot_format (Some ledger_week)) = Some points /\
    List.length points = 7%nat.
Proof.
  split; [reflexivity|]. split; [reflexivity|]. split; [reflexivity|].
  destruct (series_has_one_point_per_day
              (@get_processed_records bot_format (Some ledger_week))
              (ymd2ord 2024 3 11) (ymd2ord 2024 3 17) 4 5 1 eq_refl eq_refl eq_refl)
    as (points & H1 & H2 & _).
  exists points. split; [exact H1|exact H2].
Defined.

(** ** Sums of a day *)

Lemma sum_at_total_at (o : Z) (m : list (Z * Q)) :
  NoDup (map fst m) -> (or_zero (sum_at o m) == total_at o m)%Q.
Proof.
  intros H. unfold total_at, sum_at. rewrite (filter_unique_key _ _ H).
  destruct (find _ m); simpl; ring.
Qed.

Lemma total_at_upsert (o k : Z) (q : Q) (m : list (Z * Q)) :
  (total_at o (upsert Z.compare k q m)
   == total_at o m + (if k =? o then q else 0))%Q.
Proof.
  unfold total_at, Qsum. induction m as [|[k' q'] m IH].
  - simpl. destruct (k =? o); simpl; ring.
  - cbn [upsert]. destruct (Z.compare k k') eqn:E.
    + apply Z.compare_eq in E. subst k'. cbn [filter fst].
      destruct (k =? o); cbn [map fold_right snd]; ring.
    + cbn [filter fst]. destruct (k =? o), (k' =? o); cbn [map fold_right snd]; ring.
    + cbn [filter fst]. destruct (k' =? o); cbn [map fold_right snd];
        rewrite IH; ring.
Qed.

(** ** The ranges the chart takes *)

Lemma fold_min_le (o : Z) (os : list Z) (x : Z) :
  In x (o :: os) -> fold_right Z.min o os <= x.
Proof.
  induction os as [|y os IH]; simpl.
  - intros [->|[]]. lia.
  - intros [->|[->|H]].
    + specialize (IH (or_introl eq_refl)). lia.
    + lia.
    + specialize (IH (or_intror H)). lia.
Qed.

Lemma fold_max_ge (o : Z) (os : list Z) (x : Z) :
  In x (o :: os) -> x <= fold_right Z.max o os.
Proof.
  induction os as [|y os IH]; simpl.
  - intros [->|[]]. lia.
  - intros [->|[->|H]].
    + specialize (IH (or_introl eq_refl)). lia.
    + lia.
    + specialize (IH (or_intror H)). lia.
Qed.

(** Under [all time] the range of the chart covers every row with a
    date. *)
Lemma all_time_range_covers (period_text : string) (now : Timestamp) (df : DataFrame)
  (d : nat) (start_date end_date : Z) :
  period_text <> "this month" -> period_text <> "this week" ->
  loc "Date" (columns df) = Some d ->
  chart_range period_text now df = Some (start_date, end_date) ->
  forall r o, In r (data df) -> key_day (cell d r) = Some o ->
              start_date <= o <= end_date.
Proof.
  intros Hm Hw Hd H r o Hr Ho. unfold chart_range in H.
  apply String.eqb_neq in Hm. apply String.eqb_neq in Hw.
  rewrite Hm, Hw, Hd in H. cbn [bind] in H.
  assert (Hin : In o (valid_days d df)).
  { unfold valid_days. apply in_flat_map. exists r. split; [exact Hr|].
    rewrite Ho. now left. }
  destruct (valid_days d df) as [|o0 os]; [discriminate|].
  injection H as <- <-. split; [now apply fold_min_le|now apply fold_max_ge].
Qed.

(** Under [this month] the range has as many days as the month, and under
    [this week] it runs from the Monday of the week to today. *)
Lemma month_and_week_ranges (now : Timestamp) (df : DataFrame) :
  (exists s e, chart_range "this month" now df = Some (s, e) /\
               e - s + 1 = days_in_month (year now) (month now)) /\
  (exists s e, chart_range "this week" now df = Some (s, e) /\
               e - s + 1 = weekday now + 1 /\ e = toordinal now).
Proof.
  split.
  - eexists. eexists. split; [reflexivity|]. unfold ymd2ord. lia.
  - eexists. eexists. split; [reflexivity|]. lia.
Qed.

(** * Further properties of the code *)

(** ** The header row *)

Lemma list_eqb_eq (a b : list string) : list_eqb a b = true <-> a = b.
Proof.
  revert b. induction a as [|x a IH]; intros [|y b]; simpl; split; try easy.
  - intros H. apply andb_prop in H. destruct H as [H1 H2].
    apply String.eqb_eq in H1. apply IH in H2. congruence.
  - intros H. injection H as -> ->. rewrite String.eqb_refl. now apply IH.
Qed.

Lemma row_values_1_after_ensure_headers (ws : list (list string)) :
  row_values_1 (fst (ensure_headers ws)) = HEADERS.
Proof.
  unfold ensure_headers.
  destruct (row_values_1 ws) as [|c cs] eqn:E; [reflexivity|].
  destruct (list_eqb (c :: cs) HEADERS) eqn:L; cbn [negb fst]; [|reflexivity].
  apply list_eqb_eq in L. congruence.
Qed.

(** X1.  After [ensure_headers()] the first row reads as the six column names,
    and running it again changes nothing.  It never touches a row below
    the first: the header is put above a sheet whose first row is empty,
    and in the place of a first row that is something else, which is
    lost. *)
Theorem ensure_headers_sets_the_header_once (ws : list (list string)) :
  row_values_1 (fst (ensure_headers ws)) = HEADERS /\
  ensure_headers (fst (ensure_headers ws)) = (fst (ensure_headers ws), true) /\
  (row_values_1 ws = HEADERS -> fst (ensure_headers ws) = ws) /\
  (row_values_1 ws = [] -> fst (ensure_headers ws) = HEADERS :: ws) /\
  (row_values_1 ws <> [] -> row_values_1 ws <> HEADERS ->
   fst (ensure_headers ws) = HEADERS :: List.tl ws).
Proof.
  split; [apply row_values_1_after_ensure_headers|]. split.
  - pose proof (row_values_1_after_ensure_headers ws) as H.
    unfold ensure_headers at 1. rewrite H. reflexivity.
  - unfold ensure_headers. repeat split.
    + intros H. rewrite H. reflexivity.
    + intros H. rewrite H. reflexivity.
    + intros H1 H2. destruct (row_values_1 ws) as [|c cs]; [congruence|].
      destruct (list_eqb (c :: cs) HEADERS) eqn:L; [|reflexivity].
      apply list_eqb_eq in L. congruence.
Qed.

(** ** What the commands read *)

Lemma trim_blanks (r : list string) :
  r = (trim r ++ repeat "" (List.length r - List.length (trim r)))%list.
Proof.
  induction r as [|c r IH]; [reflexivity|].
  cbn [trim]. destruct (trim r) as [|t ts] eqn:E.
  - simpl in IH. rewrite Nat.sub_0_r in IH.
    destruct (String.eqb_spec c "") as [->|N]; simpl;
      rewrite ?Nat.sub_0_r; rewrite <- IH; reflexivity.
  - simpl. simpl in IH. rewrite <- IH. reflexivity.
Qed.

Lemma repeat_app_blank (j k : nat) :
  (repeat "" j ++ repeat "" k)%list = repeat "" (j + k).
Proof.
  now rewrite repeat_app.
Qed.

Lemma get_all_values_length (ws : list (list string)) :
  List.length (get_all_values ws) = List.length ws.
Proof.
  unfold get_all_values. apply length_map.
Qed.

Lemma get_all_values_widths (ws : list (list string)) (r : list string) :
  In r (get_all_values ws) -> List.length r = width ws.
Proof.
  unfold get_all_values. intros H. apply in_map_iff in H.
  destruct H as (r0 & <- & H0). rewrite length_app, repeat_length.
  pose proof (width_ge ws r0 H0). lia.
Qed.

Lemma width_same (rows : list (list string)) (w : nat) :
  rows <> [] -> (forall r, In r rows -> List.length r = w) -> width rows = w.
Proof.
  intros Hne H. induction rows as [|r rows IH]; [congruence|].
  cbn [width fold_right]. fold (width rows).
  rewrite (H r (or_introl eq_refl)).
  destruct rows as [|r' rows']; [cbn; lia|].
  rewrite IH; [lia|discriminate|]. intros x Hx. apply H. now right.
Qed.

(** The values a command reads have the header of the bot, with blank
    labels after it when a row is wider, and rows as wide as this
    header. *)
Lemma snapshot_shape (ws : list (list string)) :
  exists k rows,
    get_all_values (fst (ensure_headers ws)) = (HEADERS ++ repeat "" k)%list :: rows /\
    (forall r, In r rows -> List.length r = (6 + k)%nat) /\
    List.length rows = (List.length (fst (ensure_headers ws)) - 1)%nat.
Proof.
  pose proof (row_values_1_after_ensure_headers ws) as H.
  destruct (fst (ensure_headers ws)) as [|h rest] eqn:E; [discriminate|].
  cbn [row_values_1] in H.
  pose proof (trim_blanks h) as Hh. rewrite H in Hh.
  set (j := (List.length h - List.length HEADERS)%nat) in *.
  assert (Lh : List.length h = (6 + j)%nat).
  { rewrite Hh at 1. rewrite length_app, repeat_length. reflexivity. }
  set (w := width (h :: rest)).
  assert (Hw : (6 + j <= w)%nat).
  { rewrite <- Lh. apply width_ge. now left. }
  exists (w - 6)%nat.
  exists (map (fun r => (r ++ repeat "" (w - List.length r))%list) rest).
  split; [|split].
  - unfold get_all_values. cbn [map]. fold w. f_equal.
    rewrite Hh at 1. rewrite <- app_assoc, repeat_app_blank. f_equal. f_equal. lia.
  - intros r Hr.
    assert (In r (get_all_values (h :: rest))).
    { unfold get_all_values. cbn [map]. right. exact Hr. }
    apply get_all_values_widths in H0. fold w in H0. lia.
  - rewrite length_map. cbn [List.length]. lia.
Qed.

Lemma positions_app (name : string) (l1 l2 : list string) (i : nat) :
  positions name (l1 ++ l2) i
  = (positions name l1 i ++ positions name l2 (i + List.length l1))%list.
Proof.
  revert i. induction l1 as [|c l1 IH]; intros i; cbn [app positions List.length].
  - now rewrite Nat.add_0_r.
  - rewrite IH. replace (S i + List.length l1)%nat with (i + S (List.length l1))%nat by lia.
    destruct (String.eqb c name); reflexivity.
Qed.

Lemma positions_blank (name : string) (k i : nat) :
  name <> "" -> positions name (repeat "" k) i = [].
Proof.
  intros H. revert i. induction k as [|k IH]; intros i; [reflexivity|].
  cbn [repeat positions]. destruct (String.eqb_spec "" name) as [E|_]; [congruence|].
  apply IH.
Qed.

Lemma loc_bot_header (name : string) (k : nat) :
  name <> "" -> loc name (HEADERS ++ repeat "" k) = loc name HEADERS.
Proof.
  intros H. unfold loc. rewrite positions_app, positions_blank by exact H.
  now rewrite app_nil_r.
Qed.

Section BotSheet.

Context {C : Coercions}.

(** On the header of the bot the normaliser does not fall back: every
    data row gives a row of the frame. *)
Lemma bot_header_frame (k : nat) (rows : list (list string)) :
  rows <> [] -> (forall r, In r rows -> List.length r = (6 + k)%nat) ->
  get_processed_records (Some ((HEADERS ++ repeat "" k)%list :: rows))
  = mkDataFrame (HEADERS ++ repeat "" k)
      (map (processed_row (HEADERS ++ repeat "" k) 1 5 (6 + k)) rows).
Proof.
  intros Hne Hw. unfold get_processed_records.
  assert (W : width rows = List.length (HEADERS ++ repeat "" k)%list).
  { rewrite length_app, repeat_length. now apply width_same. }
  rewrite (process_records_Some _ rows 1 5 Hne W).
  - rewrite W, length_app, repeat_length. reflexivity.
  - now rewrite loc_bot_header.
  - now rewrite loc_bot_header.
Qed.

Lemma snapshot_frame (ws : list (list string)) :
  exists k,
    columns (get_processed_records (snapshot ws)) = (HEADERS ++ repeat "" k)%list /\
    List.length (data (get_processed_records (snapshot ws)))
    = (List.length (fst (ensure_headers ws)) - 1)%nat.
Proof.
  unfold snapshot. destruct (snapshot_shape ws) as (k & rows & E & Hw & Hl).
  rewrite E. destruct rows as [|r rows].
  - exists O. split; [reflexivity|]. now rewrite <- Hl.
  - exists k. rewrite (bot_header_frame k (r :: rows)) by (auto; discriminate).
    cbn [columns data]. split; [reflexivity|]. now rewrite length_map.
Qed.

(** X2.  What the commands read is never an unreadable snapshot: after
    [ensure_headers()] the normaliser does not fall back to the empty
    frame, and every row below the header of the sheet reaches the
    reports, under the six column names. *)
Theorem every_sheet_row_reaches_the_reports (ws : list (list string)) :
  process_records (get_all_values (fst (ensure_headers ws))) <> None /\
  List.length (data (get_processed_records (snapshot ws)))
  = (List.length (fst (ensure_headers ws)) - 1)%nat /\
  (forall name, In name HEADERS ->
     loc name (columns (get_processed_records (snapshot ws))) = loc name HEADERS).
Proof.
  split; [|split].
  - destruct (snapshot_shape ws) as (k & rows & E & Hw & _). rewrite E.
    destruct rows as [|r rows]; [discriminate|].
    assert (W : width (r :: rows) = List.length (HEADERS ++ repeat "" k)%list).
    { rewrite length_app, repeat_length. apply width_same; [discriminate|exact Hw]. }
    rewrite (process_records_Some _ (r :: rows) 1 5);
      [discriminate|discriminate|exact W| |]; now rewrite loc_bot_header.
  - destruct (snapshot_frame ws) as (k & _ & H). exact H.
  - intros name Hn. destruct (snapshot_frame ws) as (k & -> & _).
    apply loc_bot_header. intros ->. simpl in Hn.
    repeat (destruct Hn as [Hn|Hn]; [discriminate|]). exact Hn.
Qed.

End BotSheet.

(** ** Commands on the sheet of the bot *)

Lemma loc_on_bot_header (k : nat) :
  loc "User" (HEADERS ++ repeat "" k) = Some 0%nat /\
  loc "Amount" (HEADERS ++ repeat "" k) = Some 1%nat /\
  loc "Description" (HEADERS ++ repeat "" k) = Some 2%nat /\
  loc "Category" (HEADERS ++ repeat "" k) = Some 3%nat /\
  loc "Type" (HEADERS ++ repeat "" k) = Some 4%nat /\
  loc "Date" (HEADERS ++ repeat "" k) = Some 5%nat.
Proof.
  repeat split; rewrite loc_bot_header by discriminate; reflexivity.
Qed.

Lemma entries_of_bot_header (k : nat) (rows : list (list value)) :
  exists es, entries_of (HEADERS ++ repeat "" k) rows = Some es /\
             List.length es = List.length rows.
Proof.
  destruct (loc_on_bot_header k) as (_ & Ha & Hs & Hc & Ht & Hd).
  induction rows as [|r rows (es & E & L)].
  - exists []. split; reflexivity.
  - eexists. cbn [entries_of]. unfold entry_of. rewrite Ha, Ht, Hd, Hs, Hc.
    cbn [bind]. rewrite E. cbn [bind]. split; [reflexivity|]. simpl. now rewrite L.
Qed.

Lemma where_eq_user (s : string) (df : DataFrame) (k : nat) :
  columns df = (HEADERS ++ repeat "" k)%list ->
  where_eq "User" s df = Some (select (fun r => eq_str s (cell 0 r)) df).
Proof.
  intros Hc. unfold where_eq. rewrite Hc.
  now rewrite (proj1 (loc_on_bot_header k)).
Qed.

Lemma where_eq_type (s : string) (df : DataFrame) (k : nat) :
  columns df = (HEADERS ++ repeat "" k)%list ->
  where_eq "Type" s df = Some (select (fun r => eq_str s (cell 4 r)) df).
Proof.
  intros Hc. unfold where_eq. rewrite Hc.
  destruct (loc_on_bot_header k) as (_ & _ & _ & _ & -> & _). reflexivity.
Qed.

Lemma sum_of_amount (df : DataFrame) (k : nat) :
  columns df = (HEADERS ++ repeat "" k)%list ->
  sum_of "Amount" df = Some (Qsum (map (fun r => num (cell 1 r)) (data df))).
Proof.
  intros Hc. unfold sum_of. rewrite Hc.
  destruct (loc_on_bot_header k) as (_ & -> & _). reflexivity.
Qed.

Lemma sum_by_kind_amount (kind : string) (df : DataFrame) (k : nat) :
  columns df = (HEADERS ++ repeat "" k)%list ->
  sum_by_kind kind df
  = Some (Qsum (map (fun r => num (cell 1 r))
                  (filter (fun r => eq_str kind (cell 4 r)) (data df)))).
Proof.
  intros Hc. unfold sum_by_kind. rewrite (where_eq_type kind df k Hc). cbn [bind].
  now rewrite (sum_of_amount _ k) by exact Hc.
Qed.

Lemma groupby_amount_on (by_ : string) (i : nat) (df : DataFrame) (k : nat) :
  columns df = (HEADERS ++ repeat "" k)%list ->
  loc by_ (HEADERS ++ repeat "" k) = Some i ->
  groupby_amount by_ df
  = Some (groupby_sum String.compare
            (map (fun r => (key_str (cell i r), num (cell 1 r))) (data df))).
Proof.
  intros Hc Hi. unfold groupby_amount. rewrite Hc, Hi.
  destruct (loc_on_bot_header k) as (_ & -> & _). reflexivity.
Qed.

Lemma by_category_on {C : Coercions} (df : DataFrame) (k : nat) :
  columns df = (HEADERS ++ repeat "" k)%list ->
  by_category df
  = Some (sort_values_desc
            (groupby_sum String.compare
               (map (fun r => (key_str (cell 3 r), num (cell 1 r))) (data df)))).
Proof.
  intros Hc. unfold by_category.
  rewrite (groupby_amount_on "Category" 3 df k Hc); [reflexivity|].
  now destruct (loc_on_bot_header k) as (_ & _ & _ & -> & _).
Qed.

Lemma filter_by_period_bot_header {C : Coercions} (period : string) (now : Timestamp)
  (df : DataFrame) (k : nat) :
  columns df = (HEADERS ++ repeat "" k)%list ->
  exists kept text,
    filter_by_period period now df = Some (kept, text) /\
    columns kept = (HEADERS ++ repeat "" k)%list.
Proof.
  intros Hc. unfold filter_by_period. rewrite Hc.
  destruct (loc_on_bot_header k) as (_ & _ & _ & _ & _ & ->). cbn [bind].
  destruct (String.eqb (lower period) "month");
    [|destruct (String.eqb (lower period) "week")];
    eexists; eexists; (split; [reflexivity|exact Hc]).
Qed.

Lemma recent_entries_on {C : Coercions} (limit : Z) (df : DataFrame) (k : nat) :
  columns df = (HEADERS ++ repeat "" k)%list ->
  recent_entries limit df
  = Some (head limit (sort_rows_desc (fun r => key_instant (cell 5 r)) (data df))).
Proof.
  intros Hc. unfold recent_entries. rewrite Hc.
  destruct (loc_on_bot_header k) as (_ & _ & _ & _ & _ & ->). reflexivity.
Qed.

Section NeverAnError.

Context {C : Coercions}.

Variable av : list (list string).
Variable k : nat.
Hypothesis Hc : columns (get_processed_records (Some av)) = (HEADERS ++ repeat "" k)%list.

Lemma balance_on_bot_header (user period : string) (now : Timestamp) :
  balance (Some av) user period now <> Error /\
  balance_prefix (Some av) user period now <> Error.
Proof.
  unfold balance, balance_prefix.
  destruct (empty _); [cbn [try]; split; discriminate|].
  rewrite (where_eq_user user _ k Hc). cbn [bind].
  set (u := select _ _).
  assert (Hu : columns u = (HEADERS ++ repeat "" k)%list) by exact Hc.
  destruct (empty u); [cbn [try]; split; discriminate|].
  destruct (filter_by_period_bot_header period now u k Hu) as (kept & text & -> & Hk).
  cbn [bind]. rewrite !(sum_by_kind_amount _ kept k Hk). cbn [bind try].
  split; discriminate.
Qed.

Lemma total_entries_on_bot_header (user period type : string) (now : Timestamp) :
  total_entries (Some av) user period type now <> Error.
Proof.
  unfold total_entries.
  destruct (empty _); [cbn [try]; discriminate|].
  rewrite (where_eq_user user _ k Hc). cbn [bind].
  set (u := select _ _).
  assert (Hu : columns u = (HEADERS ++ repeat "" k)%list) by exact Hc.
  destruct (empty u); [cbn [try]; discriminate|].
  destruct (filter_by_period_bot_header period now u k Hu) as (kept & text & -> & Hk).
  cbn [bind]. unfold filter_by_type.
  destruct (String.eqb type "All"); cbn [bind].
  - destruct (empty kept); [cbn [try]; discriminate|].
    rewrite (sum_of_amount kept k Hk). cbn [bind try]. discriminate.
  - rewrite (where_eq_type type kept k Hk). cbn [bind].
    destruct (empty _); [cbn [try]; discriminate|].
    rewrite (sum_of_amount _ k) by exact Hk. cbn [bind try]. discriminate.
Qed.

Lemma financial_summary_on_bot_header (user period type : string) (now : Timestamp) :
  financial_summary (Some av) user period type now <> Error.
Proof.
  unfold financial_summary.
  destruct (empty _); [cbn [try]; discriminate|].
  rewrite (where_eq_user user _ k Hc). cbn [bind].
  set (u := select _ _).
  assert (Hu : columns u = (HEADERS ++ repeat "" k)%list) by exact Hc.
  destruct (empty u); [cbn [try]; discriminate|].
  destruct (filter_by_period_bot_header period now u k Hu) as (kept & text & -> & Hk).
  cbn [bind]. destruct (empty kept); [cbn [try]; discriminate|].
  rewrite !(where_eq_type _ kept k Hk). cbn [bind].
  rewrite !(sum_of_amount _ k) by exact Hk. cbn [bind].
  unfold section.
  destruct (empty _); destruct (empty _); cbn [bind];
    rewrite ?(by_category_on _ k) by exact Hk; cbn [bind try]; discriminate.
Qed.

Lemma financial_history_on_bot_header (user : string) (limit : Z) (type : string) :
  financial_history (Some av) user limit type <> Error.
Proof.
  unfold financial_history.
  destruct (empty _); [cbn [try]; discriminate|].
  rewrite (where_eq_user user _ k Hc). cbn [bind].
  set (u := select _ _).
  assert (Hu : columns u = (HEADERS ++ repeat "" k)%list) by exact Hc.
  destruct (empty u); [cbn [try]; discriminate|].
  unfold filter_by_type.
  destruct (String.eqb type "All"); cbn [bind].
  - destruct (empty u); [cbn [try]; discriminate|].
    rewrite (recent_entries_on limit u k Hu). cbn [bind]. rewrite Hu.
    destruct (entries_of_bot_header k
                (head limit (sort_rows_desc (fun r => key_instant (cell 5 r)) (data u))))
      as (es & -> & _).
    cbn [bind try]. discriminate.
  - rewrite (where_eq_type type u k Hu). cbn [bind].
    destruct (empty _); [cbn [try]; discriminate|].
    rewrite (recent_entries_on limit _ k) by exact Hu. cbn [bind columns select].
    rewrite Hu.
    match goal with
    | |- context [entries_of _ ?rows] =>
        destruct (entries_of_bot_header k rows) as (es & -> & _)
    end.
    cbn [bind try]. discriminate.
Qed.

End NeverAnError.

(** X3.  On what they read, [/balance], [!balance], [/total], [/summary] and
    [/history] reach their [except] branch through the send alone:
    whatever the rows of the sheet hold, nothing raises before it, and
    the user gets figures or one of the messages that nothing was found
    unless Discord does not take the message. *)
Theorem reports_fail_at_the_send_only {C : Coercions}
  (ws : list (list string)) (user period type : string) (limit : Z) (now : Timestamp)
  (delivered : reply -> bool) :
  (sent delivered (balance (snapshot ws) user period now) = Error <->
   delivered (balance (snapshot ws) user period now) = false) /\
  (sent delivered (balance_prefix (snapshot ws) user period now) = Error <->
   delivered (balance_prefix (snapshot ws) user period now) = false) /\
  (sent delivered (total_entries (snapshot ws) user period type now) = Error <->
   delivered (total_entries (snapshot ws) user period type now) = false) /\
  (sent delivered (financial_summary (snapshot ws) user period type now) = Error <->
   delivered (financial_summary (snapshot ws) user period type now) = false) /\
  (sent delivered (financial_history (snapshot ws) user limit type) = Error <->
   delivered (financial_history (snapshot ws) user limit type) = false).
Proof.
  assert (S : forall r, r <> Error ->
                        (sent delivered r = Error <-> delivered r = false)).
  { intros r N. unfold sent. destruct (delivered r); split; congruence. }
  destruct (snapshot_frame ws) as (k & Hc & _). unfold snapshot in *.
  split; [|split; [|split; [|split]]]; apply S.
  - exact (proj1 (balance_on_bot_header _ k Hc user period now)).
  - exact (proj2 (balance_on_bot_header _ k Hc user period now)).
  - exact (total_entries_on_bot_header _ k Hc user period type now).
  - exact (financial_summary_on_bot_header _ k Hc user period type now).
  - exact (financial_history_on_bot_header _ k Hc user limit type).
Qed.

(** ** Setting a category *)

Lemma set_cell_nth (i j : nat) (v : string) (r : list string) :
  nth j (set_cell i v r) "" = if Nat.eqb j i then v else nth j r "".
Proof.
  revert j r. induction i as [|i IH]; intros j r.
  - destruct r as [|c r]; destruct j as [|j]; simpl; auto. now destruct j.
  - destruct r as [|c r]; destruct j as [|j]; simpl; auto.
    rewrite IH. destruct (Nat.eqb j i); auto. now destruct j.
Qed.

Lemma at_row_length (i : nat) (f : list string -> list string) (ws : list (list string)) :
  (i < List.length ws)%nat -> List.length (at_row i f ws) = List.length ws.
Proof.
  revert ws. induction i as [|i IH]; intros [|r ws] H; simpl in *; try lia.
  rewrite IH; lia.
Qed.

Lemma at_row_nth (i j : nat) (f : list string -> list string) (ws : list (list string)) :
  (i < List.length ws)%nat ->
  nth j (at_row i f ws) [] = if Nat.eqb j i then f (nth j ws []) else nth j ws [].
Proof.
  revert j ws. induction i as [|i IH]; intros j [|r ws] H; simpl in *; try lia.
  - now destruct j.
  - destruct j as [|j]; [reflexivity|]. apply IH. lia.
Qed.

Lemma ensure_headers_not_empty (ws : list (list string)) :
  (1 <= List.length (fst (ensure_headers ws)))%nat.
Proof.
  pose proof (row_values_1_after_ensure_headers ws) as H.
  destruct (fst (ensure_headers ws)); [discriminate|]. simpl. lia.
Qed.

(** X5.  With an [entry_id] from 1 to the number of rows below the header,
    [/category] writes the category into the fourth cell of that row of
    the sheet, whoever recorded it, and changes no other cell: the header
    and every other row stay as they are. *)
Theorem set_category_writes_one_cell
  (ws : list (list string)) (entry_id : Z) (category : string) :
  1 <= entry_id <= Z.of_nat (List.length (fst (ensure_headers ws))) - 1 ->
  snd (set_category ws entry_id category) = CategorySet entry_id category /\
  List.length (fst (set_category ws entry_id category))
  = List.length (fst (ensure_headers ws)) /\
  (forall i, i <> Z.to_nat entry_id ->
     nth i (fst (set_category ws entry_id category)) []
     = nth i (fst (ensure_headers ws)) []) /\
  (forall j,
     nth j (nth (Z.to_nat entry_id) (fst (set_category ws entry_id category)) []) ""
     = if Nat.eqb j 3 then category
       else nth j (nth (Z.to_nat entry_id) (fst (ensure_headers ws)) []) "").
Proof.
  intros H. unfold set_category. rewrite get_all_values_length.
  set (hws := fst (ensure_headers ws)) in *.
  destruct (Z.leb_spec (Z.of_nat (List.length hws)) 1) as [L|L]; [lia|].
  destruct (Z.leb_spec 1 entry_id) as [L1|L1]; [|lia].
  destruct (Z.leb_spec entry_id (Z.of_nat (List.length hws) - 1)) as [L2|L2]; [|lia].
  cbn [andb fst snd]. unfold update_cell.
  replace (Z.to_nat (entry_id + 1) - 1)%nat with (Z.to_nat entry_id) by lia.
  assert (Hi : (Z.to_nat entry_id < List.length hws)%nat) by lia.
  split; [reflexivity|]. split; [now apply at_row_length|]. split.
  - intros i Hne. rewrite at_row_nth by exact Hi.
    destruct (Nat.eqb_spec i (Z.to_nat entry_id)); [contradiction|reflexivity].
  - intros j. rewrite at_row_nth by exact Hi. rewrite Nat.eqb_refl.
    apply set_cell_nth.
Qed.

Lemma set_category_writes_one_cell_witness :
  1 <= 2 <= Z.of_nat (List.length (fst (ensure_headers ledger_ties))) - 1 /\
  fst (set_category ledger_ties 2 "Utilities")
  = [HEADERS;
     ["alice"; "10.0"; "lunch"; "Food"; "Expense"; "2024-03-11 12:00:00"];
     ["alice"; "10.0"; "power"; "Utilities"; "Expense"; "2024-03-12 12:00:00"];
     ["alice"; "10.0"; "room"; "Rent"; "Expense"; "2024-03-13 09:00:00"]] /\
  snd (set_category ledger_ties 2 "Utilities") = CategorySet 2 "Utilities".
Proof.
  assert (H : 1 <= 2 <= Z.of_nat (List.length (fst (ensure_headers ledger_ties))) - 1)
    by (vm_compute; split; discriminate).
  split; [exact H|]. split; [reflexivity|].
  exact (proj1 (set_category_writes_one_cell ledger_ties 2 "Utilities" H)).
Defined.

(** X6.  Any other [entry_id] leaves the sheet as [ensure_headers()] left it:
    the answer names the valid range, or says that there is nothing to
    categorize when the sheet has no row below the header. *)
Theorem set_category_rejects_other_ids
  (ws : list (list string)) (entry_id : Z) (category : string) :
  ~ (1 <= entry_id <= Z.of_nat (List.length (fst (ensure_headers ws))) - 1) ->
  fst (set_category ws entry_id category) = fst (ensure_headers ws) /\
  snd (set_category ws entry_id category)
  = if Nat.eqb (List.length (fst (ensure_headers ws))) 1 then NoEntries
    else InvalidEntryId (Z.of_nat (List.length (fst (ensure_headers ws))) - 1).
Proof.
  intros H. unfold set_category. rewrite get_all_values_length.
  pose proof (ensure_headers_not_empty ws) as Hne.
  set (hws := fst (ensure_headers ws)) in *.
  destruct (Z.leb_spec (Z.of_nat (List.length hws)) 1) as [L|L].
  - cbn [fst snd]. split; [reflexivity|].
    destruct (Nat.eqb_spec (List.length hws) 1); [reflexivity|lia].
  - destruct (Z.leb_spec 1 entry_id) as [L1|L1];
      destruct (Z.leb_spec entry_id (Z.of_nat (List.length hws) - 1)) as [L2|L2];
      try lia; cbn [andb fst snd]; (split; [reflexivity|]);
      destruct (Nat.eqb_spec (List.length hws) 1); try lia; reflexivity.
Qed.

Lemma set_category_rejects_other_ids_witness :
  ~ (1 <= 0 <= Z.of_nat (List.length (fst (ensure_headers ledger_ties))) - 1) /\
  fst (set_category ledger_ties 0 "Utilities") = ledger_ties /\
  snd (set_category ledger_ties 0 "Utilities") = InvalidEntryId 3.
Proof.
  assert (H : ~ (1 <= 0 <= Z.of_nat (List.length (fst (ensure_headers ledger_ties))) - 1))
    by (intros [H _]; now apply H).
  split; [exact H|].
  exact (set_category_rejects_other_ids ledger_ties 0 "Utilities" H).
Defined.

(** ** Reading back what was written *)

Lemma snapshot_rows (ws : list (list string)) :
  get_all_values (fst (ensure_headers ws))
  = (HEADERS ++ repeat "" (width (fst (ensure_headers ws)) - 6))%list
    :: map (fun r => (r ++ repeat "" (width (fst (ensure_headers ws)) - List.length r))%list)
           (List.tl (fst (ensure_headers ws))) /\
  (6 <= width (fst (ensure_headers ws)))%nat.
Proof.
  pose proof (row_values_1_after_ensure_headers ws) as H.
  destruct (fst (ensure_headers ws)) as [|h rest] eqn:E; [discriminate|].
  cbn [row_values_1] in H.
  pose proof (trim_blanks h) as Hh. rewrite H in Hh.
  set (j := (List.length h - List.length HEADERS)%nat) in *.
  assert (Lh : List.length h = (6 + j)%nat).
  { rewrite Hh at 1. rewrite length_app, repeat_length. reflexivity. }
  set (w := width (h :: rest)).
  assert (Hw : (6 + j <= w)%nat).
  { rewrite <- Lh. apply width_ge. now left. }
  split; [|lia].
  unfold get_all_values. cbn [map List.tl]. fold w. f_equal.
  rewrite Hh at 1. rewrite <- app_assoc, repeat_app_blank. f_equal. f_equal. lia.
Qed.

Lemma snapshot_data {C : Coercions} (ws : list (list string)) :
  data (get_processed_records (snapshot ws))
  = map (fun r =>
           processed_row (HEADERS ++ repeat "" (width (fst (ensure_headers ws)) - 6)) 1 5
             (width (fst (ensure_headers ws)))
             (r ++ repeat "" (width (fst (ensure_headers ws)) - List.length r))%list)
        (List.tl (fst (ensure_headers ws))).
Proof.
  unfold snapshot. destruct (snapshot_rows ws) as [E Hw]. rewrite E.
  set (w := width (fst (ensure_headers ws))) in *.
  destruct (List.tl (fst (ensure_headers ws))) as [|r rest] eqn:T; [reflexivity|].
  rewrite bot_header_frame.
  - cbn [data]. rewrite map_map. replace (6 + (w - 6))%nat with w by lia. reflexivity.
  - discriminate.
  - intros x Hx. apply in_map_iff in Hx. destruct Hx as (x0 & <- & Hx0).
    rewrite length_app, repeat_length.
    assert (List.length x0 <= w)%nat.
    { apply width_ge. destruct (fst (ensure_headers ws)) as [|h t]; [discriminate|].
      cbn [List.tl] in T. subst t. now right. }
    lia.
Qed.

Lemma cell_on_bot_header {C : Coercions} (w j : nat) (r : list string) :
  (6 <= w)%nat -> (List.length r <= w)%nat -> (j < 6)%nat ->
  cell j (processed_row (HEADERS ++ repeat "" (w - 6)) 1 5 w
            (r ++ repeat "" (w - List.length r))%list)
  = normalised (nth j HEADERS "") (Some (nth j r "")).
Proof.
  intros Hw Hr Hj.
  assert (L : List.length (HEADERS ++ repeat "" (w - 6))%list = w).
  { rewrite length_app, repeat_length. simpl. lia. }
  rewrite <- L at 2.
  rewrite cell_processed_row.
  - rewrite app_nth1 by (simpl; lia). f_equal.
    destruct (Nat.lt_ge_cases j (List.length r)) as [Lt|Ge].
    + rewrite nth_error_app1 by exact Lt. now apply nth_error_nth'.
    + rewrite nth_error_app2 by exact Ge. rewrite (nth_overflow r) by exact Ge.
      apply nth_error_repeat. lia.
  - now rewrite loc_bot_header.
  - now rewrite loc_bot_header.
  - rewrite L, length_app, repeat_length. lia.
  - rewrite L. lia.
Qed.

Lemma ensure_headers_fixed (ws : list (list string)) :
  row_values_1 ws = HEADERS -> fst (ensure_headers ws) = ws.
Proof.
  intros H. unfold ensure_headers. rewrite H. reflexivity.
Qed.

Lemma ensure_headers_after_append (ws : list (list string)) (row : list string) :
  fst (ensure_headers (append_row row (fst (ensure_headers ws))))
  = append_row row (fst (ensure_headers ws)).
Proof.
  apply ensure_headers_fixed.
  pose proof (row_values_1_after_ensure_headers ws) as H.
  unfold append_row. destruct (fst (ensure_headers ws)); [discriminate|exact H].
Qed.

Lemma tl_append_row (row : list string) (ws : list (list string)) :
  ws <> [] -> List.tl (append_row row ws) = (List.tl ws ++ [row])%list.
Proof.
  destruct ws; [congruence|reflexivity].
Qed.

(** X7.  What [/expense] and [/income] record is read back by the reports as
    one more row, the last: with the user, the category and the kind as
    they were given, the amount and the date as pandas reads their text,
    and a description that is never blank, [N/A] standing for one that
    was. *)
Theorem recorded_row_is_read_back {C : Coercions}
  (kind : string) (ws : list (list string))
  (user amount description category current_time : string) :
  List.length (data (get_processed_records
                       (snapshot (fst (record kind ws user amount description category
                                         current_time)))))
  = S (List.length (data (get_processed_records (snapshot ws)))) /\
  exists recorded,
    blank recorded = false /\
    recorded = (if blank description then "N/A" else description) /\
    map (fun j => cell j (last (data (get_processed_records
                  (snapshot (fst (record kind ws user amount description category
                                    current_time))))) []))
        [0; 1; 2; 3; 4; 5]%nat
    = [Str user;
       Num (match to_numeric amount with Some q => q | None => 0%Q end);
       Str recorded; Str category; Str kind;
       match to_datetime current_time with Some t => Time t | None => Null end].
Proof.
  unfold record. cbn [fst].
  set (recorded := if blank description then "N/A" else description).
  set (x := [user; amount; recorded; category; kind; current_time]).
  set (hws := fst (ensure_headers ws)).
  assert (Hne : hws <> []).
  { pose proof (ensure_headers_not_empty ws). fold hws in H.
    intros E. rewrite E in H. simpl in H. lia. }
  pose proof (snapshot_data (append_row x hws)) as D.
  unfold hws in D. rewrite ensure_headers_after_append in D. fold hws in D.
  rewrite tl_append_row in D by exact Hne.
  destruct (snapshot_rows (append_row x hws)) as [_ W].
  unfold hws in W. rewrite ensure_headers_after_append in W. fold hws in W.
  set (w := width (append_row x hws)) in *.
  split.
  - rewrite D, (snapshot_data ws), !length_map, length_app. fold hws. simpl. lia.
  - exists recorded. split; [|split; [reflexivity|]].
    + unfold recorded. destruct (blank description) eqn:B; [reflexivity|exact B].
    + rewrite D, map_app. cbn [map]. rewrite last_last.
      assert (Lx : (List.length x <= w)%nat) by (simpl; exact W).
      rewrite !(cell_on_bot_header w _ x W Lx) by lia.
      reflexivity.
Qed.

Lemma recorded_row_is_read_back_witness :
  blank no_break_space = true /\ blank zero_width_space = false /\
  cell 2 (last (data (@get_processed_records bot_format
                        (snapshot (fst (add_expense ledger_week "alice" "5.0"
                                          no_break_space "Food"
                                          "2024-03-13 12:00:00"))))) [])
  = Str "N/A" /\
  cell 2 (last (data (@get_processed_records bot_format
                        (snapshot (fst (add_income ledger_week "alice" "5.0"
                                          zero_width_space "Gifts"
                                          "2024-03-13 12:00:00"))))) [])
  = Str zero_width_space.
Proof.
  split; [reflexivity|]. split; [reflexivity|]. split.
  - destruct (proj2 (@recorded_row_is_read_back bot_format "Expense" ledger_week
                       "alice" "5.0" no_break_space "Food" "2024-03-13 12:00:00"))
      as (recorded & _ & E & M).
    apply (f_equal (fun l => nth 2 l Null)) in M. cbn [map nth] in M.
    rewrite E in M. exact M.
  - destruct (proj2 (@recorded_row_is_read_back bot_format "Income" ledger_week
                       "alice" "5.0" zero_width_space "Gifts" "2024-03-13 12:00:00"))
      as (recorded & _ & E & M).
    apply (f_equal (fun l => nth 2 l Null)) in M. cbn [map nth] in M.
    rewrite E in M. exact M.
Defined.

Lemma snapshot_cell {C : Coercions} (ws : list (list string)) (i j : nat) :
  (S i < List.length (fst (ensure_headers ws)))%nat -> (j < 6)%nat ->
  cell j (nth i (data (get_processed_records (snapshot ws))) [])
  = normalised (nth j HEADERS "") (Some (nth j (nth (S i) (fst (ensure_headers ws)) []) "")).
Proof.
  intros Hi Hj. rewrite snapshot_data.
  destruct (snapshot_rows ws) as [_ W].
  set (hws := fst (ensure_headers ws)) in *.
  set (w := width hws) in *.
  assert (Lt : (i < List.length (List.tl hws))%nat).
  { destruct hws; simpl in *; lia. }
  set (F := fun r : list string => processed_row _ 1 5 w (r ++ repeat "" (w - List.length r))%list).
  rewrite (nth_indep _ [] (F [])) by now rewrite length_map.
  rewrite (map_nth F). unfold F.
  assert (E : nth i (List.tl hws) [] = nth (S i) hws [])
    by (destruct hws; [destruct i|]; reflexivity).
  rewrite E.
  apply cell_on_bot_header; [exact W| |exact Hj].
  apply width_ge. apply nth_In. exact Hi.
Qed.

(** X8.  The category [/category] sets is the one the reports read for that
    entry, and every other cell of every entry reads as before. *)
Theorem category_set_is_read_back {C : Coercions}
  (ws : list (list string)) (entry_id : Z) (category : string) :
  1 <= entry_id <= Z.of_nat (List.length (fst (ensure_headers ws))) - 1 ->
  List.length (data (get_processed_records
                       (snapshot (fst (set_category ws entry_id category)))))
  = List.length (data (get_processed_records (snapshot ws))) /\
  cell 3 (nth (Z.to_nat entry_id - 1)
            (data (get_processed_records
                     (snapshot (fst (set_category ws entry_id category))))) [])
  = Str category /\
  (forall i j,
     (i < List.length (data (get_processed_records (snapshot ws))))%nat -> (j < 6)%nat ->
     i <> (Z.to_nat entry_id - 1)%nat \/ j <> 3%nat ->
     cell j (nth i (data (get_processed_records
                            (snapshot (fst (set_category ws entry_id category))))) [])
     = cell j (nth i (data (get_processed_records (snapshot ws))) [])).
Proof.
  intros H. unfold set_category. rewrite get_all_values_length.
  set (hws := fst (ensure_headers ws)) in *.
  destruct (Z.leb_spec (Z.of_nat (List.length hws)) 1) as [L|L]; [lia|].
  destruct (Z.leb_spec 1 entry_id) as [L1|L1]; [|lia].
  destruct (Z.leb_spec entry_id (Z.of_nat (List.length hws) - 1)) as [L2|L2]; [|lia].
  cbn [andb fst]. unfold update_cell.
  replace (Z.to_nat (entry_id + 1) - 1)%nat with (Z.to_nat entry_id) by lia.
  change (4 - 1)%nat with 3%nat.
  set (n := Z.to_nat entry_id).
  assert (Hn : (n < List.length hws)%nat) by lia.
  assert (Hn1 : (1 <= n)%nat) by lia.
  set (ws1 := at_row n (set_cell 3 category) hws).
  assert (Len : List.length ws1 = List.length hws) by now apply at_row_length.
  assert (Fix : fst (ensure_headers ws1) = ws1).
  { apply ensure_headers_fixed.
    pose proof (row_values_1_after_ensure_headers ws) as R. fold hws in R.
    assert (E0 : nth 0 ws1 [] = nth 0 hws []).
    { unfold ws1. rewrite at_row_nth by exact Hn.
      destruct (Nat.eqb_spec 0 n); [lia|reflexivity]. }
    destruct ws1 as [|r1 t1]; [simpl in Len; lia|].
    destruct hws as [|r0 t0]; [simpl in Hn; lia|].
    simpl in E0. subst r1. exact R. }
  assert (LenD : forall s, List.length (data (get_processed_records (snapshot s)))
                           = (List.length (fst (ensure_headers s)) - 1)%nat).
  { intros s. destruct (snapshot_frame s) as (k & _ & E). exact E. }
  split; [|split].
  - rewrite !LenD, Fix, Len. reflexivity.
  - rewrite snapshot_cell by (rewrite ?Fix, ?Len; lia).
    rewrite Fix. replace (S (n - 1)) with n by lia.
    unfold ws1. rewrite at_row_nth by exact Hn. rewrite Nat.eqb_refl.
    rewrite set_cell_nth. reflexivity.
  - intros i j Hi Hj Hne. rewrite LenD in Hi. fold hws in Hi.
    rewrite !snapshot_cell by (rewrite ?Fix, ?Len; fold hws; lia).
    rewrite Fix. fold hws. do 2 f_equal.
    unfold ws1. rewrite at_row_nth by exact Hn.
    destruct (Nat.eqb_spec (S i) n) as [E|E]; [|reflexivity].
    rewrite set_cell_nth.
    destruct (Nat.eqb_spec j 3) as [E3|E3]; [|reflexivity].
    exfalso. destruct Hne as [N|N]; [apply N; lia|contradiction].
Qed.

Lemma category_set_is_read_back_witness :
  1 <= 2 <= Z.of_nat (List.length (fst (ensure_headers ledger_ties))) - 1 /\
  cell 3 (nth (Z.to_nat 2 - 1)
            (data (@get_processed_records bot_format
                     (snapshot (fst (set_category ledger_ties 2 "Utilities"))))) [])
  = Str "Utilities".
Proof.
  assert (H : 1 <= 2 <= Z.of_nat (List.length (fst (ensure_headers ledger_ties))) - 1)
    by (vm_compute; split; discriminate).
  split; [exact H|].
  exact (proj1 (proj2 (@category_set_is_read_back bot_format ledger_ties 2 "Utilities" H))).
Defined.

(** ** Categories offered by the autocompletion *)

Lemma first_seen_In (seen l : list string) (x : string) :
  In x (first_seen seen l) <-> In x l /\ ~ In x seen.
Proof.
  revert seen. induction l as [|s l IH]; intros seen; cbn [first_seen].
  - simpl. tauto.
  - destruct (existsb (String.eqb s) seen) eqn:E.
    + apply existsb_exists in E. destruct E as (y & Hy & Ey).
      apply String.eqb_eq in Ey. subst y.
      rewrite IH. simpl. split; [tauto|].
      intros [[->|H] N]; tauto.
    + assert (Ns : ~ In s seen).
      { intros Hin. apply Bool.not_true_iff_false in E. apply E.
        apply existsb_exists. exists s. split; [exact Hin|apply String.eqb_refl]. }
      simpl. rewrite IH. simpl. split.
      * intros [<-|[H N]]; [tauto|]. split; [tauto|]. intros Hx. apply N. now right.
      * intros [[->|H] N]; [now left|]. destruct (string_dec s x) as [->|D]; [now left|].
        right. split; [exact H|]. intros [Hx|Hx]; tauto.
Qed.

Lemma first_seen_NoDup (seen l : list string) : NoDup (first_seen seen l).
Proof.
  revert seen. induction l as [|s l IH]; intros seen; cbn [first_seen]; [constructor|].
  destruct (existsb (String.eqb s) seen); [apply IH|].
  constructor; [|apply IH]. rewrite first_seen_In. intros [_ N]. apply N. now left.
Qed.

Lemma insert_unique_In (s x : string) (l : list string) :
  In x (insert_unique s l) <-> x = s \/ In x l.
Proof.
  induction l as [|y l IH]; cbn [insert_unique]; [simpl; intuition|].
  destruct (String.compare s y) eqn:E.
  - apply String.compare_eq_iff in E. subst y. simpl. intuition.
  - simpl. intuition.
  - simpl. rewrite IH. intuition.
Qed.

Lemma sorted_set_In (x : string) (l : list string) : In x (sorted_set l) <-> In x l.
Proof.
  induction l as [|s l IH]; [reflexivity|].
  unfold sorted_set. cbn [fold_right]. fold (sorted_set l).
  rewrite insert_unique_In, IH. simpl. intuition.
Qed.

Lemma insert_unique_sorted (s : string) (l : list string) :
  StronglySorted (fun a b => String.compare a b = Lt) l ->
  StronglySorted (fun a b => String.compare a b = Lt) (insert_unique s l).
Proof.
  intros H. induction H as [|y l HS IH Hy]; cbn [insert_unique].
  - constructor; constructor.
  - destruct (String.compare s y) eqn:E.
    + now constructor.
    + constructor; [now constructor|]. constructor; [exact E|].
      rewrite Forall_forall in *. intros z Hz.
      apply string_compare_trans with y; [exact E|now apply Hy].
    + constructor; [exact IH|].
      rewrite Forall_forall in *. intros z Hz.
      apply insert_unique_In in Hz. destruct Hz as [->|Hz]; [|now apply Hy].
      rewrite String.compare_antisym, E. reflexivity.
Qed.

Lemma sorted_set_sorted (l : list string) :
  StronglySorted (fun a b => String.compare a b = Lt) (sorted_set l).
Proof.
  induction l as [|s l IH]; [constructor|].
  unfold sorted_set. cbn [fold_right]. now apply insert_unique_sorted.
Qed.

Lemma strings_In (s : string) (l : list value) : In s (strings l) <-> In (Str s) l.
Proof.
  unfold strings. rewrite in_flat_map. split.
  - intros (v & Hv & Hs). destruct v; try destruct Hs as [Hs|[]]; try destruct Hs.
    now subst.
  - intros H. exists (Str s). split; [exact H|now left].
Qed.

(** X9.  [get_categories()] never returns an empty list and names no category
    twice: it is the categories of the sheet, each where it is first
    seen, and the eight default ones when the sheet has no row to read
    or no single [Category] column. *)
Theorem get_categories_are_distinct_or_default {C : Coercions}
  (worksheet : option (list (list string))) :
  get_categories worksheet <> [] /\
  NoDup (get_categories worksheet) /\
  (data (get_processed_records worksheet) = [] ->
   get_categories worksheet = DEFAULT_CATEGORIES) /\
  (loc "Category" (columns (get_processed_records worksheet)) = None ->
   get_categories worksheet = DEFAULT_CATEGORIES) /\
  (forall c i row,
     loc "Category" (columns (get_processed_records worksheet)) = Some i ->
     In row (data (get_processed_records worksheet)) -> cell i row = Str c ->
     In c (get_categories worksheet)).
Proof.
  unfold get_categories. set (df := get_processed_records worksheet).
  assert (ND : NoDup DEFAULT_CATEGORIES).
  { repeat (constructor; [simpl; intuition discriminate|]). constructor. }
  destruct (loc "Category" (columns df)) as [c|].
  - set (l := strings (map (cell c) (data df))).
    pose proof (first_seen_NoDup [] l) as Nd.
    pose proof (first_seen_In [] l) as In_.
    destruct (first_seen [] l) as [|x xs] eqn:E.
    + split; [discriminate|]. split; [exact ND|]. split; [reflexivity|].
      split; [reflexivity|].
      intros s i row Hi Hr Hc. injection Hi as <-.
      exfalso. apply (proj2 (In_ s)). split; [|tauto].
      unfold l. apply strings_In. rewrite <- Hc. now apply in_map.
    + split; [discriminate|]. split; [exact Nd|]. split.
      * intros Hd. unfold l in E. rewrite Hd in E. discriminate.
      * split; [discriminate|].
        intros s i row Hi Hr Hc. injection Hi as <-.
        apply In_. split; [|tauto].
        unfold l. apply strings_In. rewrite <- Hc. now apply in_map.
  - split; [discriminate|]. split; [exact ND|]. split; [reflexivity|].
    split; [reflexivity|]. discriminate.
Qed.

(** X10.  [get_all_categories()] is in strictly ascending order, so without a
    name twice, and holds the eight default categories and every category
    [get_categories()] returns, and nothing else. *)
Theorem get_all_categories_is_sorted_and_complete {C : Coercions}
  (worksheet : option (list (list string))) :
  StronglySorted (fun a b => String.compare a b = Lt) (get_all_categories worksheet) /\
  forall c, In c (get_all_categories worksheet) <->
            In c (get_categories worksheet) \/ In c DEFAULT_CATEGORIES.
Proof.
  unfold get_all_categories. split; [apply sorted_set_sorted|].
  intros c. rewrite sorted_set_In. apply in_app_iff.
Qed.

Lemma StronglySorted_filter {A : Type} (R : A -> A -> Prop) (p : A -> bool) (l : list A) :
  StronglySorted R l -> StronglySorted R (filter p l).
Proof.
  intros H. induction H as [|x l HS IH Hx]; simpl; [constructor|].
  destruct (p x); [|exact IH]. constructor; [exact IH|].
  rewrite Forall_forall in *. intros y Hy. apply Hx. apply filter_In in Hy. tauto.
Qed.

Lemma StronglySorted_firstn {A : Type} (R : A -> A -> Prop) (n : nat) (l : list A) :
  StronglySorted R l -> StronglySorted R (firstn n l).
Proof.
  intros H. revert n. induction H as [|x l HS IH Hx]; intros [|n]; simpl; try constructor.
  - apply IH.
  - rewrite Forall_forall in *. intros y Hy. apply Hx.
    apply (In_nth _ _ x) in Hy. destruct Hy as (i & Hi & <-).
    rewrite length_firstn in Hi. rewrite nth_firstn.
    destruct (Nat.ltb_spec i n); [|lia]. apply nth_In. lia.
Qed.

Lemma contains_empty (b : string) : contains "" b = true.
Proof.
  destruct b; reflexivity.
Qed.

(** X11.  The autocompletion offers at most 25 names, in ascending order: the
    first of the known categories whose [lower()] contains the [lower()]
    of what was typed, and the first 25 of all when nothing was typed
    yet. *)
Theorem autocomplete_offers_at_most_25_matches {C : Coercions}
  (worksheet : option (list (list string))) (current : string) :
  (List.length (category_autocomplete worksheet current) <= 25)%nat /\
  StronglySorted (fun a b => String.compare a b = Lt)
    (category_autocomplete worksheet current) /\
  (forall c, In c (category_autocomplete worksheet current) ->
             In c (get_all_categories worksheet) /\
             contains (lower current) (lower c) = true) /\
  category_autocomplete worksheet "" = firstn 25 (get_all_categories worksheet).
Proof.
  unfold category_autocomplete. split; [apply firstn_le_length|]. split.
  - apply StronglySorted_firstn, StronglySorted_filter.
    unfold get_all_categories. apply sorted_set_sorted.
  - split.
    + intros c Hc.
      assert (Hf : In c (filter (fun category => contains (lower current) (lower category))
                           (get_all_categories worksheet))).
      { rewrite <- (firstn_skipn 25). apply in_or_app. now left. }
      now apply filter_In in Hf.
    + f_equal. rewrite (lower_of_ascii "" eq_refl). cbn [lower_A_to_Z].
      induction (get_all_categories worksheet) as [|x l IH]; [reflexivity|].
      cbn [filter]. rewrite contains_empty. now f_equal.
Qed.

(** ** The frame the normaliser returns *)

Section FrameInvariant.

Context {C : Coercions}.

Lemma process_records_inv (all_values : list (list string)) (df : DataFrame) :
  process_records all_values = Some df ->
  df = empty_frame \/
  exists headers rows a d,
    all_values = headers :: rows /\ rows <> [] /\
    width rows = List.length headers /\
    loc "Amount" headers = Some a /\ loc "Date" headers = Some d /\
    df = mkDataFrame headers (map (processed_row headers a d (width rows)) rows).
Proof.
  intros H. destruct all_values as [|headers rows]; [left; now injection H|].
  destruct rows as [|r rs]; [left; now injection H|].
  destruct (Nat.eq_dec (width (r :: rs)) (List.length headers)) as [W|W].
  - destruct headers as [|h hs].
    { left. unfold process_records, DataFrame_of in H. rewrite W in H.
      cbn in H. now injection H. }
    destruct (loc "Amount" (h :: hs)) as [a|] eqn:Ha.
    + destruct (loc "Date" (h :: hs)) as [d|] eqn:Hd.
      * right. exists (h :: hs), (r :: rs), a, d.
        rewrite (process_records_Some (h :: hs) (r :: rs) a d) in H;
          [|discriminate|exact W|exact Ha|exact Hd].
        injection H as <-. repeat split; auto. discriminate.
      * exfalso.
        assert (N : process_records ((h :: hs) :: r :: rs) = None).
        { apply process_records_raises; [discriminate|discriminate|]. auto. }
        congruence.
    + exfalso.
      assert (N : process_records ((h :: hs) :: r :: rs) = None).
      { apply process_records_raises; [discriminate|discriminate|]. auto. }
      congruence.
  - exfalso.
    assert (N : process_records (headers :: r :: rs) = None).
    { unfold process_records, DataFrame_of.
      destruct (Nat.eqb_spec (width (r :: rs)) (List.length headers)); [contradiction|].
      reflexivity. }
    congruence.
Qed.

Lemma normalised_well_typed (label : string) (raw : option string) :
  well_typed label (normalised label raw) = true.
Proof.
  unfold well_typed, normalised.
  destruct (String.eqb label "Amount"); [reflexivity|].
  destruct (String.eqb label "Date").
  { destruct raw as [s|]; [destruct (to_datetime s)|]; reflexivity. }
  destruct (String.eqb label "Category"); [destruct raw; reflexivity|].
  destruct (String.eqb label "Type"); destruct raw; reflexivity.
Qed.

Lemma processed_row_length (headers : list string) (a d : nat) (r : list string) :
  (List.length r <= List.length headers)%nat ->
  List.length (processed_row headers a d (List.length headers) r) = List.length headers.
Proof.
  intros H. unfold processed_row.
  rewrite update_at_length, !fill_row_length, update_at_length. now apply pad_length.
Qed.

(** X12.  Whatever the sheet holds, the frame [get_processed_records] returns
    is rectangular and typed by column: every row has a cell for every
    column, with a number under [Amount], a timestamp or the unknown date
    under [Date], a string under [Category] and [Type], and a string or
    nothing in every other column. *)
Theorem processed_frame_is_typed
  (worksheet : option (list (list string))) (row : list value) :
  In row (data (get_processed_records worksheet)) ->
  List.length row = List.length (columns (get_processed_records worksheet)) /\
  forall j, (j < List.length row)%nat ->
            well_typed (nth j (columns (get_processed_records worksheet)) "")
                       (cell j row) = true.
Proof.
  unfold get_processed_records. destruct worksheet as [av|]; [|intros []].
  destruct (process_records av) as [df|] eqn:E; [|intros []].
  apply process_records_inv in E.
  destruct E as [->|(headers & rows & a & d & -> & Hne & W & Ha & Hd & ->)];
    [intros []|].
  cbn [data columns]. intros H. apply in_map_iff in H. destruct H as (r & <- & Hr).
  assert (Lr : (List.length r <= List.length headers)%nat).
  { rewrite <- W. now apply width_ge. }
  rewrite W. split; [now apply processed_row_length|].
  intros j Hj. rewrite processed_row_length in Hj by exact Lr.
  rewrite (cell_processed_row headers a d r j Ha Hd Lr Hj).
  apply normalised_well_typed.
Qed.

End FrameInvariant.

Lemma processed_frame_is_typed_witness :
  In [Str "bob"; Num 7; Null; Str "Uncategorized"; Str "Expense"; Null]
     (data (@get_processed_records bot_format (Some ledger_blanks))) /\
  List.length [Str "bob"; Num 7; Null; Str "Uncategorized"; Str "Expense"; Null]
  = List.length (columns (@get_processed_records bot_format (Some ledger_blanks))).
Proof.
  assert (H : In [Str "bob"; Num 7; Null; Str "Uncategorized"; Str "Expense"; Null]
                 (data (@get_processed_records bot_format (Some ledger_blanks))))
    by (right; left; reflexivity).
  split; [exact H|].
  exact (proj1 (@processed_frame_is_typed bot_format (Some ledger_blanks) _ H)).
Defined.

(** X13.  The normaliser is all or nothing.  The ledger comes out empty exactly
    when the sheet has no row below the header, the header has no label,
    the widest row is not as wide as the header, or [Amount] or [Date]
    does not label exactly one column; in every other case it has one
    row for each row of the sheet. *)
Theorem normaliser_is_all_or_nothing {C : Coercions}
  (headers : list string) (rows : list (list string)) :
  (data (get_processed_records (Some (headers :: rows))) = [] <->
   rows = [] \/ headers = [] \/ width rows <> List.length headers \/
   loc "Amount" headers = None \/ loc "Date" headers = None) /\
  (data (get_processed_records (Some (headers :: rows))) <> [] ->
   List.length (data (get_processed_records (Some (headers :: rows))))
   = List.length rows).
Proof.
  destruct rows as [|r rs].
  { split; [split; auto|]. intros H. now contradiction H. }
  destruct headers as [|h hs].
  { assert (E : get_processed_records (Some ([] :: r :: rs)) = empty_frame).
    { unfold get_processed_records, process_records, DataFrame_of.
      destruct (Nat.eqb _ _); reflexivity. }
    rewrite E. split; [split; auto|]. intros H. now contradiction H. }
  destruct (process_records ((h :: hs) :: r :: rs)) as [df|] eqn:P.
  - assert (N : ~ (width (r :: rs) <> List.length (h :: hs) \/
                   loc "Amount" (h :: hs) = None \/ loc "Date" (h :: hs) = None)).
    { intros N. apply process_records_raises in N; [congruence|discriminate|discriminate]. }
    destruct (loc "Amount" (h :: hs)) as [a|] eqn:Ha; [|exfalso; apply N; auto].
    destruct (loc "Date" (h :: hs)) as [d|] eqn:Hd; [|exfalso; apply N; auto].
    destruct (Nat.eq_dec (width (r :: rs)) (List.length (h :: hs))) as [W|W];
      [|exfalso; apply N; auto].
    unfold get_processed_records.
    rewrite (process_records_Some (h :: hs) (r :: rs) a d) by (auto; discriminate).
    cbn [data]. split.
    + split; [discriminate|].
      intros [H|[H|[H|[H|H]]]]; try discriminate; contradiction.
    + intros _. apply length_map.
  - unfold get_processed_records. rewrite P. cbn [data empty_frame]. split.
    + split; [|reflexivity]. intros _.
      apply process_records_raises in P; [|discriminate|discriminate].
      right. right. exact P.
    + intros H. now contradiction H.
Qed.

(** ** Reports in terms of the sheet *)

(** X14.  What the commands read keeps the text of the sheet: user,
    description, category and kind are the strings of the cells, a blank
    one the empty string.  The defaults [Uncategorized] and [Expense] of
    the normaliser are for cells that are missing, and a cell the commands
    read never is. *)
Theorem text_cells_are_read_as_they_are {C : Coercions}
  (ws : list (list string)) (i : nat) :
  (S i < List.length (fst (ensure_headers ws)))%nat ->
  map (fun j => cell j (nth i (data (get_processed_records (snapshot ws))) []))
      [0; 2; 3; 4]%nat
  = map (fun j => Str (nth j (nth (S i) (fst (ensure_headers ws)) []) ""))
        [0; 2; 3; 4]%nat /\
  cell 1 (nth i (data (get_processed_records (snapshot ws))) [])
  = Num (raw_amount (nth (S i) (fst (ensure_headers ws)) [])).
Proof.
  intros H. cbn [map]. rewrite !snapshot_cell by (auto; lia). split; reflexivity.
Qed.

Lemma text_cells_are_read_as_they_are_witness :
  (S 0 < List.length (fst (ensure_headers
                             [HEADERS; ["alice"; "3.0"; ""; ""; ""; ""]])))%nat /\
  map (fun j => cell j (nth 0 (data (@get_processed_records bot_format
                  (snapshot [HEADERS; ["alice"; "3.0"; ""; ""; ""; ""]]))) []))
      [0; 2; 3; 4]%nat
  = [Str "alice"; Str ""; Str ""; Str ""].
Proof.
  assert (H : (S 0 < List.length (fst (ensure_headers
                                        [HEADERS; ["alice"; "3.0"; ""; ""; ""; ""]])))%nat)
    by (vm_compute; lia).
  split; [exact H|].
  exact (proj1 (@text_cells_are_read_as_they_are bot_format
                  [HEADERS; ["alice"; "3.0"; ""; ""; ""; ""]] 0 H)).
Defined.

Lemma filter_map_in {A B : Type} (F : A -> B) (p : B -> bool) (q : A -> bool) (l : list A) :
  (forall x, In x l -> p (F x) = q x) ->
  filter p (map F l) = map F (filter q l).
Proof.
  induction l as [|x l IH]; intros H; [reflexivity|].
  cbn [map filter]. rewrite (H x (or_introl eq_refl)).
  rewrite IH by (intros y Hy; apply H; now right).
  destruct (q x); reflexivity.
Qed.

Section OwnRows.

Context {C : Coercions}.

Variable ws : list (list string).

Local Notation "'hws'" := (fst (ensure_headers ws)).
Local Notation "'F'" :=
  (fun r : list string =>
     processed_row (HEADERS ++ repeat "" (width hws - 6)) 1 5 (width hws)
       (r ++ repeat "" (width hws - List.length r))%list).

Lemma frame_of_sheet : data (get_processed_records (snapshot ws)) = map F (List.tl hws).
Proof.
  apply snapshot_data.
Qed.

Lemma frame_cell (r : list string) (j : nat) :
  In r (List.tl hws) -> (j < 6)%nat ->
  cell j (F r) = normalised (nth j HEADERS "") (Some (nth j r "")).
Proof.
  intros Hr Hj. destruct (snapshot_rows ws) as [_ W].
  apply cell_on_bot_header; [exact W| |exact Hj].
  apply width_ge. destruct hws; [destruct Hr|now right].
Qed.

Lemma frame_select (j : nat) (s : string) (l : list (list string)) :
  (j = 0 \/ j = 4)%nat -> (forall r, In r l -> In r (List.tl hws)) ->
  filter (fun r => eq_str s (cell j r)) (map F l)
  = map F (filter (fun r => String.eqb (nth j r "") s) l).
Proof.
  intros Hj Hl. apply filter_map_in. intros r Hr.
  rewrite frame_cell by (auto; lia). destruct Hj as [-> | ->]; reflexivity.
Qed.

Lemma frame_period (period : string) (now : Timestamp) (l : list (list string))
  (cols : list string) (k : nat) :
  cols = (HEADERS ++ repeat "" k)%list ->
  (forall r, In r l -> In r (List.tl hws)) ->
  filter_by_period period now (mkDataFrame cols (map F l))
  = Some (mkDataFrame cols (map F (filter (raw_in_period period now) l)),
          period_text_of period).
Proof.
  intros Hc Hl. unfold filter_by_period, period_text_of, raw_in_period, select.
  cbn [columns data]. rewrite Hc.
  destruct (loc_on_bot_header k) as (_ & _ & _ & _ & _ & ->). cbn [bind].
  destruct (String.eqb (lower period) "month").
  - do 3 f_equal. apply filter_map_in. intros r Hr.
    now rewrite frame_cell by (auto; lia).
  - destruct (String.eqb (lower period) "week").
    + do 3 f_equal. apply filter_map_in. intros r Hr.
      now rewrite frame_cell by (auto; lia).
    + do 3 f_equal. induction l as [|x l IH]; [reflexivity|].
      cbn [filter map]. f_equal. apply IH. intros r Hr. apply Hl. now right.
Qed.

Lemma frame_total (l : list (list string)) :
  (forall r, In r l -> In r (List.tl hws)) ->
  Qsum (map (fun r => num (cell 1 r)) (map F l)) = Qsum (map raw_amount l).
Proof.
  intros Hl. rewrite map_map. f_equal. apply map_ext_in. intros r Hr.
  now rewrite frame_cell by (auto; lia).
Qed.

(** X15.  [/balance] in terms of the sheet: among the rows below the header
    whose first cell is the user and whose date the period keeps, the sum
    of the amounts of those of kind [Income], the sum of those of kind
    [Expense], and their difference.  Rows of other users, and rows of
    another kind, count for nothing; when the period keeps no row the
    three figures are 0. *)
Theorem balance_is_a_sum_over_own_rows
  (user period : string) (now : Timestamp) :
  own_rows user hws <> [] ->
  balance (snapshot ws) user period now
  = BalanceSummary (period_text_of period)
      (raw_total "Income" (filter (raw_in_period period now) (own_rows user hws)))
      (raw_total "Expense" (filter (raw_in_period period now) (own_rows user hws)))
      (raw_total "Income" (filter (raw_in_period period now) (own_rows user hws))
       - raw_total "Expense" (filter (raw_in_period period now) (own_rows user hws)))%Q.
Proof.
  intros Hown.
  destruct (snapshot_frame ws) as (k & Hc & _).
  assert (Own : forall r, In r (own_rows user hws) -> In r (List.tl hws)).
  { intros r Hr. unfold own_rows in Hr. now apply filter_In in Hr. }
  assert (Ht : List.tl hws <> []).
  { intros E. apply Hown. unfold own_rows. now rewrite E. }
  pose proof frame_of_sheet as D.
  unfold balance, snapshot. fold (snapshot ws).
  set (df := get_processed_records (snapshot ws)) in *.
  assert (Edf : df = mkDataFrame (HEADERS ++ repeat "" k) (map F (List.tl hws))).
  { destruct df as [c dd]. cbn [columns data] in *. now subst. }
  assert (E1 : empty df = false).
  { rewrite Edf. unfold empty. cbn [data columns].
    destruct (List.tl hws); [congruence|reflexivity]. }
  rewrite E1. rewrite (where_eq_user user df k Hc). cbn [bind].
  unfold select. rewrite Edf. cbn [columns data].
  rewrite (frame_select 0 user) by auto.
  change (filter (fun r => String.eqb (nth 0 r "") user) (List.tl hws))
    with (own_rows user hws).
  assert (E2 : empty (mkDataFrame (HEADERS ++ repeat "" k) (map F (own_rows user hws)))
               = false).
  { unfold empty. cbn [data columns]. destruct (own_rows user hws); [congruence|reflexivity]. }
  rewrite E2.
  rewrite (frame_period period now (own_rows user hws) _ k eq_refl Own). cbn [bind].
  set (kept := filter (raw_in_period period now) (own_rows user hws)).
  assert (Kept : forall r, In r kept -> In r (List.tl hws)).
  { intros r Hr. apply Own. unfold kept in Hr. now apply filter_In in Hr. }
  rewrite !(sum_by_kind_amount _ _ k) by reflexivity. cbn [bind data try].
  rewrite !(frame_select 4) by auto.
  rewrite !frame_total
    by (intros r Hr; apply Kept; now apply filter_In in Hr).
  reflexivity.
Qed.

End OwnRows.

Lemma balance_is_a_sum_over_own_rows_witness :
  own_rows "alice" (fst (ensure_headers ledger_week)) <> [] /\
  @balance bot_format (snapshot ledger_week) "alice" "week" wednesday
  = BalanceSummary "this week" 100.0 50.00 50.000.
Proof.
  assert (H : own_rows "alice" (fst (ensure_headers ledger_week)) <> [])
    by (vm_compute; discriminate).
  split; [exact H|].
  rewrite (@balance_is_a_sum_over_own_rows bot_format ledger_week "alice" "week"
             wednesday H).
  vm_compute. reflexivity.
Defined.

(** ** Points of the daily series *)

Lemma total_at_fold (o : Z) (l : list (option Z * Q)) (m : list (Z * Q)) :
  (total_at o (fold_left (add_row Z.compare) l m)
   == total_at o m
      + Qsum (map snd (filter (fun r => match fst r with
                                        | Some k => k =? o
                                        | None => false
                                        end) l)))%Q.
Proof.
  revert m. induction l as [|[[k|] q] l IH]; intros m.
  - unfold Qsum. simpl. ring.
  - cbn [fold_left]. rewrite IH. unfold add_row. cbn [fst snd].
    rewrite total_at_upsert. cbn [filter fst].
    destruct (k =? o); unfold Qsum; cbn [map fold_right snd]; ring.
  - cbn [fold_left]. rewrite IH. unfold add_row. cbn [fst filter]. reflexivity.
Qed.

Lemma day_total (df : DataFrame) (t d a : nat) (kind : string) (o : Z) :
  (or_zero (sum_at o (groupby_sum Z.compare (day_amounts t d a kind df)))
   == Qsum (map (fun r => num (cell a r)) (on_day t d kind o df)))%Q.
Proof.
  rewrite sum_at_total_at by apply daily_sum_NoDup.
  unfold groupby_sum. rewrite total_at_fold.
  unfold total_at at 1. cbn [filter map]. unfold Qsum at 1. cbn [fold_right].
  rewrite Qplus_0_l. unfold day_amounts, on_day.
  induction (data df) as [|r rows IH]; [reflexivity|].
  cbn [filter]. destruct (eq_str kind (cell t r)); [|exact IH].
  cbn [map filter fst andb]. destruct (key_day (cell d r)) as [o'|]; [|exact IH].
  destruct (o' =? o); [|exact IH].
  unfold Qsum in *. cbn [map fold_right snd]. now rewrite IH.
Qed.

(** X19.  Each point of the daily series holds the sums of its day: its income
    is the sum of the amounts of the rows of kind [Income] dated that
    day, its expense the sum of those of kind [Expense], and its balance
    the first less the second. *)
Theorem daily_point_sums_the_rows_of_its_day
  (df : DataFrame) (start_date end_date : Z) (t d a : nat) (points : list DailyPoint)
  (p : DailyPoint) :
  loc "Type" (columns df) = Some t -> loc "Date" (columns df) = Some d ->
  loc "Amount" (columns df) = Some a ->
  balance_over_time start_date end_date df = Some points -> In p points ->
  (Income p == Qsum (map (fun r => num (cell a r)) (on_day t d "Income" (Day p) df)))%Q /\
  (Expense p == Qsum (map (fun r => num (cell a r)) (on_day t d "Expense" (Day p) df)))%Q /\
  Balance p = (Income p - Expense p)%Q.
Proof.
  intros Ht Hd Ha H Hp.
  rewrite (balance_over_time_Some df _ _ t d a Ht Hd Ha) in H. injection H as <-.
  destruct (date_df_In _ _ _ p (daily_sum_NoDup _) (daily_sum_NoDup _) Hp)
    as (Ei & Ee & Eb).
  rewrite Ei at 1. rewrite Ee at 1. repeat split; [apply day_total|apply day_total|exact Eb].
Qed.

Lemma daily_point_sums_the_rows_of_its_day_witness :
  exists points p,
    balance_over_time (ymd2ord 2024 3 11) (ymd2ord 2024 3 17)
      (@get_processed_records bot_format (Some ledger_week)) = Some points /\
    In p points /\ Day p = ymd2ord 2024 3 11 /\
    (Expense p == 30)%Q.
Proof.
  let v := eval vm_compute in
             (balance_over_time (ymd2ord 2024 3 11) (ymd2ord 2024 3 17)
                (@get_processed_records bot_format (Some ledger_week))) in
  assert (E : balance_over_time (ymd2ord 2024 3 11) (ymd2ord 2024 3 17)
                (@get_processed_records bot_format (Some ledger_week)) = v)
    by (vm_compute; reflexivity).
  match type of E with
  | _ = Some (?p :: ?ps) =>
      exists (p :: ps), p; split; [exact E|]; split; [left; reflexivity|];
      split; [vm_compute; reflexivity|];
      eapply Qeq_trans;
      [ apply (daily_point_sums_the_rows_of_its_day
                 (@get_processed_records bot_format (Some ledger_week))
                 (ymd2ord 2024 3 11) (ymd2ord 2024 3 17) 4 5 1 (p :: ps) p
                 eq_refl eq_refl eq_refl E (or_introl eq_refl))
      | vm_compute; reflexivity ]
  end.
Defined.

(** ** The chart of the balance over time *)

Lemma weekday_range (t : Timestamp) : 0 <= weekday t <= 6.
Proof.
  unfold weekday. pose proof (Z.mod_pos_bound (toordinal t + 6) 7). lia.
Qed.

Lemma days_in_month_range (y m : Z) : 28 <= days_in_month y m <= 31.
Proof.
  unfold days_in_month.
  destruct (m =? 2); [destruct (is_leap y); lia|].
  destruct ((m =? 4) || (m =? 6) || (m =? 9) || (m =? 11)); lia.
Qed.

Lemma chart_of_range {C : Coercions} (df : DataFrame) (period_text : string)
  (now : Timestamp) (t d a : nat) (s e : Z) :
  empty df = false ->
  loc "Type" (columns df) = Some t -> loc "Date" (columns df) = Some d ->
  loc "Amount" (columns df) = Some a ->
  chart_range period_text now df = Some (s, e) ->
  generate_chart_image df "balance_over_time" period_text now
  = Some (BalanceOverTime
            (date_df (date_range s e)
               (groupby_sum Z.compare (day_amounts t d a "Income" df))
               (groupby_sum Z.compare (day_amounts t d a "Expense" df)))).
Proof.
  intros He Ht Hd Ha Hr. unfold generate_chart_image.
  cbn [String.eqb Ascii.eqb Bool.eqb]. rewrite He, Hr. cbn [bind].
  now rewrite (balance_over_time_Some df s e t d a Ht Hd Ha).
Qed.

(** X20.  For [this month] the chart has a point for every day of the month of
    [now], from the first to the last.  For [this week] it starts on the
    Monday of the week of [now] and stops at [now]: it has between one
    and seven points and never shows the days of the week still to
    come. *)
Theorem month_and_week_charts_span {C : Coercions}
  (df : DataFrame) (now : Timestamp) (t d a : nat) :
  empty df = false ->
  loc "Type" (columns df) = Some t -> loc "Date" (columns df) = Some d ->
  loc "Amount" (columns df) = Some a ->
  (exists points,
     generate_chart_image df "balance_over_time" "this month" now
     = Some (BalanceOverTime points) /\
     map Day points
     = date_range (ymd2ord (year now) (month now) 1)
         (ymd2ord (year now) (month now) (days_in_month (year now) (month now))) /\
     Z.of_nat (List.length points) = days_in_month (year now) (month now)) /\
  (exists points,
     generate_chart_image df "balance_over_time" "this week" now
     = Some (BalanceOverTime points) /\
     map Day points = date_range (toordinal now - weekday now) (toordinal now) /\
     Z.of_nat (List.length points) = weekday now + 1 /\
     (1 <= List.length points <= 7)%nat /\
     (toordinal now - weekday now + 6) mod 7 = 0).
Proof.
  intros He Ht Hd Ha. split.
  - eexists. split; [apply (chart_of_range df _ now t d a); auto; reflexivity|].
    assert (Days := date_df_days
                      (date_range (ymd2ord (year now) (month now) 1)
                         (ymd2ord (year now) (month now)
                            (days_in_month (year now) (month now))))
                      _ _ (daily_sum_NoDup (day_amounts t d a "Income" df))
                      (daily_sum_NoDup (day_amounts t d a "Expense" df))).
    split; [exact Days|].
    rewrite <- (length_map Day), Days, date_range_length.
    pose proof (days_in_month_range (year now) (month now)). unfold ymd2ord. lia.
  - eexists. split; [apply (chart_of_range df _ now t d a); auto; reflexivity|].
    assert (Days := date_df_days
                      (date_range (toordinal now - weekday now) (toordinal now))
                      _ _ (daily_sum_NoDup (day_amounts t d a "Income" df))
                      (daily_sum_NoDup (day_amounts t d a "Expense" df))).
    split; [exact Days|].
    pose proof (weekday_range now) as W.
    assert (L : Z.of_nat (List.length
                  (date_df (date_range (toordinal now - weekday now) (toordinal now))
                     (groupby_sum Z.compare (day_amounts t d a "Income" df))
                     (groupby_sum Z.compare (day_amounts t d a "Expense" df))))
                = weekday now + 1).
    { rewrite <- (length_map Day), Days, date_range_length. lia. }
    split; [exact L|]. split; [lia|].
    unfold weekday.
    replace (toordinal now - (toordinal now + 6) mod 7 + 6)
      with ((toordinal now + 6) - (toordinal now + 6) mod 7) by lia.
    rewrite Zminus_mod, Z.mod_mod by lia. rewrite Z.sub_diag. reflexivity.
Qed.

Lemma month_and_week_charts_span_witness :
  empty (@get_processed_records bot_format (Some ledger_week)) = false /\
  exists points,
    @generate_chart_image bot_format
      (@get_processed_records bot_format (Some ledger_week))
      "balance_over_time" "this week" wednesday = Some (BalanceOverTime points) /\
    Z.of_nat (List.length points) = weekday wednesday + 1.
Proof.
  split; [reflexivity|].
  destruct (proj2 (@month_and_week_charts_span bot_format
                     (@get_processed_records bot_format (Some ledger_week)) wednesday
                     4 5 1 eq_refl eq_refl eq_refl eq_refl))
    as (points & H1 & _ & H2 & _).
  exists points. split; [exact H1|exact H2].
Defined.

Lemma fold_min_In (o : Z) (os : list Z) : In (fold_right Z.min o os) (o :: os).
Proof.
  induction os as [|y os IH]; simpl; [now left|].
  destruct (Z.min_spec y (fold_right Z.min o os)) as [[_ ->]|[_ ->]].
  - right. now left.
  - destruct IH as [E|H]; [now left|right; now right].
Qed.

Lemma fold_max_In (o : Z) (os : list Z) : In (fold_right Z.max o os) (o :: os).
Proof.
  induction os as [|y os IH]; simpl; [now left|].
  destruct (Z.max_spec y (fold_right Z.max o os)) as [[_ ->]|[_ ->]].
  - destruct IH as [E|H]; [now left|right; now right].
  - right. now left.
Qed.

Lemma valid_days_In (d : nat) (df : DataFrame) (o : Z) :
  In o (valid_days d df) <-> exists r, In r (data df) /\ key_day (cell d r) = Some o.
Proof.
  unfold valid_days. rewrite in_flat_map. split.
  - intros (r & Hr & Ho). exists r. split; [exact Hr|].
    destruct (key_day (cell d r)); [|destruct Ho].
    destruct Ho as [->|[]]. reflexivity.
  - intros (r & Hr & Ho). exists r. split; [exact Hr|]. rewrite Ho. now left.
Qed.

(** X25.  For [all time] the chart of the balance over time runs from the day
    of the earliest row with a date to the day of the latest, with one
    point for every day between them, so that every row with a date
    falls on a point; when the frame has rows and none of them has a
    date, the range has no ends and drawing the chart raises. *)
Theorem all_time_chart_spans_the_dated_rows {C : Coercions}
  (df : DataFrame) (period_text : string) (now : Timestamp) (t d a : nat) :
  empty df = false ->
  loc "Type" (columns df) = Some t -> loc "Date" (columns df) = Some d ->
  loc "Amount" (columns df) = Some a ->
  period_text <> "this month" -> period_text <> "this week" ->
  ((forall r, In r (data df) -> key_day (cell d r) = None) ->
   generate_chart_image df "balance_over_time" period_text now = None) /\
  ((exists r, In r (data df) /\ key_day (cell d r) <> None) ->
   exists points first last,
     generate_chart_image df "balance_over_time" period_text now
     = Some (BalanceOverTime points) /\
     map Day points = date_range first last /\
     (exists r, In r (data df) /\ key_day (cell d r) = Some first) /\
     (exists r, In r (data df) /\ key_day (cell d r) = Some last) /\
     (forall r o, In r (data df) -> key_day (cell d r) = Some o ->
                  first <= o <= last /\ In o (map Day points))).
Proof.
  intros He Ht Hd Ha Hm Hw.
  assert (R : chart_range period_text now df
              = match valid_days d df with
                | [] => None
                | o :: os => Some (fold_right Z.min o os, fold_right Z.max o os)
                end).
  { unfold chart_range. apply String.eqb_neq in Hm. apply String.eqb_neq in Hw.
    now rewrite Hm, Hw, Hd. }
  split.
  - intros Hn. unfold generate_chart_image. cbn [String.eqb Ascii.eqb Bool.eqb].
    rewrite He, R.
    destruct (valid_days d df) as [|o os] eqn:V; [reflexivity|].
    assert (Ho : In o (valid_days d df)) by (rewrite V; now left).
    apply valid_days_In in Ho. destruct Ho as (r & Hr & Ho).
    rewrite (Hn r Hr) in Ho. discriminate.
  - intros (r0 & Hr0 & Hk0).
    destruct (valid_days d df) as [|o os] eqn:V.
    { exfalso. destruct (key_day (cell d r0)) as [o0|] eqn:E0; [|congruence].
      assert (In o0 (valid_days d df)) by (apply valid_days_In; now exists r0).
      rewrite V in H. destruct H. }
    exists (date_df (date_range (fold_right Z.min o os) (fold_right Z.max o os))
              (groupby_sum Z.compare (day_amounts t d a "Income" df))
              (groupby_sum Z.compare (day_amounts t d a "Expense" df))),
      (fold_right Z.min o os), (fold_right Z.max o os).
    assert (Days := date_df_days
                      (date_range (fold_right Z.min o os) (fold_right Z.max o os))
                      _ _ (daily_sum_NoDup (day_amounts t d a "Income" df))
                      (daily_sum_NoDup (day_amounts t d a "Expense" df))).
    split; [apply (chart_of_range df _ now t d a); auto|].
    split; [exact Days|].
    split; [apply valid_days_In; rewrite V; apply fold_min_In|].
    split; [apply valid_days_In; rewrite V; apply fold_max_In|].
    intros r o' Hr Ho'.
    assert (Hin : In o' (o :: os)).
    { rewrite <- V. apply valid_days_In. now exists r. }
    pose proof (fold_min_le o os o' Hin). pose proof (fold_max_ge o os o' Hin).
    split; [lia|]. rewrite Days. apply date_range_In. lia.
Qed.

Lemma all_time_chart_spans_the_dated_rows_witness :
  exists points first last,
    @generate_chart_image bot_format
      (@get_processed_records bot_format (Some ledger_week))
      "balance_over_time" "all time" wednesday = Some (BalanceOverTime points) /\
    map Day points = date_range first last /\
    first = ymd2ord 2024 3 11 /\ last = ymd2ord 2024 3 13.
Proof.
  assert (D : exists r,
             In r (data (@get_processed_records bot_format (Some ledger_week))) /\
             key_day (cell 5 r) <> None).
  { eexists. split; [left; reflexivity|]. discriminate. }
  assert (Hm : "all time" <> "this month") by discriminate.
  assert (Hw : "all time" <> "this week") by discriminate.
  destruct (proj2 (@all_time_chart_spans_the_dated_rows bot_format
                     (@get_processed_records bot_format (Some ledger_week))
                     "all time" wednesday 4 5 1 eq_refl eq_refl eq_refl eq_refl Hm Hw) D)
    as (points & first & last & H1 & H2 & _).
  exists points, first, last. split; [exact H1|]. split; [exact H2|].
  let v := eval vm_compute in
             (@generate_chart_image bot_format
                (@get_processed_records bot_format (Some ledger_week))
                "balance_over_time" "all time" wednesday) in
  assert (G : @generate_chart_image bot_format
                (@get_processed_records bot_format (Some ledger_week))
                "balance_over_time" "all time" wednesday = v)
    by (vm_compute; reflexivity).
  rewrite G in H1. injection H1 as <-. cbn [map Day] in H2.
  assert (L : List.length (date_range first last) = 3%nat) by now rewrite <- H2.
  rewrite date_range_length in L.
  assert (N : nth 0 (date_range first last) 0 = first + Z.of_nat 0)
    by (apply date_range_nth; lia).
  rewrite <- H2 in N. cbn [nth] in N. vm_compute. cbn in N. lia.
Defined.

(** ** The pie charts *)

(** X26.  A pie chart cannot be drawn when a category of its kind has a
    negative sum, as after [/expense amount:-5]: [plt.pie] raises, and
    [/chart] ends in its [except] branch. *)
Theorem negative_sum_breaks_the_pie {C : Coercions}
  (df kind_df : DataFrame) (kind caption : string) (slices : list (string * Q))
  (category : string) (sum : Q) :
  where_eq "Type" kind df = Some kind_df -> data kind_df <> [] ->
  by_category kind_df = Some slices ->
  In (category, sum) slices -> (sum < 0)%Q ->
  pie_chart kind caption df = None /\
  (forall period_text now,
      (kind = "Expense" ->
       generate_chart_image df "expense_by_category" period_text now = None) /\
      (kind = "Income" ->
       generate_chart_image df "income_by_category" period_text now = None)).
Proof.
  intros Hk Hne Hb Hin Hneg.
  assert (P : pie_chart kind caption df = None /\
              forall caption', pie_chart kind caption' df = None).
  { cut (forall caption', pie_chart kind caption' df = None); [now split|].
    intros caption'. unfold pie_chart, has_kind.
    unfold where_eq in Hk. destruct (loc "Type" (columns df)) as [t|] eqn:Ht;
      [|discriminate].
    injection Hk as <-. cbn [data select] in Hne.
    assert (Hd : data df <> []).
    { intros E. rewrite E in Hne. now apply Hne. }
    assert (He : empty df = false).
    { unfold empty. destruct (data df); [congruence|].
      destruct (columns df); [discriminate|reflexivity]. }
    rewrite He. cbn [bind].
    assert (Hx : existsb (fun r => eq_str kind (cell t r)) (data df) = true).
    { destruct (filter (fun r => eq_str kind (cell t r)) (data df)) as [|r rs] eqn:F;
        [congruence|].
      assert (Hr : In r (filter (fun r => eq_str kind (cell t r)) (data df)))
        by (rewrite F; now left).
      apply filter_In in Hr. apply existsb_exists. now exists r. }
    rewrite Hx. cbn [negb]. unfold where_eq. rewrite Ht. cbn [bind].
    rewrite Hb. cbn [bind].
    destruct (pie_draws (map snd slices)) eqn:Pd; [|reflexivity].
    exfalso. apply pie_draws_no_negative in Pd. rewrite Forall_forall in Pd.
    assert (L : (0 <= sum)%Q).
    { apply Pd. apply in_map_iff. now exists (category, sum). }
    apply (Qlt_not_le _ _ Hneg L). }
  destruct P as [P1 P2]. split; [exact P1|].
  intros period_text now. split; intros ->; unfold generate_chart_image;
    cbn [String.eqb Ascii.eqb Bool.eqb]; apply P2.
Qed.

Lemma negative_sum_breaks_the_pie_witness :
  @financial_chart bot_format (Some ledger_negative) "alice" "expense_by_category" "all"
    wednesday = Error /\
  @generate_chart_image bot_format (@get_processed_records bot_format (Some ledger_negative))
    "expense_by_category" "all time" wednesday = None.
Proof.
  split; [reflexivity|].
  assert (Hk : where_eq "Type" "Expense"
                 (@get_processed_records bot_format (Some ledger_negative))
               = Some (select (fun r => eq_str "Expense" (cell 4 r))
                         (@get_processed_records bot_format (Some ledger_negative))))
    by reflexivity.
  assert (Hne : data (select (fun r => eq_str "Expense" (cell 4 r))
                        (@get_processed_records bot_format (Some ledger_negative)))
                <> []) by discriminate.
  assert (Hb : @by_category bot_format
                 (select (fun r => eq_str "Expense" (cell 4 r))
                    (@get_processed_records bot_format (Some ledger_negative)))
               = Some [("Uncategorized", (-5.0)%Q)]) by reflexivity.
  assert (Hneg : (-5.0 < 0)%Q) by reflexivity.
  exact (proj1 (proj2 (@negative_sum_breaks_the_pie bot_format _ _ "Expense"
                         "No expense data available" _ "Uncategorized" (-5.0)%Q
                         Hk Hne Hb (or_introl eq_refl) Hneg)
                 "all time" wednesday) eq_refl).
Defined.

(** ** How many entries the history lists *)

Lemma head_has_head_length {A : Type} (n : Z) (l : list A) :
  List.length (head n l) = head_length n (List.length l).
Proof.
  unfold head, head_length. destruct (0 <=? n); rewrite length_firstn; lia.
Qed.

(** X23.  The history that [/history] makes up lists [limit] entries of the
    user, or all when there are fewer.  A [limit] of 0 gives the heading
    with no entry under it, and a negative [limit] lists all but that
    many of the oldest entries.  It is what the user gets unless Discord
    does not take the message, as a long list makes it: then the answer
    is that of the [except] branch. *)
Theorem history_lists_limit_entries {C : Coercions}
  (ws : list (list string)) (user : string) (limit : Z) (type : string)
  (delivered : reply -> bool) :
  own_rows_of_type user type (fst (ensure_headers ws)) <> [] ->
  exists entries,
    (financial_history (snapshot ws) user limit type = RecentHistory entries /\
     List.length entries
     = head_length limit
         (List.length (own_rows_of_type user type (fst (ensure_headers ws))))) /\
    sent delivered (financial_history (snapshot ws) user limit type)
    = if delivered (RecentHistory entries) then RecentHistory entries else Error.
Proof.
  intros Hown.
  cut (exists entries,
          financial_history (snapshot ws) user limit type = RecentHistory entries /\
          List.length entries
          = head_length limit
              (List.length (own_rows_of_type user type (fst (ensure_headers ws))))).
  { intros (es & E & L). exists es. split; [now split|]. unfold sent. now rewrite E. }
  destruct (snapshot_frame ws) as (k & Hc & _).
  assert (Own : forall r, In r (own_rows user (fst (ensure_headers ws))) ->
                          In r (List.tl (fst (ensure_headers ws)))).
  { intros r Hr. unfold own_rows in Hr. now apply filter_In in Hr. }
  assert (Hown' : own_rows user (fst (ensure_headers ws)) <> []).
  { intros E. apply Hown. unfold own_rows_of_type. rewrite E.
    destruct (String.eqb type "All"); reflexivity. }
  assert (Ht : List.tl (fst (ensure_headers ws)) <> []).
  { intros E. apply Hown'. unfold own_rows. now rewrite E. }
  pose proof (frame_of_sheet ws) as D.
  unfold financial_history, snapshot. fold (snapshot ws).
  set (df := get_processed_records (snapshot ws)) in *.
  assert (E1 : empty df = false).
  { unfold empty. rewrite D, Hc. destruct (List.tl (fst (ensure_headers ws)));
      [congruence|reflexivity]. }
  rewrite E1. rewrite (where_eq_user user df k Hc). cbn [bind].
  unfold select. rewrite D, Hc. rewrite (frame_select ws 0 user) by auto.
  change (filter (fun r => String.eqb (nth 0 r "") user) (List.tl (fst (ensure_headers ws))))
    with (own_rows user (fst (ensure_headers ws))).
  set (own := own_rows user (fst (ensure_headers ws))) in *.
  match goal with
  | |- context [empty ?u] =>
      assert (E2 : empty u = false)
        by (unfold empty; cbn [data columns]; destruct own; [congruence|reflexivity]);
      rewrite E2
  end.
  unfold filter_by_type, own_rows_of_type in *. fold own in Hown.
  set (cols := (HEADERS ++ repeat "" k)%list) in *.
  assert (Fin : forall l,
             l <> [] -> (forall r, In r l -> In r (List.tl (fst (ensure_headers ws)))) ->
             exists entries,
               try (if empty (mkDataFrame cols
                                (map (fun r => processed_row
                                        (HEADERS ++ repeat ""
                                           (width (fst (ensure_headers ws)) - 6)) 1 5
                                        (width (fst (ensure_headers ws)))
                                        (r ++ repeat ""
                                           (width (fst (ensure_headers ws))
                                            - List.length r))%list) l))
                    then Some (NoneFound (type_text type))
                    else rows <- recent_entries limit
                                   (mkDataFrame cols
                                      (map (fun r => processed_row
                                              (HEADERS ++ repeat ""
                                                 (width (fst (ensure_headers ws)) - 6)) 1 5
                                              (width (fst (ensure_headers ws)))
                                              (r ++ repeat ""
                                                 (width (fst (ensure_headers ws))
                                                  - List.length r))%list) l)) ;;
                         entries <- entries_of cols rows ;;
                         Some (RecentHistory entries))
               = RecentHistory entries /\
               List.length entries = head_length limit (List.length l)).
  { intros l Hl _.
    assert (E3 : empty (mkDataFrame cols
                          (map (fun r => processed_row
                                  (HEADERS ++ repeat ""
                                     (width (fst (ensure_headers ws)) - 6)) 1 5
                                  (width (fst (ensure_headers ws)))
                                  (r ++ repeat ""
                                     (width (fst (ensure_headers ws))
                                      - List.length r))%list) l)) = false).
    { unfold empty. cbn [data columns]. destruct l; [congruence|reflexivity]. }
    rewrite E3. rewrite (recent_entries_on limit _ k) by reflexivity. cbn [bind data].
    match goal with
    | |- context [entries_of _ ?rows] =>
        destruct (entries_of_bot_header k rows) as (es & Ees & Les)
    end.
    unfold cols. rewrite Ees. cbn [bind try]. exists es. split; [reflexivity|].
    rewrite Les, head_has_head_length. f_equal.
    rewrite (Permutation_length (sort_rows_desc_perm _ _)). apply length_map. }
  destruct (String.eqb type "All").
  - cbn [bind]. apply Fin; auto.
  - rewrite (where_eq_type type _ k) by reflexivity. cbn [bind]. unfold select.
    cbn [columns data]. rewrite (frame_select ws 4 type) by auto.
    apply Fin; auto. intros r Hr. apply Own. now apply filter_In in Hr.
Qed.

Lemma history_lists_limit_entries_witness :
  own_rows_of_type "alice" "Expense" (fst (ensure_headers ledger_week)) <> [] /\
  exists entries,
    (@financial_history bot_format (snapshot ledger_week) "alice" 2 "Expense"
     = RecentHistory entries /\
     List.length entries = 2%nat) /\
    sent (fun _ => false)
      (@financial_history bot_format (snapshot ledger_week) "alice" 2 "Expense")
    = Error.
Proof.
  assert (H : own_rows_of_type "alice" "Expense" (fst (ensure_headers ledger_week)) <> [])
    by (vm_compute; discriminate).
  split; [exact H|].
  exact (@history_lists_limit_entries bot_format ledger_week "alice" 2 "Expense"
           (fun _ => false) H).
Defined.

(** ** The week filter and the calendar week *)

Lemma ymd2ord_new_year (y : Z) : ymd2ord y 1 1 = days_before_year y + 1.
Proof.
  unfold ymd2ord. change (days_before_month y 1) with 0. lia.
Qed.

Lemma isoweek1monday_is_monday (y : Z) : (isoweek1monday y + 6) mod 7 = 0.
Proof.
  unfold isoweek1monday.
  destruct (3 <? (ymd2ord y 1 1 + 6) mod 7); Z.div_mod_to_equations; lia.
Qed.

Lemma isoweek1monday_near_new_year (y : Z) :
  days_before_year y - 2 <= isoweek1monday y <= days_before_year y + 4.
Proof.
  unfold isoweek1monday.
  rewrite ymd2ord_new_year.
  destruct (Z.ltb_spec 3 ((days_before_year y + 1 + 6) mod 7));
    Z.div_mod_to_equations; lia.
Qed.

Lemma days_before_next_year (y : Z) :
  days_before_year (y + 1) = days_before_year y + 365 + (if is_leap y then 1 else 0).
Proof.
  unfold days_before_year, is_leap.
  replace (y + 1 - 1) with y by lia.
  destruct (Z.eqb_spec (y mod 4) 0); destruct (Z.eqb_spec (y mod 100) 0);
    destruct (Z.eqb_spec (y mod 400) 0); cbn [andb orb negb];
    Z.div_mod_to_equations; lia.
Qed.

Lemma day_in_year (y m d : Z) :
  1 <= m <= 12 -> 1 <= d <= days_in_month y m ->
  1 <= days_before_month y m + d <= 365 + (if is_leap y then 1 else 0).
Proof.
  intros Hm Hd.
  assert (M : m = 1 \/ m = 2 \/ m = 3 \/ m = 4 \/ m = 5 \/ m = 6 \/ m = 7 \/
              m = 8 \/ m = 9 \/ m = 10 \/ m = 11 \/ m = 12) by lia.
  unfold days_in_month, days_before_month in *.
  destruct (is_leap y); repeat destruct M as [M|M]; subst m;
    match goal with
    | |- context [DAYS_BEFORE_MONTH ?k] =>
        let v := eval vm_compute in (DAYS_BEFORE_MONTH k) in
        change (DAYS_BEFORE_MONTH k) with v
    end;
    match goal with
    | |- context [2 <? ?k] =>
        let v := eval vm_compute in (2 <? k) in change (2 <? k) with v
    end; cbn [andb]; cbn in Hd; lia.
Qed.

Lemma day_of_year_range (t : Timestamp) :
  valid t = true ->
  days_before_year (year t) + 1 <= toordinal t
  <= days_before_year (year t) + 365 + (if is_leap (year t) then 1 else 0).
Proof.
  unfold valid. intros H.
  apply andb_prop in H; destruct H as [H _].
  apply andb_prop in H; destruct H as [H _].
  apply andb_prop in H; destruct H as [H Hd'].
  apply andb_prop in H; destruct H as [H Hd].
  apply andb_prop in H; destruct H as [Hm Hm'].
  apply Z.leb_le in Hm, Hm', Hd, Hd'.
  pose proof (day_in_year (year t) (month t) (day t) (conj Hm Hm') (conj Hd Hd')).
  unfold toordinal, ymd2ord. lia.
Qed.

(** The ISO year, week and weekday of a date name it: its ordinal is the
    Monday of week 1 of its ISO year, plus the weeks before its week,
    plus its weekday; and the Monday of its week lies in its ISO year. *)
Lemma isocalendar_names_the_day (t : Timestamp) :
  valid t = true ->
  toordinal t = isoweek1monday (iso_year t) + 7 * (iso_week t - 1) + weekday t /\
  isoweek1monday (iso_year t) <= toordinal t - weekday t
  < isoweek1monday (iso_year t + 1).
Proof.
  intros V. pose proof (day_of_year_range t V) as R.
  unfold iso_year, iso_week, isocalendar, weekday.
  set (y := year t) in *. set (today := toordinal t) in *.
  pose proof (isoweek1monday_is_monday y) as M0.
  pose proof (isoweek1monday_is_monday (y - 1)) as Mp.
  pose proof (isoweek1monday_is_monday (y + 1)) as Mn.
  pose proof (isoweek1monday_is_monday (y + 1 + 1)) as Mnn.
  pose proof (isoweek1monday_near_new_year y) as N0.
  pose proof (isoweek1monday_near_new_year (y - 1)) as Np.
  pose proof (isoweek1monday_near_new_year (y + 1)) as Nn.
  pose proof (isoweek1monday_near_new_year (y + 1 + 1)) as Nnn.
  pose proof (days_before_next_year y) as D0.
  pose proof (days_before_next_year (y - 1)) as Dp.
  pose proof (days_before_next_year (y + 1)) as Dn.
  replace (y - 1 + 1) with y in * by lia.
  set (w0 := isoweek1monday y) in *. set (wp := isoweek1monday (y - 1)) in *.
  set (wn := isoweek1monday (y + 1)) in *. set (wnn := isoweek1monday (y + 1 + 1)) in *.
  destruct (is_leap y), (is_leap (y - 1)), (is_leap (y + 1));
    destruct (Z.ltb_spec ((today - w0) / 7) 0) as [A|A]; cbn [fst snd];
    try (replace (y - 1 + 1) with y by lia; fold w0);
    try (Z.div_mod_to_equations; lia);
    destruct (Z.leb_spec 52 ((today - w0) / 7)) as [B|B];
    destruct (Z.leb_spec wn today) as [B'|B']; cbn [andb fst snd];
    fold wn; fold wnn; Z.div_mod_to_equations; lia.
Qed.

Lemma isoweek1monday_next (y : Z) : isoweek1monday y < isoweek1monday (y + 1).
Proof.
  pose proof (isoweek1monday_near_new_year y).
  pose proof (isoweek1monday_near_new_year (y + 1)).
  pose proof (days_before_next_year y). destruct (is_leap y); lia.
Qed.

Lemma isoweek1monday_mono (a b : Z) : a <= b -> isoweek1monday a <= isoweek1monday b.
Proof.
  intros H. replace b with (a + Z.of_nat (Z.to_nat (b - a))) by lia.
  induction (Z.to_nat (b - a)) as [|n IH].
  - replace (a + Z.of_nat 0) with a by lia. lia.
  - replace (a + Z.of_nat (S n)) with (a + Z.of_nat n + 1) by lia.
    pose proof (isoweek1monday_next (a + Z.of_nat n)). lia.
Qed.

(** The Monday of a week fixes the ISO year it belongs to. *)
Lemma iso_year_of_monday (a b m : Z) :
  isoweek1monday a <= m < isoweek1monday (a + 1) ->
  isoweek1monday b <= m < isoweek1monday (b + 1) ->
  a = b.
Proof.
  intros Ha Hb.
  destruct (Z.lt_trichotomy a b) as [L|[E|L]]; [|exact E|].
  - pose proof (isoweek1monday_mono (a + 1) b). lia.
  - pose proof (isoweek1monday_mono (b + 1) a). lia.
Qed.

(** X24.  Week filter, dates of one ISO year: the filter [# Filter by period]
    keeps a date for [week] and the date is of the ISO year of [now]
    exactly when the date is one of the seven days from the Monday of the
    week of [now] to its Sunday. *)
Theorem week_filter_is_monday_to_sunday (now t : Timestamp) :
  valid now = true -> valid t = true ->
  (same_week now (Time t) = true /\ iso_year t = iso_year now) <->
  (toordinal now - weekday now <= toordinal t <= toordinal now - weekday now + 6).
Proof.
  intros Vn Vt.
  destruct (isocalendar_names_the_day now Vn) as [En Bn].
  destruct (isocalendar_names_the_day t Vt) as [Et Bt].
  assert (Wn : 0 <= weekday now < 7) by (unfold weekday; apply Z.mod_pos_bound; lia).
  assert (Wt : 0 <= weekday t < 7) by (unfold weekday; apply Z.mod_pos_bound; lia).
  cbn [same_week]. rewrite Z.eqb_eq. split.
  - intros [Ew Ey]. rewrite Ew, Ey in Et. lia.
  - intros R.
    assert (M : toordinal t - weekday t = toordinal now - weekday now).
    { unfold weekday in *. Z.div_mod_to_equations. lia. }
    rewrite M in Bt.
    assert (Ey : iso_year t = iso_year now) by exact (iso_year_of_monday _ _ _ Bt Bn).
    rewrite Ey in Et. split; [lia | exact Ey].
Qed.

Lemma week_filter_is_monday_to_sunday_witness :
  (same_week (mkTimestamp 2024 12 31 0) (Time (mkTimestamp 2025 1 5 43200)) = true /\
   iso_year (mkTimestamp 2025 1 5 43200) = iso_year (mkTimestamp 2024 12 31 0)) <->
  (toordinal (mkTimestamp 2024 12 31 0) - weekday (mkTimestamp 2024 12 31 0)
   <= toordinal (mkTimestamp 2025 1 5 43200)
   <= toordinal (mkTimestamp 2024 12 31 0) - weekday (mkTimestamp 2024 12 31 0) + 6).
Proof.
  apply (week_filter_is_monday_to_sunday
           (mkTimestamp 2024 12 31 0) (mkTimestamp 2025 1 5 43200)); reflexivity.
Defined.
